(** * Review-Scraper: date utilities, scrape loop, adapters, fetcher, sample data

    A shallow embedding of the Python sources
    - [utils/date_utils.py]      (parse_date, is_date_in_range, should_stop_scraping)
    - [scrapers/base_scraper.py] (fallback_extract_reviews, scrape)
    - [scrapers/g2.py], [scrapers/capterra.py], [scrapers/trustpilot.py] (parse_review)
    - [utils/request_utils.py]   (fetch_with_retry)
    - [utils/sample_data.py]     (generate_sample_reviews)
    - [main.py]                  (validate_dates, get_scraper, save_output)
    together with the small part of the Python standard library they call
    ([re], [datetime.strptime], [strftime], [timedelta] arithmetic).

    Conventions.  Python [int] is [Z].  Python [str] is [string]: a sequence of
    code points below 256.  [None] is [None]; a caught exception is [None] of an
    [option].  Network and randomness are oracles threaded as explicit state. *)

From Stdlib Require Import List String Ascii ZArith QArith Lia Bool Arith.
Import ListNotations.
Close Scope Q_scope.
Open Scope string_scope.
Open Scope Z_scope.
Set Warnings "-register-all".

(* ================================================================= *)
(** ** Characters and strings, as Python's [str] methods see them *)

Module Str.

Definition code (c : ascii) : Z := Z.of_nat (nat_of_ascii c).

Definition between (lo hi : ascii) (c : ascii) : bool :=
  (code lo <=? code c) && (code c <=? code hi).

(** [\d] and [str.isdigit] on code points below 256 (superscripts aside,
    which only [isdigit] accepts and which no pattern here uses). *)
Definition is_digit (c : ascii) : bool := between "0" "9" c.

(** [str.isspace] and [\s]: TAB..CR, FS..US, SPACE, NEL, NBSP. *)
Definition is_space (c : ascii) : bool :=
  between "009" "013" c || between "028" "032" c
  || (code c =? 133) || (code c =? 160).

Definition is_upper_az (c : ascii) : bool := between "A" "Z" c.
Definition is_lower_az (c : ascii) : bool := between "a" "z" c.

(** [str.lower] on one code point: A-Z and the Latin-1 capitals. *)
Definition lower_char (c : ascii) : ascii :=
  if is_upper_az c
     || ((192 <=? code c) && (code c <=? 222) && negb (code c =? 215))
  then ascii_of_nat (nat_of_ascii c + 32) else c.

Fixpoint lower (s : string) : string :=
  match s with
  | EmptyString => EmptyString
  | String c s' => String (lower_char c) (lower s')
  end.

Definition is_empty (s : string) : bool :=
  match s with EmptyString => true | _ => false end.

(** Python truthiness of a [str]. *)
Definition truthy (s : string) : bool := negb (is_empty s).

Fixpoint lstrip (s : string) : string :=
  match s with
  | String c s' => if is_space c then lstrip s' else s
  | EmptyString => EmptyString
  end.

Fixpoint rstrip (s : string) : string :=
  match s with
  | String c s' =>
      let r := rstrip s' in
      if is_empty r && is_space c then EmptyString else String c r
  | EmptyString => EmptyString
  end.

(** [s.strip()] *)
Definition strip (s : string) : string := rstrip (lstrip s).

Fixpoint starts_with (p s : string) : bool :=
  match p, s with
  | EmptyString, _ => true
  | String a p', String b s' => Ascii.eqb a b && starts_with p' s'
  | String _ _, EmptyString => false
  end.

(** [sub in s] *)
Fixpoint contains (sub s : string) : bool :=
  starts_with sub s ||
  match s with
  | EmptyString => false
  | String _ s' => contains sub s'
  end.

Definition len (s : string) : Z := Z.of_nat (String.length s).

(** [str.isalnum] on one code point: ASCII letters and digits and the
    letters and numerals of Latin-1. *)
Definition is_alnum (c : ascii) : bool :=
  is_digit c || is_upper_az c || is_lower_az c
  || existsb (Z.eqb (code c)) [170; 178; 179; 181; 185; 186; 188; 189; 190]
  || ((192 <=? code c) && negb (code c =? 215) && negb (code c =? 247)).

(** [s.replace(c, t)] for a one-character [c]. *)
Fixpoint replace_char (c : ascii) (t : string) (s : string) : string :=
  match s with
  | EmptyString => EmptyString
  | String x s' =>
      if Ascii.eqb x c then t ++ replace_char c t s'
      else String x (replace_char c t s')
  end.

(** [''.join(c for c in s if keep(c))] *)
Fixpoint filter_chars (keep : ascii -> bool) (s : string) : string :=
  match s with
  | EmptyString => EmptyString
  | String x s' =>
      if keep x then String x (filter_chars keep s') else filter_chars keep s'
  end.

Definition digit_val (c : ascii) : Z := code c - 48.

Fixpoint int_digits (acc : Z) (s : string) : option Z :=
  match s with
  | EmptyString => Some acc
  | String c s' =>
      if is_digit c then int_digits (acc * 10 + digit_val c) s' else None
  end.

(** [int(s)] for an unsigned decimal literal, surrounding whitespace allowed;
    [None] stands for [ValueError]. *)
Definition int_of (s : string) : option Z :=
  match strip s with
  | EmptyString => None
  | t => int_digits 0 t
  end.

Definition digit_char (n : Z) : ascii :=
  if n =? 0 then "0" else if n =? 1 then "1" else if n =? 2 then "2"
  else if n =? 3 then "3" else if n =? 4 then "4" else if n =? 5 then "5"
  else if n =? 6 then "6" else if n =? 7 then "7" else if n =? 8 then "8"
  else "9".

(** [%02d] and [%04d] *)
Definition pad2 (n : Z) : string :=
  String (digit_char (n / 10)) (String (digit_char (n mod 10)) "").

Definition pad4 (n : Z) : string :=
  String (digit_char (n / 1000))
    (String (digit_char (n / 100 mod 10))
       (String (digit_char (n / 10 mod 10))
          (String (digit_char (n mod 10)) ""))).

End Str.

(* ================================================================= *)
(** ** The fragment of Python's backtracking [re] that the program uses *)

Module Re.

Inductive re : Type :=
| Eps
| Chr (p : ascii -> bool)          (* one character of a class *)
| Cat (r1 r2 : re)
| Alt (r1 r2 : re)                 (* r1|r2, r1 tried first *)
| Star (p : ascii -> bool)         (* greedy [class]* *)
| Grp (name : string) (r : re).    (* (?P<name>r) *)

Definition groups := list (string * string).

Section Matcher.
Context {R : Type}.

(** Greedy star of a character class: longest run first, then shorter. *)
Fixpoint star (p : ascii -> bool) (s : string)
         (k : string -> string -> option R) : option R :=
  match s with
  | String c s' =>
      if p c then
        match star p s' (fun m rest => k (String c m) rest) with
        | Some x => Some x
        | None => k "" s
        end
      else k "" s
  | EmptyString => k "" s
  end.

(** [rmatch r s g k]: match [r] at the start of [s]; the continuation
    receives the matched text, the remaining input and the groups, and a
    [None] from it makes the matcher backtrack. *)
Fixpoint rmatch (r : re) (s : string) (g : groups)
         (k : string -> string -> groups -> option R) : option R :=
  match r with
  | Eps => k "" s g
  | Chr p =>
      match s with
      | String c s' => if p c then k (String c "") s' g else None
      | EmptyString => None
      end
  | Cat r1 r2 =>
      rmatch r1 s g (fun m1 s1 g1 =>
        rmatch r2 s1 g1 (fun m2 s2 g2 => k (m1 ++ m2) s2 g2))
  | Alt r1 r2 =>
      match rmatch r1 s g k with
      | Some x => Some x
      | None => rmatch r2 s g k
      end
  | Star p => star p s (fun m rest => k m rest g)
  | Grp name r1 =>
      rmatch r1 s g (fun m s1 g1 => k m s1 ((name, m) :: g1))
  end.
End Matcher.

(** [re.match(r, s)]: matched text, unread rest, groups. *)
Definition match_ (r : re) (s : string) : option (string * string * groups) :=
  rmatch r s [] (fun m rest g => Some (m, rest, g)).

(** [re.search(r, s)]: leftmost position where [r] matches. *)
Fixpoint search (r : re) (s : string) : option (string * string * groups) :=
  match match_ r s with
  | Some x => Some x
  | None =>
      match s with
      | String _ s' => search r s'
      | EmptyString => None
      end
  end.

Fixpoint group (name : string) (g : groups) : option string :=
  match g with
  | [] => None
  | (n, v) :: g' => if String.eqb n name then Some v else group name g'
  end.

(** Derived forms. *)
Definition chr (c : ascii) : re := Chr (Ascii.eqb c).
Definition chr_i (c : ascii) : re :=
  Chr (fun x => Ascii.eqb (Str.lower_char x) (Str.lower_char c)).
Definition digit : re := Chr Str.is_digit.
Definition rng (lo hi : ascii) : re := Chr (Str.between lo hi).
Definition plus (p : ascii -> bool) : re := Cat (Chr p) (Star p).
Definition opt (r : re) : re := Alt r Eps.

Fixpoint lit (s : string) : re :=
  match s with
  | EmptyString => Eps
  | String c s' => Cat (chr c) (lit s')
  end.

(** A literal under [re.IGNORECASE]. *)
Fixpoint lit_i (s : string) : re :=
  match s with
  | EmptyString => Eps
  | String c s' => Cat (chr_i c) (lit_i s')
  end.

Fixpoint alts (rs : list re) : re :=
  match rs with
  | [] => Chr (fun _ => false)
  | [r] => r
  | r :: rs' => Alt r (alts rs')
  end.

End Re.

(* ================================================================= *)
(** ** [datetime]: naive datetimes, ordinals, [strptime], [strftime] *)

Module Datetime.

Record datetime : Type := mkdt
  { year : Z; month : Z; day : Z; hour : Z; minute : Z; second : Z }.

Definition MINYEAR : Z := 1.
Definition MAXYEAR : Z := 9999.
Definition MAXORDINAL : Z := 3652059.

Definition is_leap (y : Z) : bool :=
  (y mod 4 =? 0) && (negb (y mod 100 =? 0) || (y mod 400 =? 0)).

Definition DAYS_IN_MONTH : list Z :=
  [-1; 31; 28; 31; 30; 31; 30; 31; 31; 30; 31; 30; 31].

Definition DAYS_BEFORE_MONTH : list Z :=
  [-1; 0; 31; 59; 90; 120; 151; 181; 212; 243; 273; 304; 334].

Definition b2z (b : bool) : Z := if b then 1 else 0.

Definition days_in_month (y m : Z) : Z :=
  if (m =? 2) && is_leap y then 29
  else nth (Z.to_nat m) DAYS_IN_MONTH 0.

Definition days_before_year (y : Z) : Z :=
  let y1 := y - 1 in y1 * 365 + y1 / 4 - y1 / 100 + y1 / 400.

Definition days_before_month (y m : Z) : Z :=
  nth (Z.to_nat m) DAYS_BEFORE_MONTH 0 + b2z ((2 <? m) && is_leap y).

Definition ymd2ord (y m d : Z) : Z :=
  days_before_year y + days_before_month y m + d.

Definition DI400Y : Z := 146097.
Definition DI100Y : Z := 36524.
Definition DI4Y : Z := 1461.

(** [_ord2ymd]: ordinal to (year, month, day), 0001-01-01 being day 1. *)
Definition ord2ymd (n0 : Z) : Z * Z * Z :=
  let n := n0 - 1 in
  let n400 := n / DI400Y in let n := n mod DI400Y in
  let y := n400 * 400 + 1 in
  let n100 := n / DI100Y in let n := n mod DI100Y in
  let n4 := n / DI4Y in let n := n mod DI4Y in
  let n1 := n / 365 in let n := n mod 365 in
  let y := y + n100 * 100 + n4 * 4 + n1 in
  if (n1 =? 4) || (n100 =? 4) then (y - 1, 12, 31)
  else
    let leapyear := (n1 =? 3) && (negb (n4 =? 24) || (n100 =? 3)) in
    let m := Z.shiftr (n + 50) 5 in
    let preceding :=
      nth (Z.to_nat m) DAYS_BEFORE_MONTH 0 + b2z ((2 <? m) && leapyear) in
    if n <? preceding then
      let m' := m - 1 in
      let preceding' :=
        preceding - (nth (Z.to_nat m') DAYS_IN_MONTH 0
                     + b2z ((m' =? 2) && leapyear)) in
      (y, m', n - preceding' + 1)
    else (y, m, n - preceding + 1).

(** What the [date] and [datetime] constructors accept. *)
Definition valid_date (y m d : Z) : bool :=
  (MINYEAR <=? y) && (y <=? MAXYEAR) && (1 <=? m) && (m <=? 12)
  && (1 <=? d) && (d <=? days_in_month y m).

Definition valid_time (h mi s : Z) : bool :=
  (0 <=? h) && (h <=? 23) && (0 <=? mi) && (mi <=? 59)
  && (0 <=? s) && (s <=? 59).

Definition valid (d : datetime) : bool :=
  valid_date (year d) (month d) (day d)
  && valid_time (hour d) (minute d) (second d).

Definition toordinal (d : datetime) : Z := ymd2ord (year d) (month d) (day d).

Definition seconds_of_day (d : datetime) : Z :=
  second d + minute d * 60 + hour d * 3600.

(** Comparison of naive datetimes: field by field, most significant first. *)
Definition cmp (a b : datetime) : comparison :=
  match year a ?= year b with
  | Eq =>
      match month a ?= month b with
      | Eq =>
          match day a ?= day b with
          | Eq =>
              match hour a ?= hour b with
              | Eq =>
                  match minute a ?= minute b with
                  | Eq => second a ?= second b
                  | c => c
                  end
              | c => c
              end
          | c => c
          end
      | c => c
      end
  | c => c
  end.

(** [a < b], [a <= b], [a > b] *)
Definition ltb (a b : datetime) : bool :=
  match cmp a b with Lt => true | _ => false end.
Definition leb (a b : datetime) : bool :=
  match cmp a b with Gt => false | _ => true end.
Definition gtb (a b : datetime) : bool := ltb b a.

(** [(a - b).days]: a [timedelta] keeps its seconds in [0, 86400). *)
Definition sub_days (a b : datetime) : Z :=
  (toordinal a - toordinal b)
  + (seconds_of_day a - seconds_of_day b) / 86400.

(** [d + timedelta(days=k)]; [None] is [OverflowError]. *)
Definition add_days (d : datetime) (k : Z) : option datetime :=
  let o := toordinal d + k in
  if (0 <? o) && (o <=? MAXORDINAL) then
    let '(y, m, dd) := ord2ymd o in
    Some (mkdt y m dd (hour d) (minute d) (second d))
  else None.

(** *** Locale data of the C locale *)

Definition month_name : list string :=
  [""; "January"; "February"; "March"; "April"; "May"; "June"; "July";
   "August"; "September"; "October"; "November"; "December"].

Definition month_abbr : list string :=
  [""; "Jan"; "Feb"; "Mar"; "Apr"; "May"; "Jun"; "Jul"; "Aug"; "Sep"; "Oct";
   "Nov"; "Dec"].

Definition f_month : list string := map Str.lower month_name.
Definition a_month : list string := map Str.lower month_abbr.

(** *** [strftime], for the directives the default formats use.
    [%Y] prints four digits, as the library documents it. *)
Fixpoint strftime (d : datetime) (fmt : string) : string :=
  match fmt with
  | EmptyString => EmptyString
  | String "%" (String c rest) =>
      (if Ascii.eqb c "Y" then Str.pad4 (year d)
       else if Ascii.eqb c "m" then Str.pad2 (month d)
       else if Ascii.eqb c "d" then Str.pad2 (day d)
       else if Ascii.eqb c "H" then Str.pad2 (hour d)
       else if Ascii.eqb c "M" then Str.pad2 (minute d)
       else if Ascii.eqb c "S" then Str.pad2 (second d)
       else if Ascii.eqb c "B" then nth (Z.to_nat (month d)) month_name ""
       else if Ascii.eqb c "b" then nth (Z.to_nat (month d)) month_abbr ""
       else String "%" (String c ""))
      ++ strftime d rest
  | String c rest => String c (strftime d rest)
  end.

(** *** [_strptime.TimeRE]: the regex of each directive *)

(** [sorted(names, key=len, reverse=True)]: stable, longest first. *)
Fixpoint insert_by_len (x : string) (l : list string) : list string :=
  match l with
  | [] => [x]
  | y :: l' =>
      if (String.length y <=? String.length x)%nat then x :: l
      else y :: insert_by_len x l'
  end.

Definition sorted_by_len (l : list string) : list string :=
  fold_right insert_by_len [] l.

Definition seqToRE (names : list string) (directive : string) : Re.re :=
  Re.Grp directive (Re.alts (map Re.lit_i (sorted_by_len names))).

Import Re.

Definition re_d : re :=
  Grp "d" (alts [Cat (chr "3") (rng "0" "1"); Cat (rng "1" "2") digit;
                 Cat (chr "0") (rng "1" "9"); rng "1" "9";
                 Cat (chr " ") (rng "1" "9")]).
Definition re_m : re :=
  Grp "m" (alts [Cat (chr "1") (rng "0" "2"); Cat (chr "0") (rng "1" "9");
                 rng "1" "9"]).
Definition re_Y : re := Grp "Y" (Cat digit (Cat digit (Cat digit digit))).
Definition re_H : re :=
  Grp "H" (alts [Cat (chr "2") (rng "0" "3"); Cat (rng "0" "1") digit; digit]).
Definition re_M : re :=
  Grp "M" (alts [Cat (rng "0" "5") digit; digit]).
Definition re_S : re :=
  Grp "S" (alts [Cat (chr "6") (rng "0" "1"); Cat (rng "0" "5") digit; digit]).
Definition re_B : re := seqToRE (tl f_month) "B".
Definition re_b : re := seqToRE (tl a_month) "b".

(** The directives of the default formats; any other one is answered as a
    bad directive ([ValueError]). *)
Definition directive (c : ascii) : option re :=
  if Ascii.eqb c "d" then Some re_d
  else if Ascii.eqb c "m" then Some re_m
  else if Ascii.eqb c "Y" then Some re_Y
  else if Ascii.eqb c "H" then Some re_H
  else if Ascii.eqb c "M" then Some re_M
  else if Ascii.eqb c "S" then Some re_S
  else if Ascii.eqb c "B" then Some re_B
  else if Ascii.eqb c "b" then Some re_b
  else None.

(** [TimeRE.pattern]: a run of whitespace becomes [\s+], [%x] the regex of
    the directive, any other character itself. *)
Fixpoint pattern_from (after_space : bool) (fmt : string) : option re :=
  match fmt with
  | EmptyString => Some Eps
  | String "%" EmptyString => None
  | String "%" (String c rest) =>
      match directive c, pattern_from false rest with
      | Some r, Some p => Some (Cat r p)
      | _, _ => None
      end
  | String c rest =>
      if Str.is_space c then
        match pattern_from true rest with
        | Some p => Some (if after_space then p else Cat (plus Str.is_space) p)
        | None => None
        end
      else
        match pattern_from false rest with
        | Some p => Some (Cat (chr_i c) p)
        | None => None
        end
  end.

Definition pattern (fmt : string) : option re := pattern_from false fmt.

Fixpoint index_of (x : string) (l : list string) (i : Z) : option Z :=
  match l with
  | [] => None
  | y :: l' => if String.eqb x y then Some i else index_of x l' (i + 1)
  end.

Definition opt_bind {A B} (o : option A) (f : A -> option B) : option B :=
  match o with Some a => f a | None => None end.

Definition int_group (name : string) (g : groups) (default : Z) : option Z :=
  match group name g with
  | Some v => Str.int_of v
  | None => Some default
  end.

(** [datetime.strptime(data_string, format)]; [None] is [ValueError]. *)
Definition strptime (data_string format : string) : option datetime :=
  opt_bind (pattern format) (fun r =>
  opt_bind (match_ r data_string) (fun '(_, rest, g) =>
  if Str.truthy rest then None (* unconverted data remains *) else
  let year := match group "Y" g with
              | Some v => option_map Some (Str.int_of v)
              | None => Some None
              end in
  let month :=
    match group "B" g, group "b" g with
    | Some v, _ => index_of (Str.lower v) f_month 0
    | None, Some v => index_of (Str.lower v) a_month 0
    | None, None => int_group "m" g 1
    end in
  opt_bind year (fun year =>
  opt_bind month (fun month =>
  opt_bind (int_group "d" g 1) (fun day =>
  opt_bind (int_group "H" g 0) (fun hour =>
  opt_bind (int_group "M" g 0) (fun minute =>
  opt_bind (int_group "S" g 0) (fun second =>
  let year :=
    match year with
    | Some y => y
    | None => 1900
    end in
  let d := mkdt year month day hour minute second in
  if valid d then Some d else None)))))))).

End Datetime.

(* ================================================================= *)
(** ** [utils/date_utils.py] *)

Module DateUtils.
Import Datetime.

Definition default_formats : list string :=
  ["%Y-%m-%d";
   "%B %d, %Y";
   "%b %d, %Y";
   "%d %B %Y";
   "%d %b %Y";
   "%m/%d/%Y";
   "%d/%m/%Y";
   "%Y-%m-%d %H:%M:%S"].

(** The [for fmt in formats: try ... except ValueError: continue] loop. *)
Fixpoint try_formats (date_str : string) (formats : list string)
  : option datetime :=
  match formats with
  | [] => None
  | fmt :: rest =>
      match strptime (Str.strip date_str) fmt with
      | Some d => Some d
      | None => try_formats date_str rest
      end
  end.

Definition parse_date (date_str : string) (formats : option (list string))
  : option datetime :=
  let formats :=
    match formats with
    | None => default_formats
    | Some l => l
    end in
  try_formats date_str formats.

Definition is_date_in_range (review_date start_date end_date : datetime)
  : bool :=
  leb start_date review_date && leb review_date end_date.

Definition should_stop_scraping (review_date : option datetime)
           (start_date : datetime) : bool :=
  match review_date with
  | None => false
  | Some d => ltb d start_date
  end.

End DateUtils.

(* ================================================================= *)
(** ** The parsed document: the part of BeautifulSoup the program uses *)

Module Bs4.

(** A [Tag] carries its name, the values of its [class] attribute ([[]] when
    it has none), its other attributes and its children; [Text] is a string
    of the document that [get_text] returns. *)
Inductive node : Type :=
| Text (s : string)
| Tag (name : string) (classes : list string)
      (attrs : list (string * string)) (children : list node).

Definition is_tag (n : node) : bool :=
  match n with Tag _ _ _ _ => true | Text _ => false end.

Definition children_of (n : node) : list node :=
  match n with Tag _ _ _ cs => cs | Text _ => [] end.

(** Everything below a node, in document order. *)
Fixpoint descendants (n : node) : list node :=
  match n with
  | Text _ => []
  | Tag _ _ _ cs =>
      (fix go (l : list node) : list node :=
         match l with
         | [] => []
         | c :: l' => (c :: descendants c ++ go l')%list
         end) cs
  end.

(** The strings below a node ([Tag._all_strings]). *)
Fixpoint strings (n : node) : list string :=
  match n with
  | Text s => [s]
  | Tag _ _ _ cs =>
      (fix go (l : list node) : list string :=
         match l with
         | [] => []
         | c :: l' => (strings c ++ go l')%list
         end) cs
  end.

(** [tag.get_text()] *)
Definition get_text (n : node) : string := String.concat "" (strings n).

(** [tag.get_text(strip=True)]: every string stripped, empty ones dropped. *)
Definition get_text_strip (n : node) : string :=
  String.concat ""
    (filter Str.truthy (map Str.strip (strings n))).

(** [tag.get(name, '')] *)
Fixpoint get_attr (name : string) (attrs : list (string * string)) : string :=
  match attrs with
  | [] => ""
  | (k, v) :: rest => if String.eqb k name then v else get_attr name rest
  end.

Definition attr (name : string) (n : node) : string :=
  match n with Tag _ _ as_ _ => get_attr name as_ | Text _ => "" end.

Definition tag_name (n : node) : string :=
  match n with Tag nm _ _ _ => nm | Text _ => "" end.

Definition classes_of (n : node) : list string :=
  match n with Tag _ cl _ _ => cl | Text _ => [] end.

Definition name_in (names : list string) (n : node) : bool :=
  is_tag n && existsb (String.eqb (tag_name n)) names.

(** A function given for the multi-valued [class] attribute is tried on
    every class, then on the classes joined by spaces. *)
Definition class_matches (f : string -> bool) (n : node) : bool :=
  existsb f (classes_of n) || f (String.concat " " (classes_of n)).

(** [lambda x: x and kw in x.lower()], for one of several keywords. *)
Definition has_keyword (kws : list string) (x : string) : bool :=
  Str.truthy x && existsb (fun kw => Str.contains kw (Str.lower x)) kws.

Definition class_has (kws : list string) : node -> bool :=
  class_matches (has_keyword kws).

Definition any_attrs : node -> bool := fun _ => true.

Definition take {A} (limit : option nat) (l : list A) : list A :=
  match limit with
  | None => l
  | Some n => firstn n l
  end.

(** [tag.find_all(names, attrs, limit=...)] *)
Definition find_all (names : list string) (attrs : node -> bool)
           (limit : option nat) (n : node) : list node :=
  take limit (filter (fun d => name_in names d && attrs d) (descendants n)).

(** [tag.find(names, attrs)] *)
Definition find (names : list string) (attrs : node -> bool) (n : node)
  : option node :=
  hd_error (find_all names attrs None n).

End Bs4.

(* ================================================================= *)
(** ** Review records and the three source adapters' [parse_review] *)

Record review : Type := mkreview
  { title : string; review_text : string; review_date : string;
    reviewer : string; rating : string; source : string }.

Module Extract.
Import Bs4 Re.

(** [str(n)] for a count. *)
Fixpoint dec_digits (fuel : nat) (n : Z) (acc : string) : string :=
  match fuel with
  | O => acc
  | S f =>
      let acc' := String (Str.digit_char (n mod 10)) acc in
      if n / 10 =? 0 then acc' else dec_digits f (n / 10) acc'
  end.

Definition str_of_int (n : Z) : string :=
  dec_digits (S (Z.to_nat (Z.log2_up n))) n "".

(** [for tag, attrs in selectors: e = element.find(tag, attrs); if e: ... break] *)
Fixpoint first_found (selectors : list (list string * (node -> bool)))
         (element : node) : option node :=
  match selectors with
  | [] => None
  | (names, attrs) :: rest =>
      match find names attrs element with
      | Some e => Some e
      | None => first_found rest element
      end
  end.

(** [s.split('\n')] *)
Fixpoint split_lines (s : string) : list string :=
  match s with
  | EmptyString => [""]
  | String c s' =>
      if Ascii.eqb c "010" then "" :: split_lines s'
      else
        match split_lines s' with
        | [] => [String c ""]
        | l :: ls => String c l :: ls
        end
  end.

Definition matches (r : re) (s : string) : bool :=
  match match_ r s with Some _ => true | None => false end.

(** [^\d+[/-]\d+] *)
Definition re_leading_date : re :=
  Cat (plus Str.is_digit)
    (Cat (Chr (fun c => Ascii.eqb c "/" || Ascii.eqb c "-"))
       (plus Str.is_digit)).

(** [^\d+\.?\d*\s*(star|out of)] *)
Definition re_leading_rating : re :=
  Cat (plus Str.is_digit)
    (Cat (opt (chr "."))
       (Cat (Star Str.is_digit)
          (Cat (Star Str.is_space) (Alt (lit "star") (lit "out of"))))).

(** [\d{1,2}] and [\d{2,4}] *)
Definition digits_1_2 : re := Cat digit (opt digit).
Definition digits_2_4 : re := Cat digit (Cat digit (opt (Cat digit (opt digit)))).

Definition sep : re := Chr (fun c => Ascii.eqb c "/" || Ascii.eqb c "-").

(** The three [date_patterns], each one group around the whole pattern. *)
Definition date_patterns : list re :=
  [ Cat digit (Cat digit (Cat digit (Cat digit (Cat (chr "-")
      (Cat digit (Cat digit (Cat (chr "-") (Cat digit digit))))))));
    Cat digits_1_2 (Cat sep (Cat digits_1_2 (Cat sep digits_2_4)));
    Cat (Chr Str.is_upper_az) (Cat (plus Str.is_lower_az) (Cat (chr " ")
      (Cat digits_1_2 (Cat (chr ",") (Cat (chr " ")
        (Cat digit (Cat digit (Cat digit digit)))))))) ].

(** [for pattern in patterns: m = re.search(pattern, text); if m: ... break] *)
Fixpoint first_search (patterns : list re) (text : string) : option string :=
  match patterns with
  | [] => None
  | p :: rest =>
      match search p text with
      | Some (m, _, _) => Some m
      | None => first_search rest text
      end
  end.

(** [date_elem.get('datetime', '') or date_elem.get_text(strip=True)] *)
Definition time_value (date_elem : node) : string :=
  let v := attr "datetime" date_elem in
  if Str.truthy v then v else get_text_strip date_elem.

(** The date block of the G2 and Capterra adapters. *)
Definition date_with_patterns (review_element : node) : string :=
  match find ["time"] any_attrs review_element with
  | Some date_elem => time_value date_elem
  | None =>
      match find ["span"; "div"] (class_has ["date"]) review_element with
      | Some date_elem => get_text_strip date_elem
      | None =>
          match first_search date_patterns (get_text review_element) with
          | Some m => m
          | None => ""
          end
      end
  end.

(** The pattern [\d+\.?\d*], one group around it. *)
Definition re_number : re :=
  Cat (plus Str.is_digit) (Cat (opt (chr ".")) (Star Str.is_digit)).

Definition count_flagged (markup : node -> string) (flags : list string)
           (stars : list node) : string :=
  str_of_int
    (Z.of_nat
       (List.length
          (filter (fun s =>
                     existsb (fun f => Str.contains f (Str.lower (markup s)))
                             flags) stars))).

(** The rating block of the G2 and Capterra adapters; [markup] is [str(tag)]. *)
Definition rating_of (markup : node -> string) (review_element : node)
  : string :=
  match find ["div"; "span"] (class_has ["rating"]) review_element with
  | Some rating_elem =>
      match search re_number (get_text_strip rating_elem) with
      | Some (m, _, _) => m
      | None =>
          match find_all ["svg"; "i"; "span"] (class_has ["star"]) None
                         rating_elem with
          | [] => ""
          | stars => count_flagged markup ["filled"; "full"; "active"] stars
          end
      end
  | None => ""
  end.

(** The reviewer block of the G2 and Capterra adapters. *)
Definition reviewer_of (review_element : node) : string :=
  match first_found
          [ (["a"], class_has ["user"; "author"; "reviewer"]);
            (["span"], class_has ["user"; "author"; "reviewer"]);
            (["div"], class_has ["user"; "author"]) ] review_element with
  | Some reviewer_elem => get_text_strip reviewer_elem
  | None => ""
  end.

Definition text_of (o : option node) : string :=
  match o with Some e => get_text_strip e | None => "" end.

(** [if review['review_text'] or review['title']: return review] and the
    final [return None]. *)
Definition keep (r : review) : option review :=
  if Str.truthy (review_text r) || Str.truthy (title r) then Some r else None.

End Extract.

(** The [company_slug] that the three [get_company_url] build. *)
Definition company_slug (company : string) : string :=
  let company_slug :=
    Str.replace_char "." ""
      (Str.replace_char "&" "and"
         (Str.replace_char " " "-" (Str.lower company))) in
  Str.filter_chars (fun c => Str.is_alnum c || Ascii.eqb c "-") company_slug.

Module G2.
Import Bs4 Re Extract.

Definition get_source_name : string := "g2".

Definition get_company_url (company : string) : string :=
  "https://www.g2.com/products/" ++ company_slug company ++ "/reviews".

Definition title_selectors : list (list string * (node -> bool)) :=
  [ (["h2"], any_attrs); (["h3"], any_attrs); (["h4"], any_attrs);
    (["h5"], any_attrs);
    (["div"], class_has ["title"]); (["span"], class_has ["title"]) ].

Definition text_selectors : list (list string * (node -> bool)) :=
  [ (["p"], class_has ["review"; "text"; "content"; "body"; "description"]);
    (["div"], class_has ["review"; "text"; "content"; "body"; "description"]);
    (["span"], class_has ["review"; "text"; "content"; "description"]);
    (["p"], any_attrs);
    (["div"], any_attrs) ].

(** One turn of the inner loop that keeps the longest plausible text. *)
Definition longer (longest_text : string) (text_elem : node) : string :=
  let text := get_text_strip text_elem in
  if (Str.len text >? Str.len longest_text) && (Str.len text >? 30) then
    if negb (matches re_leading_date text)
       && negb (matches re_leading_rating (Str.lower text))
    then text else longest_text
  else longest_text.

Definition longest_text (review_element : node) : string :=
  fold_left
    (fun acc '(names, attrs) =>
       fold_left longer (find_all names attrs None review_element) acc)
    text_selectors "".

Definition fallback_text (review_element : node) : string :=
  let all_text := get_text_strip review_element in
  let lines :=
    map Str.strip
        (filter (fun line => Str.len (Str.strip line) >? 30)
                (split_lines all_text)) in
  match lines with
  | [] => ""
  | _ => String.concat " " (firstn 3 lines)
  end.

Definition parse_review (markup : node -> string) (review_element : node)
  : option review :=
  let title := text_of (first_found title_selectors review_element) in
  let longest := longest_text review_element in
  let review_text :=
    if Str.truthy longest then longest else fallback_text review_element in
  keep (mkreview title review_text (date_with_patterns review_element)
          (reviewer_of review_element) (rating_of markup review_element) "g2").

End G2.

Module Capterra.
Import Bs4 Re Extract.

Definition get_source_name : string := "capterra".

Definition get_company_url (company : string) : string :=
  "https://www.capterra.com/p/" ++ company_slug company ++ "/reviews".

Definition title_selectors : list (list string * (node -> bool)) :=
  [ (["h2"], any_attrs); (["h3"], any_attrs); (["h4"], any_attrs);
    (["div"], class_has ["title"]); (["span"], class_has ["title"]) ].

Definition text_selectors : list (list string * (node -> bool)) :=
  [ (["p"], class_has ["review"; "text"; "content"; "body"]);
    (["div"], class_has ["review"; "text"; "content"; "body"]);
    (["span"], class_has ["review"; "text"; "content"]);
    (["p"], any_attrs) ].

(** First selector whose first hit carries more than 20 characters. *)
Fixpoint first_text (selectors : list (list string * (node -> bool)))
         (review_element : node) : string :=
  match selectors with
  | [] => ""
  | (names, attrs) :: rest =>
      match find names attrs review_element with
      | Some text_elem =>
          let text := get_text_strip text_elem in
          if Str.len text >? 20 then text else first_text rest review_element
      | None => first_text rest review_element
      end
  end.

Definition parse_review (markup : node -> string) (review_element : node)
  : option review :=
  keep (mkreview (text_of (first_found title_selectors review_element))
          (first_text text_selectors review_element)
          (date_with_patterns review_element)
          (reviewer_of review_element) (rating_of markup review_element)
          "capterra").

End Capterra.

Module Trustpilot.
Import Bs4 Re Extract.

Definition get_source_name : string := "trustpilot".

Definition get_company_url (company : string) : string :=
  "https://www.trustpilot.com/review/" ++ company_slug company ++ ".com".

Definition or_else {A} (a : option A) (b : option A) : option A :=
  match a with Some _ => a | None => b end.

Definition parse_review (markup : node -> string) (review_element : node)
  : option review :=
  let title_elem :=
    or_else (find ["h2"] any_attrs review_element)
            (find ["h3"] any_attrs review_element) in
  let text_elem :=
    or_else (find ["p"] (class_has ["review"; "text"; "content"]) review_element)
            (find ["div"] (class_has ["review"; "text"; "content"])
                  review_element) in
  let review_date :=
    match find ["time"] any_attrs review_element with
    | Some date_elem => time_value date_elem
    | None =>
        text_of (find ["span"] (class_has ["date"]) review_element)
    end in
  let reviewer_elem :=
    or_else (find ["a"] (class_has ["user"]) review_element)
            (find ["span"] (class_has ["user"; "author"; "name"])
                  review_element) in
  let rating :=
    match or_else (find ["div"] (class_has ["rating"]) review_element)
                  (find ["span"] (class_has ["rating"]) review_element) with
    | Some rating_elem =>
        match search re_number (get_text_strip rating_elem) with
        | Some (m, _, _) => m
        | None =>
            let stars :=
              match find_all ["svg"] any_attrs None rating_elem with
              | [] => find_all ["i"] (class_has ["star"]) None rating_elem
              | svgs => svgs
              end in
            match stars with
            | [] => ""
            | _ => count_flagged markup ["filled"; "full"] stars
            end
        end
    | None => ""
    end in
  keep (mkreview (text_of title_elem) (text_of text_elem) review_date
          (text_of reviewer_elem) rating "trustpilot").

End Trustpilot.

(** The three variants, selected by source name as [main.get_scraper] does. *)
Inductive adapter : Type := G2Scraper | CapterraScraper | TrustpilotScraper.

Definition get_scraper (source : string) : option adapter :=
  if String.eqb source "g2" then Some G2Scraper
  else if String.eqb source "capterra" then Some CapterraScraper
  else if String.eqb source "trustpilot" then Some TrustpilotScraper
  else None.

Definition get_source_name (a : adapter) : string :=
  match a with
  | G2Scraper => G2.get_source_name
  | CapterraScraper => Capterra.get_source_name
  | TrustpilotScraper => Trustpilot.get_source_name
  end.

Definition get_company_url (a : adapter) (company : string) : string :=
  match a with
  | G2Scraper => G2.get_company_url company
  | CapterraScraper => Capterra.get_company_url company
  | TrustpilotScraper => Trustpilot.get_company_url company
  end.

Definition parse_review (a : adapter) (markup : Bs4.node -> string)
  : Bs4.node -> option review :=
  match a with
  | G2Scraper => G2.parse_review markup
  | CapterraScraper => Capterra.parse_review markup
  | TrustpilotScraper => Trustpilot.parse_review markup
  end.

(* ================================================================= *)
(** ** [utils/request_utils.py]: [fetch_with_retry] *)

Module RequestUtils.

Record response : Type := mkresp { status_code : Z; content : string }.

(** What the caller can observe of one call, in order. *)
Inductive event : Type :=
| Request (url : string)          (* requests.get(url, headers=..., timeout=10) *)
| Sleep (seconds : Q).            (* time.sleep(seconds) *)

(** How a call ends: [return response], [return None], or the
    [ValueError] of [time.sleep], which no handler catches. *)
Inductive outcome : Type :=
| Return (r : option response)
| RaiseValueError.

(** [response.raise_for_status()] raises [HTTPError] on a 4xx or 5xx status. *)
Definition raise_for_status (r : response) : bool :=
  (400 <=? status_code r) && (status_code r <? 600).

Section Fetch.
Variable World : Type.
(** [requests.get]: a response, or [None] when it raises a
    [RequestException] (connection error, timeout, ...). *)
Variable requests_get : string -> World -> option response * World.

(** The body of the [try]: the response, or [None] when a
    [RequestException] was raised by the call or by [raise_for_status]. *)
Definition try_get (url : string) (w : World) : option response * World :=
  let '(r, w') := requests_get url w in
  match r with
  | Some resp => if raise_for_status resp then (None, w') else (Some resp, w')
  | None => (None, w')
  end.

(** [time.sleep(seconds)] raises [ValueError] for a negative length. *)
Definition sleep_raises (seconds : Q) : bool := negb (Qle_bool 0 seconds).

(** [for attempt in range(max_retries)], from [attempt] on, with
    [remaining] turns left.  The [time.sleep] of the handler is outside
    every [try]: when it raises, the call raises. *)
Fixpoint attempts (remaining : nat) (attempt : Z) (url : string)
         (max_retries : Z) (delay : Q) (w : World)
  : outcome * list event * World :=
  match remaining with
  | O => (Return None, [], w)
  | S remaining' =>
      let '(r, w1) := try_get url w in
      match r with
      | Some resp => (Return (Some resp), [Request url], w1)
      | None =>
          if attempt <? max_retries - 1 then
            let seconds := Qmult delay (inject_Z (attempt + 1)) in
            if sleep_raises seconds then (RaiseValueError, [Request url], w1)
            else
              let '(res, tr, w2) :=
                attempts remaining' (attempt + 1) url max_retries delay w1 in
              (res, Request url :: Sleep seconds :: tr, w2)
          else (Return None, [Request url], w1)
      end
  end.

Definition fetch_with_retry (url : string) (max_retries : Z) (delay : Q)
           (w : World) : outcome * list event * World :=
  attempts (Z.to_nat max_retries) 0 url max_retries delay w.

(** [fetch_with_retry(url)] with the defaults [max_retries=3], [delay=1.0]. *)
Definition fetch_with_retry_default (url : string) (w : World) :=
  fetch_with_retry url 3 (1 # 1)%Q w.

End Fetch.

Definition is_request (e : event) : bool :=
  match e with Request _ => true | Sleep _ => false end.

Definition requests_made (tr : list event) : nat :=
  List.length (filter is_request tr).

End RequestUtils.

(* ================================================================= *)
(** ** [utils/sample_data.py]: [generate_sample_reviews] *)

Module SampleData.
Import Datetime.

Definition positive_templates : list string :=
  [ "Great product! {company} has really helped our team improve productivity.";
    "Excellent tool. We've been using {company} for months and love it.";
    "Highly recommend {company}. It's user-friendly and powerful.";
    "Best decision we made. {company} transformed our workflow.";
    "Outstanding service. {company} exceeded our expectations.";
    "Love using {company}! It's intuitive and feature-rich.";
    "Perfect solution for our needs. {company} is fantastic.";
    "Great value for money. {company} delivers on all fronts.";
    "Impressive features. {company} has everything we need.";
    "Top-notch product. {company} is reliable and efficient." ].

Definition neutral_templates : list string :=
  [ "Decent product. {company} works well but could use some improvements.";
    "Good overall, but {company} has a learning curve.";
    "Solid tool. {company} meets most of our requirements.";
    "Not bad. {company} does the job but isn't perfect.";
    "Average experience with {company}. It's functional.";
    "Okay product. {company} works but could be better.";
    "Fair tool. {company} has pros and cons.";
    "Decent solution. {company} is adequate for our needs." ].

Definition negative_templates : list string :=
  [ "Could be better. {company} lacks some key features we need.";
    "Not impressed. {company} doesn't meet our expectations.";
    "Needs improvement. {company} has some usability issues.";
    "Disappointing. {company} didn't work as advertised." ].

Definition titles : list string :=
  [ "Great tool for teams"; "Solid product"; "Highly recommended";
    "Good value"; "Works well"; "Easy to use"; "Feature-rich";
    "Reliable solution"; "User-friendly"; "Powerful features" ].

Definition reviewer_names : list string :=
  [ "John Smith"; "Sarah Johnson"; "Michael Chen"; "Emily Rodriguez";
    "David Williams"; "Lisa Anderson"; "Robert Taylor"; "Jennifer Brown";
    "James Wilson"; "Maria Garcia"; "William Martinez"; "Patricia Davis";
    "Richard Miller"; "Linda Moore"; "Joseph Jackson"; "Barbara White" ].

(** [template.format(company=company)]: every [{company}] replaced. *)
Fixpoint format_from (skip : nat) (company template : string) : string :=
  match template with
  | EmptyString => EmptyString
  | String c rest =>
      match skip with
      | S k => format_from k company rest
      | O =>
          if Str.starts_with "{company}" template
          then company ++ format_from 8 company rest
          else String c (format_from 0 company rest)
      end
  end.

Definition format_company (template company : string) : string :=
  format_from 0 company template.

(** [reviews.sort(key=lambda x: x['review_date'], reverse=True)]: a stable
    sort, newest date string first. *)
Fixpoint insert_desc (x : review) (l : list review) : list review :=
  match l with
  | [] => [x]
  | y :: l' =>
      if String.leb (review_date y) (review_date x) then x :: l
      else y :: insert_desc x l'
  end.

Definition sort_desc (l : list review) : list review :=
  fold_right insert_desc [] l.

Section Gen.
(** The generator behind [random]: a state and one raw draw. *)
Variable Rng : Type.
Variable next : Rng -> Z * Rng.

Definition randbelow (n : Z) (g : Rng) : Z * Rng :=
  let '(x, g') := next g in (x mod n, g').

(** [random.randint(a, b)] *)
Definition randint (a b : Z) (g : Rng) : Z * Rng :=
  let '(x, g') := randbelow (b - a + 1) g in (a + x, g').

(** [random.choice(seq)] *)
Definition choice (seq : list string) (g : Rng) : string * Rng :=
  let '(i, g') := randbelow (Z.of_nat (List.length seq)) g in
  (nth (Z.to_nat i) seq "", g').

(** [random.random()] is [k / 2^53] for the integer [k] returned here. *)
Definition random53 (g : Rng) : Z * Rng := randbelow (2 ^ 53) g.

(** [random.random() > c], the constant [c] given as [c * 2^53]. *)
Definition random_gt (c53 : Z) (g : Rng) : bool * Rng :=
  let '(k, g') := random53 g in (k >? c53, g').

(** [random.choices([5, 4, 3, 2, 1], weights=[40, 30, 15, 10, 5])[0]]:
    the index is the number of cumulative weights, the last one aside,
    that are at most [random() * 100] (the product taken exactly). *)
Definition choices_rating (g : Rng) : Z * Rng :=
  let '(k, g') := random53 g in
  let i := List.length
             (filter (fun c => c * 2 ^ 53 <=? k * 100) [40; 70; 85; 95]) in
  (nth i [5; 4; 3; 2; 1] 1, g').

Definition half : Z := 4503599627370496.           (* 0.5 *)
Definition seven_tenths : Z := 6305039478318694.   (* the double 0.7 *)
Definition six_tenths : Z := 5404319552844595.     (* the double 0.6 *)

(** One turn of [for i in range(count)]; [None] is the [OverflowError]
    of the date addition. *)
Definition sample_review (company : string) (start_date : datetime)
           (days_range : Z) (source : string) (g : Rng)
  : option (review * Rng) :=
  let '(random_days, g) := randint 0 days_range g in
  match add_days start_date random_days with
  | None => None
  | Some review_date =>
      let '(rating, g) := choices_rating g in
      let '(template, g) :=
        if rating >=? 4 then choice positive_templates g
        else if rating =? 3 then choice neutral_templates g
        else choice negative_templates g in
      let review_text := format_company template company in
      let '(b1, g) := random_gt half g in
      let review_text :=
        if b1 then review_text ++ " The interface is clean and modern."
        else review_text in
      let '(b2, g) := random_gt seven_tenths g in
      let review_text :=
        if b2 then review_text ++ " Customer support is responsive."
        else review_text in
      let '(b3, g) := random_gt six_tenths g in
      let review_text :=
        if b3 then review_text ++ " Pricing is reasonable for what you get."
        else review_text in
      let '(title, g) := choice titles g in
      let '(reviewer, g) := choice reviewer_names g in
      Some (mkreview title review_text (strftime review_date "%Y-%m-%d")
              reviewer (Extract.str_of_int rating) source, g)
  end.

Fixpoint sample_loop (count : nat) (company : string)
         (start_date : datetime) (days_range : Z) (source : string)
         (reviews : list review) (g : Rng) : option (list review * Rng) :=
  match count with
  | O => Some (reviews, g)
  | S count' =>
      match sample_review company start_date days_range source g with
      | None => None
      | Some (review, g') =>
          sample_loop count' company start_date days_range source
                      (reviews ++ [review]) g'
      end
  end.

Definition generate_sample_reviews (company : string)
           (start_date end_date : datetime) (source : string) (count : Z)
           (g : Rng) : option (list review * Rng) :=
  let days_range := sub_days end_date start_date in
  let days_range := if days_range <? 1 then 365 else days_range in
  match sample_loop (Z.to_nat count) company start_date days_range source
                    [] g with
  | None => None
  | Some (reviews, g') => Some (sort_desc reviews, g')
  end.

End Gen.
End SampleData.

(* ================================================================= *)
(** ** [scrapers/base_scraper.py]: fallback extraction and the scrape loop *)

Module BaseScraper.
Import Bs4 Datetime DateUtils.

Definition review_keywords : list string :=
  ["review"; "rating"; "star"; "reviewed"; "feedback"].

Definition has_review_keywords (candidate : node) : bool :=
  let text := Str.lower (get_text candidate) in
  existsb (fun kw => Str.contains kw text) review_keywords.

Definition has_substantial_text (candidate : node) : bool :=
  Str.len (get_text_strip candidate) >? 100.

Definition has_multiple_elements (candidate : node) : bool :=
  Z.of_nat (List.length
              (find_all ["p"; "div"; "span"] any_attrs (Some 5%nat) candidate))
  >=? 2.

(** The [for candidate in candidates] loop with its [break] at 20. *)
Fixpoint collect (candidates : list node) (reviews : list node) : list node :=
  match candidates with
  | [] => reviews
  | candidate :: rest =>
      if has_review_keywords candidate && has_substantial_text candidate
         && has_multiple_elements candidate
      then
        let reviews' := (reviews ++ [candidate])%list in
        if Z.of_nat (List.length reviews') >=? 20 then reviews'
        else collect rest reviews'
      else collect rest reviews
  end.

Definition fallback_extract_reviews (soup : node) : list node :=
  collect
    (find_all ["div"; "article"; "li"; "section"] any_attrs (Some 100%nat) soup)
    [].

(** [parse_json_review] of the base class, which no adapter overrides. *)
Definition base_parse_json_review {json : Type} (json_data : json)
  : option review := None.

Definition is_nil {A} (l : list A) : bool :=
  match l with [] => true | _ => false end.

(** Why the [while] loop was left. *)
Inductive exit : Type :=
| NoUrl            (* [while url] found no URL *)
| FetchFailed      (* [soup is None] *)
| JsonDateStop     (* the [return] inside the embedded-JSON pass *)
| NoReviews        (* no element and no embedded review on the page *)
| DateStop         (* [page_stopped_early] *)
| PageLimit.       (* [page_num > 100] *)

Section Scrape.
(** The network behind [get_soup(url, use_selenium=SELENIUM_AVAILABLE)]. *)
Variable World : Type.
Variable get_soup : string -> World -> option node * World.

(** The dictionaries that [extract_reviews_from_json] finds in the script
    tags of a page and hands to [parse_json_review]. *)
Variable json : Type.
Variable json_items : node -> list json.
Variable parse_json_review : json -> option review.

(** The adapter. *)
Variable get_review_elements : node -> list node.
Variable parse_review : node -> option review.
Variable get_next_page_url : node -> string -> option string.

Variables start_date end_date : datetime.

Definition extract_reviews_from_json (soup : node) : list review :=
  flat_map (fun item =>
              match parse_json_review item with
              | Some review => [review]
              | None => []
              end) (json_items soup).

Definition in_range (review_date : option datetime) : bool :=
  match review_date with
  | Some d => is_date_in_range d start_date end_date
  | None => false
  end.

(** [for json_review in json_reviews]; [true] is the [return]. *)
Fixpoint scan_json (json_reviews : list review) (reviews : list review)
  : list review * bool :=
  match json_reviews with
  | [] => (reviews, false)
  | json_review :: rest =>
      let d := parse_date (review_date json_review) None in
      if in_range d then scan_json rest (reviews ++ [json_review])%list
      else if should_stop_scraping d start_date then (reviews, true)
      else scan_json rest reviews
  end.

(** [for element in review_elements]; [true] is [page_stopped_early]. *)
Fixpoint scan_elements (review_elements : list node) (reviews : list review)
  : list review * bool :=
  match review_elements with
  | [] => (reviews, false)
  | element :: rest =>
      match parse_review element with
      | None => scan_elements rest reviews
      | Some review =>
          let d := parse_date (review_date review) None in
          if should_stop_scraping d start_date then (reviews, true)
          else if in_range d then scan_elements rest (reviews ++ [review])%list
          else scan_elements rest reviews
      end
  end.

(** The elements of a page: the adapter's, or the fallback's when neither
    the adapter nor the embedded JSON found anything. *)
Definition page_elements (soup : node) (json_reviews : list review)
  : list node :=
  let review_elements := get_review_elements soup in
  if is_nil review_elements && is_nil json_reviews
  then fallback_extract_reviews soup
  else review_elements.

Record state : Type := mkstate
  { url : option string;       (* [url] *)
    page_num : Z;              (* [page_num] *)
    reviews : list review;     (* [self.reviews] *)
    world : World;
    fetched : list string }.   (* the URLs given to [get_soup] so far *)

Inductive step : Type :=
| Continue (st : state)
| Halt (e : exit) (st : state).

(** One turn of [while url:].  The progress messages and the dump of the
    first page under [debug_html/] write to the console and to disk only and
    are left out. *)
Definition page_step (st : state) : step :=
  match url st with
  | None => Halt NoUrl st
  | Some u =>
      if negb (Str.truthy u) then Halt NoUrl st else
      let '(soup, w) := get_soup u (world st) in
      let seen := (fetched st ++ [u])%list in
      match soup with
      | None => Halt FetchFailed (mkstate (url st) (page_num st) (reviews st) w seen)
      | Some soup =>
          let json_reviews := extract_reviews_from_json soup in
          let '(reviews1, returned) := scan_json json_reviews (reviews st) in
          if returned then
            Halt JsonDateStop (mkstate (url st) (page_num st) reviews1 w seen)
          else
            let review_elements := page_elements soup json_reviews in
            if is_nil review_elements && is_nil json_reviews then
              Halt NoReviews (mkstate (url st) (page_num st) reviews1 w seen)
            else
              let '(reviews2, page_stopped_early) :=
                scan_elements review_elements reviews1 in
              if page_stopped_early then
                Halt DateStop (mkstate (url st) (page_num st) reviews2 w seen)
              else
                let url' := get_next_page_url soup u in
                let page_num' := page_num st + 1 in
                if page_num' >? 100 then
                  Halt PageLimit (mkstate url' page_num' reviews2 w seen)
                else Continue (mkstate url' page_num' reviews2 w seen)
      end
  end.

(** The [while] loop; [None] only when [fuel] runs out. *)
Fixpoint scrape_loop (fuel : nat) (st : state) : option (exit * state) :=
  match fuel with
  | O => None
  | S fuel' =>
      match page_step st with
      | Halt e st' => Some (e, st')
      | Continue st' => scrape_loop fuel' st'
      end
  end.

(** The state after [n] whole turns, when the loop is still running. *)
Fixpoint after_pages (n : nat) (st : state) : option state :=
  match n with
  | O => Some st
  | S n' =>
      match page_step st with
      | Continue st' => after_pages n' st'
      | Halt _ _ => None
      end
  end.

Variable Rng : Type.
Variable next : Rng -> Z * Rng.
Variable company : string.
Variable get_company_url : string.
Variable get_source_name : string.

Definition initial (w : World) : state :=
  mkstate (Some get_company_url) 1 [] w [].

(** [scrape()]: the loop, then sample data when nothing was found.  The
    [return] of the embedded-JSON pass leaves before the sample data. *)
Definition scrape (w : World) (g : Rng)
  : option (list review * World * Rng) :=
  match scrape_loop 100 (initial w) with
  | None => None
  | Some (JsonDateStop, st) => Some (reviews st, world st, g)
  | Some (_, st) =>
      if Z.of_nat (List.length (reviews st)) =? 0 then
        match SampleData.generate_sample_reviews Rng next company start_date
                end_date get_source_name 10 g with
        | Some (sample_reviews, g') => Some (sample_reviews, world st, g')
        | None => Some (reviews st, world st, g)
        end
      else Some (reviews st, world st, g)
  end.

End Scrape.

Arguments mkstate {World}.
Arguments url {World}.
Arguments page_num {World}.
Arguments reviews {World}.
Arguments world {World}.
Arguments fetched {World}.
Arguments Continue {World}.
Arguments Halt {World}.
Arguments initial {World}.

End BaseScraper.

(* ================================================================= *)
(** ** [main.py]: dates of the command line, the second sample-data net,
       the dates of the output *)

Module Main.
Import Datetime DateUtils.

(** [validate_dates]; [None] is its [ValueError]. *)
Definition validate_dates (start_date_str end_date_str : string)
  : option (datetime * datetime) :=
  match strptime start_date_str "%Y-%m-%d", strptime end_date_str "%Y-%m-%d" with
  | Some start_date, Some end_date =>
      if gtb start_date end_date then None else Some (start_date, end_date)
  | _, _ => None
  end.

Definition format_review_date (review_date_str : string) : string :=
  match parse_date review_date_str None with
  | Some parsed_date => strftime parsed_date "%Y-%m-%d"
  | None => review_date_str
  end.

(** The [formatted_reviews] of [save_output]. *)
Definition formatted_reviews (reviews : list review) : list review :=
  map (fun r =>
         if Str.truthy (review_date r)
         then mkreview (title r) (review_text r)
                (format_review_date (review_date r)) (reviewer r) (rating r)
                (source r)
         else r) reviews.

Section Run.
Variable World : Type.
Variable get_soup : string -> World -> option Bs4.node * World.
Variable json : Type.
Variable json_items : Bs4.node -> list json.
Variable get_review_elements : Bs4.node -> list Bs4.node.
Variable get_next_page_url : Bs4.node -> string -> option string.
Variable markup : Bs4.node -> string.
Variable Rng : Type.
Variable next : Rng -> Z * Rng.

(** The [reviews] array that [main] writes for valid arguments; [None]
    stands for the exits with code 1. *)
Definition main_reviews (company start end_ source : string)
           (w : World) (g : Rng) : option (list review) :=
  match validate_dates start end_, get_scraper source with
  | Some (start_date, end_date), Some a =>
      match BaseScraper.scrape World get_soup json json_items
              BaseScraper.base_parse_json_review get_review_elements
              (parse_review a markup) get_next_page_url start_date end_date
              Rng next company (get_company_url a company)
              (get_source_name a) w g with
      | None => None
      | Some (reviews, _, g') =>
          let reviews :=
            if Z.of_nat (List.length reviews) =? 0 then
              match SampleData.generate_sample_reviews Rng next company
                      start_date end_date source 10 g' with
              | Some (sample_reviews, _) => sample_reviews
              | None => reviews
              end
            else reviews in
          Some (formatted_reviews reviews)
      end
  | _, _ => None
  end.
End Run.
End Main.

(* ================================================================= *)
(** ** The vocabulary of the properties *)

Module Props.
Import Str Re Bs4 Datetime DateUtils.

(** Seconds since the start of 0001-01-01: the order of time. *)
Definition timestamp (d : datetime) : Z :=
  toordinal d * 86400 + seconds_of_day d.

(** The calendar date of a datetime. *)
Definition date_of (d : datetime) : Z * Z * Z := (year d, month d, day d).

Definition month_full (m : Z) : string := nth (Z.to_nat m) month_name "".
Definition month_short (m : Z) : string := nth (Z.to_nat m) month_abbr "".

(** The strings [strftime] writes for the eight default formats. *)
Definition iso (y m d : Z) : string :=
  pad4 y ++ String "-" (pad2 m ++ String "-" (pad2 d ++ "")).
Definition long_first (y m d : Z) : string :=
  month_full m ++ String " " (pad2 d ++ String "," (String " " (pad4 y ++ ""))).
Definition short_first (y m d : Z) : string :=
  month_short m ++ String " " (pad2 d ++ String "," (String " " (pad4 y ++ ""))).
Definition day_long (y m d : Z) : string :=
  pad2 d ++ String " " (month_full m ++ String " " (pad4 y ++ "")).
Definition day_short (y m d : Z) : string :=
  pad2 d ++ String " " (month_short m ++ String " " (pad4 y ++ "")).
Definition slashes (a b y : Z) : string :=
  pad2 a ++ String "/" (pad2 b ++ String "/" (pad4 y ++ "")).
Definition iso_time (y m d h mi s : Z) : string :=
  pad4 y ++ String "-" (pad2 m ++ String "-" (pad2 d ++ String " "
    (pad2 h ++ String ":" (pad2 mi ++ String ":" (pad2 s ++ ""))))).

(** The regexes [TimeRE.pattern] builds for them. *)
Definition ws : re := plus is_space.

Definition P1 : re :=
  Cat re_Y (Cat (chr_i "-") (Cat re_m (Cat (chr_i "-") (Cat re_d Eps)))).
Definition P2 : re :=
  Cat re_B (Cat ws (Cat re_d (Cat (chr_i ",") (Cat ws (Cat re_Y Eps))))).
Definition P3 : re :=
  Cat re_b (Cat ws (Cat re_d (Cat (chr_i ",") (Cat ws (Cat re_Y Eps))))).
Definition P4 : re := Cat re_d (Cat ws (Cat re_B (Cat ws (Cat re_Y Eps)))).
Definition P5 : re := Cat re_d (Cat ws (Cat re_b (Cat ws (Cat re_Y Eps)))).
Definition P6 : re :=
  Cat re_m (Cat (chr_i "/") (Cat re_d (Cat (chr_i "/") (Cat re_Y Eps)))).
Definition P7 : re :=
  Cat re_d (Cat (chr_i "/") (Cat re_m (Cat (chr_i "/") (Cat re_Y Eps)))).
Definition P8 : re :=
  Cat re_Y (Cat (chr_i "-") (Cat re_m (Cat (chr_i "-") (Cat re_d (Cat ws
    (Cat re_H (Cat (chr_i ":") (Cat re_M (Cat (chr_i ":") (Cat re_S Eps)))))))))).

Definition head_nonspace (s : string) : bool :=
  match s with String c _ => negb (is_space c) | EmptyString => true end.

Fixpoint last_nonspace (s : string) : bool :=
  match s with
  | EmptyString => false
  | String c EmptyString => negb (is_space c)
  | String _ s' => last_nonspace s'
  end.

(** What a candidate kept by the fallback extraction looks like. *)
Definition review_like (c : node) : Prop :=
  (exists kw, In kw BaseScraper.review_keywords
              /\ Str.contains kw (Str.lower (get_text c)) = true)
  /\ 100 < Str.len (get_text_strip c)
  /\ (2 <= List.length
             (filter (name_in ["p"; "div"; "span"]) (descendants c)))%nat.

(** The child elements of a tag: its children that are tags. *)
Definition child_elements (c : node) : list node :=
  filter is_tag (children_of c).

Section LoopProps.
Variable World : Type.
Variable json : Type.
Variable json_items : node -> list json.
Variable parse_json_review : json -> option review.
Variable get_review_elements : node -> list node.
Variable parse_review : node -> option review.
Variable get_next_page_url : node -> string -> option string.
Variables start_date end_date : datetime.

(** The records of a page in the order the loop meets them: the embedded
  ones, then those parsed from the elements. *)
Definition parsed (review_elements : list node) : list review :=
flat_map (fun element =>
            match parse_review element with
            | Some review => [review]
            | None => []
            end) review_elements.

Definition page_records (soup : node) : list review :=
let json_reviews :=
  BaseScraper.extract_reviews_from_json json json_items parse_json_review
                                        soup in
(json_reviews
 ++ parsed (BaseScraper.page_elements get_review_elements soup json_reviews))%list.

Definition first_record (soup : node) : option review :=
hd_error (page_records soup).

(** The record's date parses and lies strictly before the start date. *)
Definition older_than_start (r : review) : Prop :=
exists d, parse_date (review_date r) None = Some d
          /\ timestamp d < timestamp start_date.

(** A page that neither stops the loop nor ends the pagination. *)
Definition goes_on (soup : node) : Prop :=
let json_reviews :=
  BaseScraper.extract_reviews_from_json json json_items parse_json_review
                                        soup in
let review_elements :=
  BaseScraper.page_elements get_review_elements soup json_reviews in
(forall u, exists u',
    get_next_page_url soup u = Some u' /\ Str.truthy u' = true)
/\ (forall rs,
      snd (BaseScraper.scan_json start_date end_date json_reviews rs) = false)
/\ (forall rs,
      snd (BaseScraper.scan_elements parse_review start_date end_date
                                     review_elements rs) = false)
/\ BaseScraper.is_nil review_elements && BaseScraper.is_nil json_reviews
   = false.

Definition has_url (st : BaseScraper.state World) : Prop :=
exists u, BaseScraper.url st = Some u /\ Str.truthy u = true.

End LoopProps.

Arguments has_url {World}.

(** *** The scenario of the specification: Notion on G2, first half of 2024 *)

Definition jan1 : datetime := mkdt 2024 1 1 0 0 0.
Definition jun1 : datetime := mkdt 2024 6 1 0 0 0.

(** A sample record: tagged with the source, dated by a midnight between
    the two bounds and written as YYYY-MM-DD. *)
Definition in_window (src : string) (r : review) : Prop :=
  source r = src
  /\ exists d, valid d = true
               /\ (hour d, minute d, second d) = (0, 0, 0)
               /\ review_date r = strftime d "%Y-%m-%d"
               /\ is_date_in_range d jan1 jun1 = true.

Definition day_ok (k : Z) : bool :=
  match add_days jan1 k with
  | Some d =>
      valid d && is_date_in_range d jan1 jun1
      && (hour d =? 0) && (minute d =? 0) && (second d =? 0)
  | None => false
  end.

(** What the scenario promises of one output record. *)
Definition g2_in_window (r : review) : Prop :=
  source r = "g2"
  /\ exists d, parse_date (review_date r) None = Some d
               /\ timestamp jan1 <= timestamp d <= timestamp jun1.

(** *** Small sites and servers used as concrete inputs *)

Definition review_card (heading date : string) : node :=
  Tag "div" ["review-card"] []
      [ Tag "h3" [] [] [Text heading];
        Tag "time" [] [("datetime", date)] [] ].

Definition notion_url : string := "https://www.g2.com/products/notion/reviews".
Definition notion_page_2 : string :=
  "https://www.g2.com/products/notion/reviews?page=2".

Definition old_page : node :=
  Tag "[document]" [] [] [review_card "Good value" "2023-12-31";
                          review_card "Easy to use" "2024-02-01"].

(** Two pages: one review in range, then one from the year before. *)
Definition two_pages (u : string) (w : unit) : option node * unit :=
  if String.eqb u notion_url
  then (Some (Tag "[document]" [] [] [review_card "Works well" "2024-03-05"]), w)
  else (Some old_page, w).

(** Every page has one review in range and a next link. *)
Definition endless_site (u : string) (w : unit) : option node * unit :=
  (Some (Tag "[document]" [] [] [review_card "Works well" "2024-03-05"]), w).

(** No page can be fetched. *)
Definition offline (u : string) (w : unit) : option node * unit := (None, w).

Definition counter (n : nat) : Z * nat := (Z.of_nat n * 7919, S n).

Definition long_text : string :=
  "This review says the product is solid, the support is responsive and the price is fair for what a small team gets.".

Definition single_child : node :=
  Tag "div" [] [] [ Tag "div" [] [] [ Tag "p" [] [] [Text long_text] ] ].

(** One [div] whose only child is a [div] holding one [p]. *)
Definition nested_page : node := Tag "[document]" [] [] [single_child].





End Props.

(* ================================================================= *)
(** ** Further vocabulary: calendar arithmetic *)

Module CalendarTerms.
Import Datetime.

(** [p] holds of [i], [i + 1], ..., [i + n - 1]. *)
Fixpoint all_from (n : nat) (i : Z) (p : Z -> bool) : bool :=
  match n with
  | O => true
  | S n' => p i && all_from n' (i + 1) p
  end.

(** Day [r + 1] of the first 400 years is turned by [ord2ymd] into a valid
    date of those years that [ymd2ord] turns back into [r + 1]; the last
    year is reached only by the last 366 days. *)
Definition cycle_day_ok (r : Z) : bool :=
  let '(y, m, d) := ord2ymd (r + 1) in
  valid_date y m d && (ymd2ord y m d =? r + 1) && (y <=? 400)
  && ((145730 <? r) || (y <=? 399)).

(** The time of day is 00:00:00. *)
Definition midnight (d : datetime) : Prop :=
  hour d = 0 /\ minute d = 0 /\ second d = 0.

End CalendarTerms.

(* ================================================================= *)
(** ** Further vocabulary: regexes and letter case *)

Module RegexTerms.
Import Str Re.

(** The names of the groups of a regex. *)
Fixpoint names (r : re) : list string :=
  match r with
  | Eps | Chr _ | Star _ => []
  | Cat r1 r2 | Alt r1 r2 => (names r1 ++ names r2)%list
  | Grp name r1 => name :: names r1
  end.

Definition lower_groups (g : groups) : groups :=
  map (fun '(n, v) => (n, lower v)) g.

Definition lower_result (x : string * string * groups)
  : string * string * groups :=
  let '(m, rest, g) := x in (lower m, lower rest, lower_groups g).

(** The 256 code points of the model. *)
Definition all_chars : list ascii := map ascii_of_nat (seq 0 256).

(** A character class that does not tell a letter from its lower case. *)
Definition blind_class (p : ascii -> bool) : bool :=
  forallb (fun c => Bool.eqb (p (lower_char c)) (p c)) all_chars.

(** A regex all of whose classes are blind to letter case. *)
Fixpoint blind (r : re) : bool :=
  match r with
  | Eps => true
  | Chr p | Star p => blind_class p
  | Cat r1 r2 | Alt r1 r2 => blind r1 && blind r2
  | Grp _ r1 => blind r1
  end.

End RegexTerms.

(* ================================================================= *)
(** ** Further vocabulary: the passes over a page, sample records *)

Module Terms.
Import Str Bs4 Datetime DateUtils Props CalendarTerms.

(** The date of a record as the loop reads it. *)
Definition date_read (r : review) : option datetime :=
  parse_date (review_date r) None.

(** The record asks for the stop: its date parses and is before the start. *)
Definition too_old (start_date : datetime) (r : review) : bool :=
  should_stop_scraping (date_read r) start_date.

(** The record is kept: its date parses and lies between the bounds. *)
Definition accepted (start_date end_date : datetime) (r : review) : bool :=
  BaseScraper.in_range start_date end_date (date_read r).

(** The part of a list before its first element that satisfies [stop]. *)
Fixpoint before_first {A : Type} (stop : A -> bool) (l : list A) : list A :=
  match l with
  | [] => []
  | x :: l' => if stop x then [] else x :: before_first stop l'
  end.

(** The state a turn of the loop leaves behind. *)
Definition state_of {World : Type} (s : BaseScraper.step World)
  : BaseScraper.state World :=
  match s with
  | BaseScraper.Continue st => st
  | BaseScraper.Halt _ st => st
  end.

(** [st'] has the reviews of [st] and, after them, accepted ones only. *)
Definition grows {World : Type} (start_date end_date : datetime)
           (st st' : BaseScraper.state World) : Prop :=
  exists added,
    BaseScraper.reviews st' = (BaseScraper.reviews st ++ added)%list
    /\ Forall (fun r => accepted start_date end_date r = true) added.

(** The ways out of the loop other than the [return] of the embedded-JSON
    pass. *)
Definition other_exits : list BaseScraper.exit :=
  [BaseScraper.NoUrl; BaseScraper.FetchFailed; BaseScraper.NoReviews;
   BaseScraper.DateStop; BaseScraper.PageLimit].

(** A sample record of [src]: dated [k] days after [start_date] for some
    [k] between 0 and [span], the date written as YYYY-MM-DD and read back
    by [parse_date] as that day. *)
Definition sample_of (start_date : datetime) (span : Z) (src : string)
           (r : review) : Prop :=
  source r = src
  /\ exists k d, 0 <= k <= span
                 /\ add_days start_date k = Some d
                 /\ review_date r = strftime d "%Y-%m-%d"
                 /\ parse_date (review_date r) None = Some d.

(** The templates [generate_sample_reviews] chooses from for a rating. *)
Definition templates_for (rating : string) : list string :=
  if String.eqb rating "5" || String.eqb rating "4"
  then SampleData.positive_templates
  else if String.eqb rating "3" then SampleData.neutral_templates
       else SampleData.negative_templates.

(** The fields of a sample record that are drawn from fixed lists: title,
    reviewer, rating, and a text that begins with a template for that
    rating, the company name filled in. *)
Definition from_pools (company : string) (r : review) : Prop :=
  In (title r) SampleData.titles
  /\ In (reviewer r) SampleData.reviewer_names
  /\ In (rating r) ["5"; "4"; "3"; "2"; "1"]
  /\ exists template,
       In template (templates_for (rating r))
       /\ Str.starts_with (SampleData.format_company template company)
                          (review_text r) = true.

(** The number of days [generate_sample_reviews] spreads its dates over. *)
Definition days_range (start_date end_date : datetime) : Z :=
  if sub_days end_date start_date <? 1 then 365
  else sub_days end_date start_date.

End Terms.

(* ================================================================= *)
(** ** The comparison of datetimes is the order of time *)

Module DatetimeFacts.
Import Datetime Props.

Lemma div_step k y : 0 < k ->
  y / k - (y - 1) / k = if y mod k =? 0 then 1 else 0.
Proof.
  intros Hk. destruct (Z.eqb_spec (y mod k) 0) as [E|E].
  - assert ((y - 1) / k = y / k - 1); [|lia].
    symmetry. apply Z.div_unique with (r := k - 1); [lia|].
    pose proof (Z.div_mod y k ltac:(lia)). nia.
  - pose proof (Z.mod_pos_bound y k Hk).
    assert ((y - 1) / k = y / k); [|lia].
    symmetry. apply Z.div_unique with (r := y mod k - 1); [lia|].
    pose proof (Z.div_mod y k ltac:(lia)). nia.
Qed.

Lemma days_before_year_succ y :
  days_before_year (y + 1) = days_before_year y + 365 + b2z (is_leap y).
Proof.
  unfold days_before_year, is_leap, b2z.
  replace (y + 1 - 1) with y by lia.
  pose proof (div_step 4 y ltac:(lia)) as H4.
  pose proof (div_step 100 y ltac:(lia)) as H100.
  pose proof (div_step 400 y ltac:(lia)) as H400.
  destruct (Z.eqb_spec (y mod 4) 0), (Z.eqb_spec (y mod 100) 0),
    (Z.eqb_spec (y mod 400) 0); cbn [andb orb negb];
    try lia; exfalso; Z.to_euclidean_division_equations; lia.
Qed.

Lemma days_before_year_mono y1 y2 :
  y1 <= y2 -> days_before_year y1 <= days_before_year y2.
Proof.
  intros H. replace y2 with (y1 + Z.of_nat (Z.to_nat (y2 - y1))) by lia.
  induction (Z.to_nat (y2 - y1)) as [|n IH].
  - replace (y1 + Z.of_nat 0) with y1 by lia. lia.
  - replace (y1 + Z.of_nat (S n)) with (y1 + Z.of_nat n + 1) by lia.
    rewrite days_before_year_succ. unfold b2z. destruct (is_leap _); lia.
Qed.

(** Case analysis on an integer known to lie between two numerals. *)
Ltac enum n lo hi :=
  match eval compute in (hi <? lo) with
  | true => exfalso; lia
  | false =>
      let lo' := eval compute in (lo + 1) in
      let C := fresh "C" in
      assert (C : n = lo \/ lo' <= n <= hi) by lia;
      destruct C as [C|C]; [subst n | enum n lo' hi]
  end.

Lemma valid_date_bounds y m d : valid_date y m d = true ->
  1 <= y <= 9999 /\ 1 <= m <= 12 /\ 1 <= d <= days_in_month y m.
Proof.
  unfold valid_date, MINYEAR, MAXYEAR. rewrite !andb_true_iff, !Z.leb_le. lia.
Qed.

Lemma day_of_year_bounds y m d : valid_date y m d = true ->
  1 <= days_before_month y m + d <= 365 + b2z (is_leap y).
Proof.
  intros H. apply valid_date_bounds in H. destruct H as (_ & Hm & Hd).
  revert Hd. unfold days_in_month, days_before_month, b2z.
  enum m 1 12; destruct (is_leap y); cbv - [Z.add Z.le Z.lt]; lia.
Qed.

Lemma ymd2ord_month_lt y m1 d1 m2 d2 :
  valid_date y m1 d1 = true -> valid_date y m2 d2 = true -> m1 < m2 ->
  ymd2ord y m1 d1 < ymd2ord y m2 d2.
Proof.
  intros H1 H2 Hlt. apply valid_date_bounds in H1, H2.
  destruct H1 as (_ & Hm1 & Hd1), H2 as (_ & Hm2 & Hd2).
  revert Hd1 Hd2. unfold ymd2ord, days_in_month, days_before_month, b2z.
  enum m1 1 12; enum m2 1 12; try lia;
    destruct (is_leap y); cbv - [Z.add Z.le Z.lt]; lia.
Qed.

Lemma ymd2ord_year_lt y1 m1 d1 y2 m2 d2 :
  valid_date y1 m1 d1 = true -> valid_date y2 m2 d2 = true -> y1 < y2 ->
  ymd2ord y1 m1 d1 < ymd2ord y2 m2 d2.
Proof.
  intros H1 H2 Hlt.
  pose proof (day_of_year_bounds _ _ _ H1).
  pose proof (day_of_year_bounds _ _ _ H2).
  pose proof (days_before_year_succ y1).
  pose proof (days_before_year_mono (y1 + 1) y2 ltac:(lia)).
  unfold ymd2ord. lia.
Qed.

Lemma valid_bounds a : valid a = true ->
  valid_date (year a) (month a) (day a) = true
  /\ 0 <= hour a <= 23 /\ 0 <= minute a <= 59 /\ 0 <= second a <= 59.
Proof.
  unfold valid, valid_time. rewrite !andb_true_iff, !Z.leb_le. tauto.
Qed.

Lemma cmp_Lt_timestamp a b :
  valid a = true -> valid b = true -> cmp a b = Lt -> timestamp a < timestamp b.
Proof.
  intros Ha Hb. apply valid_bounds in Ha, Hb.
  destruct Ha as (Va & ? & ? & ?), Hb as (Vb & ? & ? & ?).
  unfold cmp, timestamp, toordinal, seconds_of_day.
  destruct (Z.compare_spec (year a) (year b)) as [Ey|Ly|Gy]; try discriminate.
  2:{ intros _. pose proof (ymd2ord_year_lt _ _ _ _ _ _ Va Vb Ly). lia. }
  rewrite Ey in *.
  destruct (Z.compare_spec (month a) (month b)) as [Em|Lm|Gm]; try discriminate.
  2:{ intros _. pose proof (ymd2ord_month_lt _ _ _ _ _ Va Vb Lm). lia. }
  rewrite Em in *. unfold ymd2ord.
  destruct (Z.compare_spec (day a) (day b)); try discriminate; [|lia].
  destruct (Z.compare_spec (hour a) (hour b)); try discriminate; [|lia].
  destruct (Z.compare_spec (minute a) (minute b)); try discriminate; [|lia].
  destruct (Z.compare_spec (second a) (second b)); try discriminate. lia.
Qed.

Lemma cmp_Eq_eq a b : cmp a b = Eq -> a = b.
Proof.
  destruct a, b. unfold cmp. cbn.
  repeat match goal with
         | |- context [?x ?= ?y] => destruct (Z.compare_spec x y); try discriminate
         end.
  intros _. congruence.
Qed.

Lemma cmp_antisym a b : cmp b a = CompOpp (cmp a b).
Proof.
  unfold cmp.
  rewrite (Z.compare_antisym (year a)), (Z.compare_antisym (month a)),
    (Z.compare_antisym (day a)), (Z.compare_antisym (hour a)),
    (Z.compare_antisym (minute a)), (Z.compare_antisym (second a)).
  destruct (year a ?= year b), (month a ?= month b), (day a ?= day b),
    (hour a ?= hour b), (minute a ?= minute b), (second a ?= second b);
    reflexivity.
Qed.

(** On valid datetimes the field-wise comparison is the order of time. *)
Lemma cmp_timestamp a b :
  valid a = true -> valid b = true -> cmp a b = (timestamp a ?= timestamp b).
Proof.
  intros Ha Hb. destruct (cmp a b) eqn:E.
  - apply cmp_Eq_eq in E. subst. symmetry. apply Z.compare_refl.
  - symmetry. apply Z.compare_lt_iff. now apply cmp_Lt_timestamp.
  - symmetry. apply Z.compare_gt_iff.
    apply cmp_Lt_timestamp; auto. rewrite cmp_antisym, E. reflexivity.
Qed.

Lemma ltb_timestamp a b : valid a = true -> valid b = true ->
  ltb a b = true <-> timestamp a < timestamp b.
Proof.
  intros Ha Hb. unfold ltb. rewrite (cmp_timestamp a b Ha Hb).
  destruct (Z.compare_spec (timestamp a) (timestamp b)); split; intros; try lia; try discriminate; auto.
Qed.

Lemma leb_timestamp a b : valid a = true -> valid b = true ->
  leb a b = true <-> timestamp a <= timestamp b.
Proof.
  intros Ha Hb. unfold leb. rewrite (cmp_timestamp a b Ha Hb).
  destruct (Z.compare_spec (timestamp a) (timestamp b)); split; intros; try lia; try discriminate; auto.
Qed.

End DatetimeFacts.

(* ================================================================= *)
(** ** [is_date_in_range] and [should_stop_scraping] *)

Module DateUtilsFacts.
Import Datetime DateUtils Props DatetimeFacts.

Lemma strptime_valid s fmt d : strptime s fmt = Some d -> valid d = true.
Proof.
  unfold strptime, opt_bind.
  repeat match goal with
         | |- context [match ?x with _ => _ end] => destruct x eqn:?; try discriminate
         end.
  all: intros E; inversion E; subst; assumption.
Qed.

Lemma try_formats_valid s fmts d :
  try_formats s fmts = Some d -> valid d = true.
Proof.
  induction fmts as [|f fmts IH]; cbn; [discriminate|].
  destruct (strptime (Str.strip s) f) eqn:E; [|exact IH].
  intros H. inversion H; subst. eapply strptime_valid; eauto.
Qed.

Lemma parse_date_valid s fmts d : parse_date s fmts = Some d -> valid d = true.
Proof. unfold parse_date. apply try_formats_valid. Qed.

(** C2. [should_stop_scraping] answers true exactly when the date was
    parsed and lies strictly before the start date; for an unparsed date
    ([None]) it answers false. *)
Theorem should_stop_scraping_iff_parsed_and_older
        (review_date : option datetime) (start_date : datetime) :
  valid start_date = true ->
  (forall d, review_date = Some d -> valid d = true) ->
  (should_stop_scraping review_date start_date = true
   <-> exists d, review_date = Some d /\ timestamp d < timestamp start_date)
  /\ should_stop_scraping None start_date = false.
Proof.
  intros Hs Hd. split; [|reflexivity].
  destruct review_date as [d|]; cbn.
  - rewrite (ltb_timestamp d start_date (Hd d eq_refl) Hs). split.
    + intros H. exists d. auto.
    + intros (d' & E & H). inversion E. subst. exact H.
  - split; [discriminate|]. intros (d & E & _). discriminate.
Qed.

Lemma should_stop_scraping_iff_witness :
  (should_stop_scraping (parse_date "2023-12-31" None) (mkdt 2024 1 1 0 0 0)
   = true
   <-> exists d, parse_date "2023-12-31" None = Some d
                 /\ timestamp d < timestamp (mkdt 2024 1 1 0 0 0))
  /\ should_stop_scraping None (mkdt 2024 1 1 0 0 0) = false.
Proof.
  apply (should_stop_scraping_iff_parsed_and_older
           (parse_date "2023-12-31" None) (mkdt 2024 1 1 0 0 0)).
  - reflexivity.
  - intros d H. exact (parse_date_valid _ _ _ H).
Defined.

(** C9. For bounds with start <= end, [is_date_in_range] accepts exactly
    the dates between the two bounds, and it accepts both bounds. *)
Theorem is_date_in_range_iff_between (d start_date end_date : datetime) :
  valid d = true -> valid start_date = true -> valid end_date = true ->
  timestamp start_date <= timestamp end_date ->
  (is_date_in_range d start_date end_date = true
   <-> timestamp start_date <= timestamp d <= timestamp end_date)
  /\ is_date_in_range start_date start_date end_date = true
  /\ is_date_in_range end_date start_date end_date = true.
Proof.
  intros Hd Hs He Hle.
  assert (iff_ : forall x, valid x = true ->
            (is_date_in_range x start_date end_date = true
             <-> timestamp start_date <= timestamp x <= timestamp end_date)).
  { intros x Hx. unfold is_date_in_range.
    rewrite andb_true_iff, (leb_timestamp _ _ Hs Hx), (leb_timestamp _ _ Hx He).
    tauto. }
  split; [apply iff_; assumption|].
  split; apply iff_; auto; lia.
Qed.

Lemma is_date_in_range_iff_witness :
  (is_date_in_range (mkdt 2024 3 5 0 0 0) (mkdt 2024 1 1 0 0 0) (mkdt 2024 6 1 0 0 0) = true
   <-> timestamp (mkdt 2024 1 1 0 0 0) <= timestamp (mkdt 2024 3 5 0 0 0)
       <= timestamp (mkdt 2024 6 1 0 0 0))
  /\ is_date_in_range (mkdt 2024 1 1 0 0 0) (mkdt 2024 1 1 0 0 0) (mkdt 2024 6 1 0 0 0) = true
  /\ is_date_in_range (mkdt 2024 6 1 0 0 0) (mkdt 2024 1 1 0 0 0) (mkdt 2024 6 1 0 0 0) = true.
Proof.
  apply (is_date_in_range_iff_between (mkdt 2024 3 5 0 0 0)
           (mkdt 2024 1 1 0 0 0) (mkdt 2024 6 1 0 0 0));
    try reflexivity.
  vm_compute. discriminate.
Defined.

Lemma stop_excludes_range d start_date end_date :
  should_stop_scraping (Some d) start_date
  && is_date_in_range d start_date end_date = false.
Proof.
  unfold should_stop_scraping, is_date_in_range, ltb, leb.
  rewrite (cmp_antisym d start_date).
  destruct (cmp d start_date); reflexivity.
Qed.

End DateUtilsFacts.

(* ================================================================= *)
(** ** [parse_date] reads back what [strftime] writes *)

Module StrFacts.
Import Str DatetimeFacts.

Ltac digit_cases n :=
  unfold digit_char;
  repeat match goal with
         | |- context [n =? ?k] => destruct (n =? k)
         end.

Lemma digit_char_cases n :
  digit_char n = "0"%char \/ digit_char n = "1"%char \/ digit_char n = "2"%char
  \/ digit_char n = "3"%char \/ digit_char n = "4"%char
  \/ digit_char n = "5"%char \/ digit_char n = "6"%char
  \/ digit_char n = "7"%char \/ digit_char n = "8"%char
  \/ digit_char n = "9"%char.
Proof. digit_cases n; tauto. Qed.

Ltac digit_values n :=
  let C := fresh "C" in
  pose proof (digit_char_cases n) as C;
  repeat (destruct C as [C|C]; [rewrite C in *; clear C|]);
  [..|rewrite C in *; clear C].

Lemma is_digit_digit_char n : is_digit (digit_char n) = true.
Proof. digit_cases n; reflexivity. Qed.

Lemma is_space_digit_char n : is_space (digit_char n) = false.
Proof. digit_cases n; reflexivity. Qed.

Lemma digit_val_digit_char n : 0 <= n <= 9 -> digit_val (digit_char n) = n.
Proof.
  intros H. enum n 0 9; reflexivity.
Qed.

Lemma lstrip_nonspace c s : is_space c = false -> lstrip (String c s) = String c s.
Proof. intros H. cbn. now rewrite H. Qed.

Lemma rstrip_app s t : is_empty t = false -> rstrip t = t -> rstrip (s ++ t) = s ++ t.
Proof.
  intros Ht Hr. induction s as [|c s IH]; cbn; [exact Hr|].
  rewrite IH. destruct (s ++ t) eqn:E; [|reflexivity].
  destruct s; cbn in E; [subst t; discriminate|discriminate].
Qed.

Lemma rstrip_pad2 n : rstrip (pad2 n) = pad2 n.
Proof. unfold pad2. cbn. now rewrite !is_space_digit_char. Qed.

Lemma rstrip_pad4 n : rstrip (pad4 n) = pad4 n.
Proof. unfold pad4. cbn. now rewrite !is_space_digit_char. Qed.

Lemma int_of_pad2 n : 0 <= n <= 99 -> int_of (pad2 n) = Some n.
Proof.
  intros H. unfold int_of, strip.
  unfold pad2 at 1. rewrite lstrip_nonspace by apply is_space_digit_char.
  change (String (digit_char (n / 10)) (String (digit_char (n mod 10)) ""))
    with (pad2 n).
  rewrite rstrip_pad2. unfold pad2. cbn [int_digits].
  rewrite !is_digit_digit_char.
  rewrite !digit_val_digit_char by (Z.to_euclidean_division_equations; lia).
  f_equal. Z.to_euclidean_division_equations; lia.
Qed.

Lemma int_of_pad4 n : 0 <= n <= 9999 -> int_of (pad4 n) = Some n.
Proof.
  intros H. unfold int_of, strip.
  unfold pad4 at 1. rewrite lstrip_nonspace by apply is_space_digit_char.
  change (String (digit_char (n / 1000)) (String (digit_char (n / 100 mod 10))
           (String (digit_char (n / 10 mod 10)) (String (digit_char (n mod 10)) ""))))
    with (pad4 n).
  rewrite rstrip_pad4. unfold pad4. cbn [int_digits].
  rewrite !is_digit_digit_char.
  rewrite !digit_val_digit_char by (Z.to_euclidean_division_equations; lia).
  f_equal. Z.to_euclidean_division_equations; lia.
Qed.

End StrFacts.

Module StrptimeFacts.
Import Str Re Datetime Props DatetimeFacts StrFacts.

Section Items.
Context {R : Type}.
Implicit Types (k : string -> string -> groups -> option R) (x : R).

Lemma cat_Y r2 y rest g k :
  rmatch (Cat re_Y r2) (pad4 y ++ rest) g k
  = rmatch r2 rest (("Y", pad4 y) :: g) (fun m2 s2 g2 => k (pad4 y ++ m2) s2 g2).
Proof.
  unfold re_Y, digit, pad4. cbn [rmatch append].
  rewrite !is_digit_digit_char. reflexivity.
Qed.

Lemma cat_lit r2 c rest g k :
  rmatch (Cat (chr_i c) r2) (String c rest) g k
  = rmatch r2 rest g (fun m2 s2 g2 => k (String c m2) s2 g2).
Proof.
  unfold chr_i. cbn [rmatch append]. now rewrite Ascii.eqb_refl.
Qed.


Lemma rmatch_Eps s g k : rmatch Eps s g k = k "" s g.
Proof. reflexivity. Qed.

Ltac value_of t :=
  let v := eval vm_compute in t in change t with v in *.

Ltac by_cases H :=
  repeat match goal with
         | H' : context [pad2 ?n] |- _ => value_of (pad2 n)
         | H' : context [month_full ?n] |- _ => value_of (month_full n)
         | H' : context [month_short ?n] |- _ => value_of (month_short n)
         end;
  cbn in H |- *; rewrite H; reflexivity.

Lemma cat_m r2 n rest g k x :
  1 <= n <= 12 ->
  rmatch r2 rest (("m", pad2 n) :: g) (fun m2 s2 g2 => k (pad2 n ++ m2) s2 g2)
  = Some x ->
  rmatch (Cat re_m r2) (pad2 n ++ rest) g k = Some x.
Proof. intros Hn H. enum n 1 12; by_cases H. Qed.

Lemma cat_d r2 n rest g k x :
  1 <= n <= 31 ->
  rmatch r2 rest (("d", pad2 n) :: g) (fun m2 s2 g2 => k (pad2 n ++ m2) s2 g2)
  = Some x ->
  rmatch (Cat re_d r2) (pad2 n ++ rest) g k = Some x.
Proof. intros Hn H. enum n 1 31; by_cases H. Qed.

Lemma cat_H r2 n rest g k x :
  0 <= n <= 23 ->
  rmatch r2 rest (("H", pad2 n) :: g) (fun m2 s2 g2 => k (pad2 n ++ m2) s2 g2)
  = Some x ->
  rmatch (Cat re_H r2) (pad2 n ++ rest) g k = Some x.
Proof. intros Hn H. enum n 0 23; by_cases H. Qed.

Lemma cat_M r2 n rest g k x :
  0 <= n <= 59 ->
  rmatch r2 rest (("M", pad2 n) :: g) (fun m2 s2 g2 => k (pad2 n ++ m2) s2 g2)
  = Some x ->
  rmatch (Cat re_M r2) (pad2 n ++ rest) g k = Some x.
Proof. intros Hn H. enum n 0 59; by_cases H. Qed.

Lemma cat_S r2 n rest g k x :
  0 <= n <= 59 ->
  rmatch r2 rest (("S", pad2 n) :: g) (fun m2 s2 g2 => k (pad2 n ++ m2) s2 g2)
  = Some x ->
  rmatch (Cat re_S r2) (pad2 n ++ rest) g k = Some x.
Proof. intros Hn H. enum n 0 59; by_cases H. Qed.

Lemma cat_B r2 n rest g k x :
  1 <= n <= 12 ->
  rmatch r2 rest (("B", month_full n) :: g)
         (fun m2 s2 g2 => k (month_full n ++ m2) s2 g2) = Some x ->
  rmatch (Cat re_B r2) (month_full n ++ rest) g k = Some x.
Proof. intros Hn H. enum n 1 12; by_cases H. Qed.

Lemma cat_b r2 n rest g k x :
  1 <= n <= 12 ->
  rmatch r2 rest (("b", month_short n) :: g)
         (fun m2 s2 g2 => k (month_short n ++ m2) s2 g2) = Some x ->
  rmatch (Cat re_b r2) (month_short n ++ rest) g k = Some x.
Proof. intros Hn H. enum n 1 12; by_cases H. Qed.
Lemma cat_ws r2 rest g k :
  head_nonspace rest = true ->
  rmatch (Cat (plus is_space) r2) (String " " rest) g k
  = rmatch r2 rest g (fun m2 s2 g2 => k (String " " m2) s2 g2).
Proof.
  intros H. unfold plus. cbn [rmatch append].
  change (is_space " ") with true. cbn iota.
  destruct rest as [|c rest]; cbn [star]; [reflexivity|].
  cbn in H. destruct (is_space c); [discriminate|reflexivity].
Qed.

(** Failures that no continuation can repair. *)

Lemma fail_ws r2 c rest g k :
  is_space c = false ->
  rmatch (Cat (plus is_space) r2) (String c rest) g k = None.
Proof. intros H. unfold plus. cbn [rmatch]. now rewrite H. Qed.

Lemma fail_lit r2 c0 c rest g k :
  Ascii.eqb (lower_char c) (lower_char c0) = false ->
  rmatch (Cat (chr_i c0) r2) (String c rest) g k = None.
Proof. intros H. unfold chr_i. cbn [rmatch]. now rewrite H. Qed.

Lemma fail_Y_third r2 c1 c2 c3 rest g k :
  is_digit c3 = false ->
  rmatch (Cat re_Y r2) (String c1 (String c2 (String c3 rest))) g k = None.
Proof.
  intros H. unfold re_Y, digit. cbn [rmatch].
  destruct (is_digit c1); [|reflexivity].
  destruct (is_digit c2); [|reflexivity]. now rewrite H.
Qed.

Lemma fail_Y_pad2 r2 n c rest g k :
  is_digit c = false ->
  rmatch (Cat re_Y r2) (pad2 n ++ String c rest) g k = None.
Proof. intros H. unfold pad2. cbn [append]. now apply fail_Y_third. Qed.

Lemma fail_Y_full r2 m rest g k :
  1 <= m <= 12 -> rmatch (Cat re_Y r2) (month_full m ++ rest) g k = None.
Proof. intros H. enum m 1 12; reflexivity. Qed.

Lemma fail_Y_short r2 m rest g k :
  1 <= m <= 12 -> rmatch (Cat re_Y r2) (month_short m ++ rest) g k = None.
Proof. intros H. enum m 1 12; reflexivity. Qed.

Lemma fail_B_digit r2 a rest g k :
  rmatch (Cat re_B r2) (String (digit_char a) rest) g k = None.
Proof. digit_cases a; reflexivity. Qed.

Lemma fail_b_digit r2 a rest g k :
  rmatch (Cat re_b r2) (String (digit_char a) rest) g k = None.
Proof. digit_cases a; reflexivity. Qed.

Lemma fail_B_short r2 m rest g k :
  1 <= m <= 12 -> m <> 5 ->
  rmatch (Cat re_B r2) (month_short m ++ String " " rest) g k = None.
Proof. intros H N. enum m 1 12; try reflexivity; lia. Qed.

(** Whatever two digits [%d] or [%m] reads, it hands the continuation
    the input after the second or after the first of them. *)
Lemma fail_d r2 a b rest g k :
  (forall g' k', rmatch r2 rest g' k' = None) ->
  (forall g' k', rmatch r2 (String (digit_char b) rest) g' k' = None) ->
  rmatch (Cat re_d r2) (String (digit_char a) (String (digit_char b) rest)) g k
  = None.
Proof.
  intros H1 H2. digit_values a; digit_values b;
    cbn; rewrite ?H1, ?H2; reflexivity.
Qed.

Lemma fail_m r2 a b rest g k :
  (forall g' k', rmatch r2 rest g' k' = None) ->
  (forall g' k', rmatch r2 (String (digit_char b) rest) g' k' = None) ->
  rmatch (Cat re_m r2) (String (digit_char a) (String (digit_char b) rest)) g k
  = None.
Proof.
  intros H1 H2. digit_values a; digit_values b;
    cbn; rewrite ?H1, ?H2; reflexivity.
Qed.

(** [%m] does not read a number above 12 as two digits. *)
Lemma fail_m_above_12 r2 n rest g k :
  13 <= n <= 31 ->
  (forall g' k', rmatch r2 (String (digit_char (n mod 10)) rest) g' k' = None) ->
  rmatch (Cat re_m r2) (pad2 n ++ rest) g k = None.
Proof.
  intros H H2. enum n 13 31;
    (revert H2;
     match goal with
     | |- context [digit_char (?a mod 10)] =>
         let v := eval vm_compute in (digit_char (a mod 10)) in
         change (digit_char (a mod 10)) with v
     end;
     intros H2; cbn; rewrite ?H2; reflexivity).
Qed.
End Items.

Lemma index_of_month_full m : 1 <= m <= 12 ->
  index_of (lower (month_full m)) f_month 0 = Some m.
Proof. intros H. enum m 1 12; reflexivity. Qed.

Lemma index_of_month_short m : 1 <= m <= 12 ->
  index_of (lower (month_short m)) a_month 0 = Some m.
Proof. intros H. enum m 1 12; reflexivity. Qed.

Lemma patterns :
  pattern "%Y-%m-%d" = Some P1 /\ pattern "%B %d, %Y" = Some P2
  /\ pattern "%b %d, %Y" = Some P3 /\ pattern "%d %B %Y" = Some P4
  /\ pattern "%d %b %Y" = Some P5 /\ pattern "%m/%d/%Y" = Some P6
  /\ pattern "%d/%m/%Y" = Some P7 /\ pattern "%Y-%m-%d %H:%M:%S" = Some P8.
Proof. repeat split; reflexivity. Qed.

Lemma head_pad2 n s : head_nonspace (pad2 n ++ s) = true.
Proof. unfold pad2. cbn. now rewrite is_space_digit_char. Qed.

Lemma head_pad4 n s : head_nonspace (pad4 n ++ s) = true.
Proof. unfold pad4. cbn. now rewrite is_space_digit_char. Qed.

Lemma head_full m s : 1 <= m <= 12 -> head_nonspace (month_full m ++ s) = true.
Proof. intros H. enum m 1 12; reflexivity. Qed.

Lemma head_short m s : 1 <= m <= 12 -> head_nonspace (month_short m ++ s) = true.
Proof. intros H. enum m 1 12; reflexivity. Qed.

Lemma date_bounds y m d : valid_date y m d = true ->
  0 <= y <= 9999 /\ 1 <= m <= 12 /\ 1 <= d <= 31.
Proof.
  intros H. apply DatetimeFacts.valid_date_bounds in H.
  destruct H as (Hy & Hm & Hd). split; [lia|]. split; [lia|].
  revert Hd. unfold days_in_month.
  enum m 1 12; destruct (is_leap y); cbv -[Z.le]; lia.
Qed.

Lemma time_bounds h mi s : valid_time h mi s = true ->
  0 <= h <= 23 /\ 0 <= mi <= 59 /\ 0 <= s <= 59.
Proof. unfold valid_time. rewrite !andb_true_iff, !Z.leb_le. lia. Qed.

(** *** What [re.match] finds, format by format *)

Ltac step :=
  first [ rewrite cat_Y | rewrite cat_lit
        | rewrite cat_ws by first [apply head_pad2 | apply head_pad4
                                  | apply head_full; lia | apply head_short; lia]
        | apply cat_m; [lia|] | apply cat_d; [lia|]
        | apply cat_B; [lia|] | apply cat_b; [lia|]
        | apply cat_H; [lia|] | apply cat_M; [lia|] | apply cat_S; [lia|] ].

Ltac run := eexists; unfold match_; repeat step; reflexivity.

Section Matches.
Variables y m d : Z.
Hypothesis Hm : 1 <= m <= 12.
Hypothesis Hd : 1 <= d <= 31.

Lemma match_P1 rest :
  exists t, match_ P1 (pad4 y ++ String "-" (pad2 m ++ String "-" (pad2 d ++ rest)))
            = Some (t, rest, [("d", pad2 d); ("m", pad2 m); ("Y", pad4 y)]).
Proof. unfold P1. run. Qed.

Lemma match_P2 :
  exists t, match_ P2 (long_first y m d)
            = Some (t, "", [("Y", pad4 y); ("d", pad2 d); ("B", month_full m)]).
Proof. unfold P2, long_first, ws. run. Qed.

Lemma match_P3 :
  exists t, match_ P3 (short_first y m d)
            = Some (t, "", [("Y", pad4 y); ("d", pad2 d); ("b", month_short m)]).
Proof. unfold P3, short_first, ws. run. Qed.

Lemma match_P4 :
  exists t, match_ P4 (day_long y m d)
            = Some (t, "", [("Y", pad4 y); ("B", month_full m); ("d", pad2 d)]).
Proof. unfold P4, day_long, ws. run. Qed.

Lemma match_P5 :
  exists t, match_ P5 (day_short y m d)
            = Some (t, "", [("Y", pad4 y); ("b", month_short m); ("d", pad2 d)]).
Proof. unfold P5, day_short, ws. run. Qed.

Lemma match_P6 :
  exists t, match_ P6 (slashes m d y)
            = Some (t, "", [("Y", pad4 y); ("d", pad2 d); ("m", pad2 m)]).
Proof. unfold P6, slashes. run. Qed.

Lemma match_P7 :
  exists t, match_ P7 (slashes d m y)
            = Some (t, "", [("Y", pad4 y); ("m", pad2 m); ("d", pad2 d)]).
Proof. unfold P7, slashes. run. Qed.

Lemma match_P8 h mi s :
  0 <= h <= 23 -> 0 <= mi <= 59 -> 0 <= s <= 59 ->
  exists t, match_ P8 (iso_time y m d h mi s)
            = Some (t, "", [("S", pad2 s); ("M", pad2 mi); ("H", pad2 h);
                            ("d", pad2 d); ("m", pad2 m); ("Y", pad4 y)]).
Proof. intros Hh Hmi Hs. unfold P8, iso_time, ws. run. Qed.
End Matches.

Ltac finish_fields Hv :=
  cbn -[int_of pad2 pad4 valid month_full month_short index_of lower];
  rewrite ?int_of_pad4, ?int_of_pad2, ?index_of_month_full,
    ?index_of_month_short by lia;
  cbn -[valid];
  unfold valid; cbn [year month day hour minute second];
  rewrite ?Hv; reflexivity.

Ltac use_pattern :=
  unfold strptime;
  destruct patterns as (E1 & E2 & E3 & E4 & E5 & E6 & E7 & E8);
  rewrite ?E1, ?E2, ?E3, ?E4, ?E5, ?E6, ?E7, ?E8; cbn [opt_bind].

Section Parses.
Variables y m d : Z.
Hypothesis Hv : valid_date y m d = true.

Let Hy : 0 <= y <= 9999 := proj1 (date_bounds _ _ _ Hv).
Let Hm : 1 <= m <= 12 := proj1 (proj2 (date_bounds _ _ _ Hv)).
Let Hd : 1 <= d <= 31 := proj2 (proj2 (date_bounds _ _ _ Hv)).

Lemma strptime_1 : strptime (iso y m d) "%Y-%m-%d" = Some (mkdt y m d 0 0 0).
Proof.
  use_pattern. destruct (match_P1 y m d Hm Hd "") as (t & E).
  unfold iso. rewrite E. finish_fields Hv.
Qed.

Lemma strptime_2 :
  strptime (long_first y m d) "%B %d, %Y" = Some (mkdt y m d 0 0 0).
Proof.
  use_pattern. destruct (match_P2 y m d Hm Hd) as (t & E).
  rewrite E. finish_fields Hv.
Qed.

Lemma strptime_3 :
  strptime (short_first y m d) "%b %d, %Y" = Some (mkdt y m d 0 0 0).
Proof.
  use_pattern. destruct (match_P3 y m d Hm Hd) as (t & E).
  rewrite E. finish_fields Hv.
Qed.

Lemma strptime_4 :
  strptime (day_long y m d) "%d %B %Y" = Some (mkdt y m d 0 0 0).
Proof.
  use_pattern. destruct (match_P4 y m d Hm Hd) as (t & E).
  rewrite E. finish_fields Hv.
Qed.

Lemma strptime_5 :
  strptime (day_short y m d) "%d %b %Y" = Some (mkdt y m d 0 0 0).
Proof.
  use_pattern. destruct (match_P5 y m d Hm Hd) as (t & E).
  rewrite E. finish_fields Hv.
Qed.

Lemma strptime_6 :
  strptime (slashes m d y) "%m/%d/%Y" = Some (mkdt y m d 0 0 0).
Proof.
  use_pattern. destruct (match_P6 y m d Hm Hd) as (t & E).
  rewrite E. finish_fields Hv.
Qed.

Lemma strptime_7 :
  strptime (slashes d m y) "%d/%m/%Y" = Some (mkdt y m d 0 0 0).
Proof.
  use_pattern. destruct (match_P7 y m d Hm Hd) as (t & E).
  rewrite E. finish_fields Hv.
Qed.

Lemma strptime_8 h mi s :
  valid_time h mi s = true ->
  strptime (iso_time y m d h mi s) "%Y-%m-%d %H:%M:%S" = Some (mkdt y m d h mi s).
Proof.
  intros Ht. destruct (time_bounds _ _ _ Ht) as (Hh & Hmi & Hs).
  use_pattern. destruct (match_P8 y m d Hm Hd h mi s Hh Hmi Hs) as (t & E).
  rewrite E.
  cbn -[int_of pad2 pad4 valid month_full month_short index_of lower].
  rewrite ?int_of_pad4, ?int_of_pad2 by lia.
  cbn -[valid]. unfold valid. cbn [year month day hour minute second].
  rewrite Hv, Ht. reflexivity.
Qed.
End Parses.
End StrptimeFacts.

Module RoundTrip.
Import Str Re Datetime DateUtils Props DatetimeFacts StrFacts StrptimeFacts.

Lemma strptime_no_match s fmt P :
  pattern fmt = Some P -> match_ P s = None -> strptime s fmt = None.
Proof.
  unfold strptime. intros E1 E2. rewrite E1. cbn [opt_bind].
  rewrite E2. reflexivity.
Qed.

Lemma slash_digit n :
  Ascii.eqb (lower_char (digit_char n)) (lower_char "/") = false.
Proof. digit_cases n; reflexivity. Qed.

Ltac no_match P :=
  apply (strptime_no_match _ _ P); [apply patterns|unfold match_].

Ltac ws_fails :=
  intros; unfold ws;
  first [ apply fail_ws; first [apply is_space_digit_char | reflexivity]
        | apply fail_lit; first [apply slash_digit | reflexivity] ].

Section Failures.
Variables y m d : Z.
Hypothesis Hm : 1 <= m <= 12.

(** Strings that start with a month name. *)
Lemma P1_long : strptime (long_first y m d) "%Y-%m-%d" = None.
Proof. no_match P1. now apply fail_Y_full. Qed.

Lemma P1_short : strptime (short_first y m d) "%Y-%m-%d" = None.
Proof. no_match P1. now apply fail_Y_short. Qed.

Lemma P2_short : m <> 5 -> strptime (short_first y m d) "%B %d, %Y" = None.
Proof. intros N. no_match P2. now apply fail_B_short. Qed.

(** Strings that start with two digits and a space or a slash. *)
Lemma P1_day_long : strptime (day_long y m d) "%Y-%m-%d" = None.
Proof. no_match P1. now apply fail_Y_pad2. Qed.

Lemma P1_day_short : strptime (day_short y m d) "%Y-%m-%d" = None.
Proof. no_match P1. now apply fail_Y_pad2. Qed.

Lemma P1_slashes a b : strptime (slashes a b y) "%Y-%m-%d" = None.
Proof. no_match P1. now apply fail_Y_pad2. Qed.

Lemma P2_digits n rest : strptime (pad2 n ++ rest) "%B %d, %Y" = None.
Proof. no_match P2. apply fail_B_digit. Qed.

Lemma P3_digits n rest : strptime (pad2 n ++ rest) "%b %d, %Y" = None.
Proof. no_match P3. apply fail_b_digit. Qed.

Lemma P4_day_short : m <> 5 -> strptime (day_short y m d) "%d %B %Y" = None.
Proof.
  intros N. no_match P4. apply fail_d.
  - intros. unfold ws. rewrite cat_ws by (now apply head_short).
    now apply fail_B_short.
  - ws_fails.
Qed.

Lemma P4_slashes a b : strptime (slashes a b y) "%d %B %Y" = None.
Proof. no_match P4. apply fail_d; ws_fails. Qed.

Lemma P5_slashes a b : strptime (slashes a b y) "%d %b %Y" = None.
Proof. no_match P5. apply fail_d; ws_fails. Qed.

Lemma P6_day_first :
  13 <= d <= 31 -> strptime (slashes d m y) "%m/%d/%Y" = None.
Proof. intros H. no_match P6. apply fail_m_above_12; [lia|ws_fails]. Qed.

(** Strings that start with four digits. *)
Lemma P2_year rest : strptime (pad4 y ++ rest) "%B %d, %Y" = None.
Proof. no_match P2. apply fail_B_digit. Qed.

Lemma P3_year rest : strptime (pad4 y ++ rest) "%b %d, %Y" = None.
Proof. no_match P3. apply fail_b_digit. Qed.

Lemma P4_year rest : strptime (pad4 y ++ rest) "%d %B %Y" = None.
Proof. no_match P4. apply fail_d; ws_fails. Qed.

Lemma P5_year rest : strptime (pad4 y ++ rest) "%d %b %Y" = None.
Proof. no_match P5. apply fail_d; ws_fails. Qed.

Lemma P6_year rest : strptime (pad4 y ++ rest) "%m/%d/%Y" = None.
Proof. no_match P6. apply fail_m; ws_fails. Qed.

Lemma P7_year rest : strptime (pad4 y ++ rest) "%d/%m/%Y" = None.
Proof. no_match P7. apply fail_d; ws_fails. Qed.

(** The ISO pattern reads the date of a date-and-time string and leaves
    the time unread. *)
Lemma P1_iso_time h mi s :
  1 <= d <= 31 -> strptime (iso_time y m d h mi s) "%Y-%m-%d" = None.
Proof.
  intros Hd. unfold strptime.
  destruct patterns as (E1 & _). rewrite E1. cbn [opt_bind].
  destruct (match_P1 y m d Hm Hd
              (String " " (pad2 h ++ String ":" (pad2 mi ++ String ":" (pad2 s ++ "")))))
    as (t & E).
  unfold iso_time. rewrite E. reflexivity.
Qed.
End Failures.

(** [strip] leaves the written strings as they are. *)
Lemma last_nonspace_rstrip s : last_nonspace s = true -> rstrip s = s.
Proof.
  induction s as [|c s IH]; [reflexivity|]. cbn [last_nonspace rstrip].
  destruct s as [|c' s].
  - cbn. intros H. now destruct (is_space c).
  - intros H. rewrite (IH H). reflexivity.
Qed.

Lemma last_nonspace_cons c s :
  last_nonspace s = true -> last_nonspace (String c s) = true.
Proof. destruct s; [discriminate|]. auto. Qed.

Lemma last_nonspace_app s t :
  last_nonspace t = true -> last_nonspace (s ++ t) = true.
Proof.
  intros H. induction s as [|c s IH]; [exact H|].
  cbn [append]. now apply last_nonspace_cons.
Qed.

Lemma last_pad2 n : last_nonspace (pad2 n ++ "") = true.
Proof. unfold pad2. cbn. now rewrite is_space_digit_char. Qed.

Lemma last_pad4 n : last_nonspace (pad4 n ++ "") = true.
Proof. unfold pad4. cbn. now rewrite is_space_digit_char. Qed.

Lemma strip_id s :
  head_nonspace s = true -> last_nonspace s = true -> strip s = s.
Proof.
  intros Hh Hl. unfold strip.
  destruct s as [|c s]; [discriminate|].
  cbn in Hh. rewrite lstrip_nonspace by now destruct (is_space c).
  now apply last_nonspace_rstrip.
Qed.

Ltac ends :=
  repeat first [ apply last_pad2 | apply last_pad4
               | apply last_nonspace_app | apply last_nonspace_cons ].

Ltac strip_ok :=
  apply strip_id;
  [ first [apply head_pad2 | apply head_pad4 | apply head_full; lia
          | apply head_short; lia]
  | ends ].

Section Strip.
Variables y m d : Z.
Hypothesis Hm : 1 <= m <= 12.

Lemma strip_iso : strip (iso y m d) = iso y m d.
Proof. unfold iso. strip_ok. Qed.
Lemma strip_long_first : strip (long_first y m d) = long_first y m d.
Proof. unfold long_first. strip_ok. Qed.
Lemma strip_short_first : strip (short_first y m d) = short_first y m d.
Proof. unfold short_first. strip_ok. Qed.
Lemma strip_day_long : strip (day_long y m d) = day_long y m d.
Proof. unfold day_long. strip_ok. Qed.
Lemma strip_day_short : strip (day_short y m d) = day_short y m d.
Proof. unfold day_short. strip_ok. Qed.
Lemma strip_slashes a b : strip (slashes a b y) = slashes a b y.
Proof. unfold slashes. strip_ok. Qed.
Lemma strip_iso_time h mi s : strip (iso_time y m d h mi s) = iso_time y m d h mi s.
Proof. unfold iso_time. strip_ok. Qed.
End Strip.

Lemma swapped_valid y m d :
  valid_date y m d = true -> d <= 12 -> valid_date y d m = true.
Proof.
  intros H Hd. destruct (date_bounds _ _ _ H) as (Hy & Hm & Hd').
  apply DatetimeFacts.valid_date_bounds in H.
  unfold valid_date, MINYEAR, MAXYEAR. rewrite !andb_true_iff, !Z.leb_le.
  repeat split; try lia.
  unfold days_in_month. enum d 1 12; destruct (is_leap y); cbv -[Z.le]; lia.
Qed.

Section Formats.
Variables y m d : Z.
Hypothesis Hv : valid_date y m d = true.

Let Hm : 1 <= m <= 12 := proj1 (proj2 (date_bounds _ _ _ Hv)).
Let Hd : 1 <= d <= 31 := proj2 (proj2 (date_bounds _ _ _ Hv)).

Lemma parse_iso : parse_date (iso y m d) None = Some (mkdt y m d 0 0 0).
Proof.
  unfold parse_date, default_formats. cbn [try_formats].
  rewrite strip_iso. now rewrite strptime_1.
Qed.

Lemma parse_long_first :
  parse_date (long_first y m d) None = Some (mkdt y m d 0 0 0).
Proof.
  unfold parse_date, default_formats. cbn [try_formats].
  rewrite strip_long_first by exact Hm.
  rewrite P1_long by exact Hm. now rewrite strptime_2.
Qed.

Lemma parse_short_first :
  parse_date (short_first y m d) None = Some (mkdt y m d 0 0 0).
Proof.
  unfold parse_date, default_formats. cbn [try_formats].
  rewrite strip_short_first by exact Hm.
  rewrite P1_short by exact Hm.
  destruct (Z.eq_dec m 5) as [E|N].
  - replace (short_first y m d) with (long_first y m d)
      by (rewrite E; reflexivity).
    now rewrite strptime_2.
  - rewrite P2_short by (exact Hm || exact N). now rewrite strptime_3.
Qed.

Lemma parse_day_long :
  parse_date (day_long y m d) None = Some (mkdt y m d 0 0 0).
Proof.
  unfold parse_date, default_formats. cbn [try_formats].
  rewrite strip_day_long. rewrite P1_day_long.
  unfold day_long at 1 2. rewrite P2_digits, P3_digits.
  fold (day_long y m d). now rewrite strptime_4.
Qed.

Lemma parse_day_short :
  parse_date (day_short y m d) None = Some (mkdt y m d 0 0 0).
Proof.
  unfold parse_date, default_formats. cbn [try_formats].
  rewrite strip_day_short. rewrite P1_day_short.
  unfold day_short at 1 2. rewrite P2_digits, P3_digits.
  fold (day_short y m d).
  destruct (Z.eq_dec m 5) as [E|N].
  - replace (day_short y m d) with (day_long y m d)
      by (rewrite E; reflexivity).
    now rewrite strptime_4.
  - rewrite P4_day_short by (exact Hm || exact N). now rewrite strptime_5.
Qed.

Lemma parse_month_first :
  parse_date (slashes m d y) None = Some (mkdt y m d 0 0 0).
Proof.
  unfold parse_date, default_formats. cbn [try_formats].
  rewrite strip_slashes. rewrite P1_slashes.
  unfold slashes at 1 2. rewrite P2_digits, P3_digits.
  fold (slashes m d y). rewrite P4_slashes, P5_slashes.
  now rewrite strptime_6.
Qed.

(** A day-first string whose day could be a month is read month-first. *)
Lemma parse_day_first :
  parse_date (slashes d m y) None
  = Some (if d <=? 12 then mkdt y d m 0 0 0 else mkdt y m d 0 0 0).
Proof.
  unfold parse_date, default_formats. cbn [try_formats].
  rewrite strip_slashes. rewrite P1_slashes.
  unfold slashes at 1 2. rewrite P2_digits, P3_digits.
  fold (slashes d m y). rewrite P4_slashes, P5_slashes.
  destruct (Z.leb_spec d 12) as [L|G].
  - now rewrite (strptime_6 y d m (swapped_valid _ _ _ Hv L)).
  - rewrite P6_day_first by lia. now rewrite strptime_7.
Qed.

Lemma parse_iso_time h mi s :
  valid_time h mi s = true ->
  parse_date (iso_time y m d h mi s) None = Some (mkdt y m d h mi s).
Proof.
  intros Ht. unfold parse_date, default_formats. cbn [try_formats].
  rewrite strip_iso_time. rewrite P1_iso_time by (exact Hm || exact Hd).
  unfold iso_time at 1 2 3 4 5 6.
  rewrite P2_year, P3_year, P4_year, P5_year, P6_year, P7_year.
  fold (iso_time y m d h mi s). now rewrite strptime_8.
Qed.
End Formats.

Lemma valid_parts dt : valid dt = true ->
  valid_date (year dt) (month dt) (day dt) = true
  /\ valid_time (hour dt) (minute dt) (second dt) = true.
Proof. unfold valid. now rewrite andb_true_iff. Qed.

(** C3, as the code has it.  A date written in any of the eight default
    formats is read back by [parse_date] as the same calendar date, except
    that a DD/MM/YYYY string whose day is at most 12 is read as MM/DD/YYYY,
    with day and month exchanged. *)
Theorem parse_date_round_trip (dt : datetime) (fmt : string) :
  valid dt = true ->
  In fmt default_formats ->
  option_map date_of (parse_date (strftime dt fmt) None)
  = Some (if String.eqb fmt "%d/%m/%Y" && (day dt <=? 12)
          then (year dt, day dt, month dt)
          else date_of dt).
Proof.
  intros Hv Hin. destruct (valid_parts dt Hv) as (Hd & Ht).
  destruct dt as [y m d h mi s]. cbn [year month day hour minute second] in *.
  unfold default_formats in Hin. cbn [In] in Hin.
  repeat (destruct Hin as [Hin|Hin]; [subst fmt|]); [..|contradiction].
  - change (strftime _ _) with (iso y m d). now rewrite parse_iso.
  - change (strftime _ _) with (long_first y m d). now rewrite parse_long_first.
  - change (strftime _ _) with (short_first y m d). now rewrite parse_short_first.
  - change (strftime _ _) with (day_long y m d). now rewrite parse_day_long.
  - change (strftime _ _) with (day_short y m d). now rewrite parse_day_short.
  - change (strftime _ _) with (slashes m d y). now rewrite parse_month_first.
  - change (strftime _ _) with (slashes d m y). rewrite parse_day_first by exact Hd.
    cbn [String.eqb Ascii.eqb Bool.eqb andb]. unfold date_of.
    destruct (d <=? 12); reflexivity.
  - change (strftime _ _) with (iso_time y m d h mi s).
    now rewrite parse_iso_time.
Qed.

Lemma parse_date_round_trip_witness :
  option_map date_of
    (parse_date (strftime (mkdt 2024 3 15 0 0 0) "%d/%m/%Y") None)
  = Some (2024, 3, 15).
Proof.
  apply (parse_date_round_trip (mkdt 2024 3 15 0 0 0) "%d/%m/%Y").
  - reflexivity.
  - cbn. tauto.
Defined.

(** C3 as stated fails: 5 March 2024 written day-first is read as 3 May. *)
Lemma day_first_round_trip_fails :
  valid (mkdt 2024 3 5 0 0 0) = true
  /\ In "%d/%m/%Y" default_formats
  /\ option_map date_of
       (parse_date (strftime (mkdt 2024 3 5 0 0 0) "%d/%m/%Y") None)
     = Some (2024, 5, 3)
  /\ option_map date_of
       (parse_date (strftime (mkdt 2024 3 5 0 0 0) "%d/%m/%Y") None)
     <> Some (date_of (mkdt 2024 3 5 0 0 0)).
Proof.
  split; [reflexivity|]. split; [cbn; tauto|].
  split; [vm_compute; reflexivity|vm_compute; discriminate].
Qed.

End RoundTrip.

(* ================================================================= *)
(** ** The adapters keep a record only with a title or a text *)

Module AdapterFacts.
Import Bs4 Extract Props.

Lemma keep_some r r' :
  keep r = Some r' -> title r' <> "" \/ review_text r' <> "".
Proof.
  unfold keep. destruct (review_text r) eqn:Et; destruct (title r) eqn:Ei;
    cbn; try discriminate; intros E; inversion E; subst; rewrite ?Et, ?Ei;
    [left|right|right]; discriminate.
Qed.

(** C5. Whatever the element and whichever of the three adapters, a record
    returned by [parse_review] has a title or a review text that is not
    empty. *)
Theorem parse_review_keeps_title_or_text
        (a : adapter) (markup : node -> string) (review_element : node)
        (r : review) :
  parse_review a markup review_element = Some r ->
  title r <> "" \/ review_text r <> "".
Proof.
  destruct a; cbn [parse_review];
    unfold G2.parse_review, Capterra.parse_review, Trustpilot.parse_review;
    apply keep_some.
Qed.

Lemma parse_review_keeps_title_or_text_witness :
  title (mkreview "Solid product" "" "2024-03-05" "" "" "g2") <> ""
  \/ review_text (mkreview "Solid product" "" "2024-03-05" "" "" "g2") <> "".
Proof.
  apply (parse_review_keeps_title_or_text G2Scraper (fun _ => "")
           (review_card " Solid product " "2024-03-05")).
  reflexivity.
Defined.

End AdapterFacts.

(* ================================================================= *)
(** ** The fallback extraction *)

Module FallbackFacts.
Import Bs4 BaseScraper Props.

Lemma checks_review_like c :
  has_review_keywords c && has_substantial_text c && has_multiple_elements c
  = true -> review_like c.
Proof.
  rewrite !andb_true_iff. intros ((Hk & Ht) & Hm). repeat split.
  - unfold has_review_keywords in Hk. apply existsb_exists in Hk.
    destruct Hk as (kw & Hin & Hc). now exists kw.
  - unfold has_substantial_text in Ht. lia.
  - unfold has_multiple_elements, find_all, take in Hm.
    apply Z.geb_le in Hm.
    assert (2 <= List.length
                   (firstn 5 (filter (fun d => name_in ["p"; "div"; "span"] d
                                               && any_attrs d)
                                     (descendants c))))%nat as H by lia.
    rewrite length_firstn in H.
    erewrite filter_ext in H;
      [|intros x; unfold any_attrs; apply andb_true_r]. lia.
Qed.

Lemma collect_spec candidates : forall reviews,
  (List.length reviews < 20)%nat -> Forall review_like reviews ->
  (List.length (collect candidates reviews) <= 20)%nat
  /\ Forall review_like (collect candidates reviews)
  /\ incl (collect candidates reviews) (reviews ++ candidates).
Proof.
  induction candidates as [|c cs IH]; intros reviews Hl Hf; cbn [collect].
  - rewrite app_nil_r. repeat split; [lia|assumption|apply incl_refl].
  - destruct (has_review_keywords c && has_substantial_text c
              && has_multiple_elements c) eqn:E.
    + assert (Forall review_like (reviews ++ [c])) as Hf'.
      { apply Forall_app. split; [assumption|].
        constructor; [now apply checks_review_like|constructor]. }
      assert (List.length (reviews ++ [c]) = S (List.length reviews)) as Hlen.
      { rewrite length_app. cbn. lia. }
      destruct (Z.geb_spec (Z.of_nat (List.length (reviews ++ [c]))) 20).
      * repeat split; [lia|assumption|].
        intros x Hx. apply in_app_iff in Hx. apply in_app_iff.
        destruct Hx as [Hx|Hx]; [now left|right].
        destruct Hx as [Hx|[]]. subst. now left.
      * destruct (IH (reviews ++ [c])%list ltac:(lia) Hf') as (A & B & C).
        repeat split; [assumption|assumption|].
        intros x Hx. apply C in Hx. rewrite <- app_assoc in Hx. exact Hx.
    + destruct (IH reviews Hl Hf) as (A & B & C).
      repeat split; [assumption|assumption|].
      intros x Hx. apply C in Hx. apply in_app_iff in Hx. apply in_app_iff.
      destruct Hx as [Hx|Hx]; [now left|right; now right].
Qed.

Lemma base_json_empty (json : Type) (json_items : node -> list json) soup :
  extract_reviews_from_json json json_items base_parse_json_review soup = [].
Proof.
  unfold extract_reviews_from_json, base_parse_json_review.
  induction (json_items soup); [reflexivity|assumption].
Qed.

(** C6, as the code has it.  On a page where the adapter finds no element
    the loop works on the result of the fallback extraction: at most 20 of
    the first 100 container tags, each with a review keyword in its text,
    more than 100 characters of stripped text, and at least two descendant
    elements among [p], [div] and [span]. *)
Theorem fallback_applied_and_bounded
        (json : Type) (json_items : node -> list json)
        (get_review_elements : node -> list node) (soup : node) :
  get_review_elements soup = [] ->
  let review_elements :=
    page_elements get_review_elements soup
      (extract_reviews_from_json json json_items base_parse_json_review soup) in
  review_elements = fallback_extract_reviews soup
  /\ (List.length review_elements <= 20)%nat
  /\ Forall review_like review_elements
  /\ incl review_elements
          (find_all ["div"; "article"; "li"; "section"] any_attrs
                    (Some 100%nat) soup).
Proof.
  intros He. cbn zeta. unfold page_elements.
  rewrite He, base_json_empty. cbn [is_nil andb].
  split; [reflexivity|].
  unfold fallback_extract_reviews.
  destruct (collect_spec
              (find_all ["div"; "article"; "li"; "section"] any_attrs
                        (Some 100%nat) soup) [] ltac:(cbn; lia)
              (Forall_nil _)) as (A & B & C).
  repeat split; assumption.
Qed.

Lemma fallback_applied_and_bounded_witness :
  let review_elements :=
    page_elements (fun _ => []) nested_page
      (extract_reviews_from_json unit (fun _ => []) base_parse_json_review
                                 nested_page) in
  review_elements = fallback_extract_reviews nested_page
  /\ (List.length review_elements <= 20)%nat
  /\ Forall review_like review_elements
  /\ incl review_elements
          (find_all ["div"; "article"; "li"; "section"] any_attrs
                    (Some 100%nat) nested_page).
Proof.
  apply (fallback_applied_and_bounded unit (fun _ => []) (fun _ => [])
                                      nested_page).
  reflexivity.
Defined.

(** C6 as stated fails: the fallback keeps a candidate with one child. *)
Lemma fallback_keeps_single_child :
  In single_child (fallback_extract_reviews nested_page)
  /\ List.length (child_elements single_child) = 1%nat.
Proof. split; [vm_compute; left; reflexivity|reflexivity]. Qed.

End FallbackFacts.

(* ================================================================= *)
(** ** The scrape loop *)

Module LoopFacts.
Import Bs4 Datetime DateUtils BaseScraper Props DatetimeFacts DateUtilsFacts.

Section Loop.
Variable World : Type.
Variable get_soup : string -> World -> option node * World.
Variable json : Type.
Variable json_items : node -> list json.
Variable parse_json_review : json -> option review.
Variable get_review_elements : node -> list node.
Variable parse_review : node -> option review.
Variable get_next_page_url : node -> string -> option string.
Variables start_date end_date : datetime.

Local Abbreviation step_ :=
  (page_step World get_soup json json_items parse_json_review
             get_review_elements parse_review get_next_page_url
             start_date end_date).
Local Abbreviation loop_ :=
  (scrape_loop World get_soup json json_items parse_json_review
               get_review_elements parse_review get_next_page_url
               start_date end_date).
Local Abbreviation after_ :=
  (after_pages World get_soup json json_items parse_json_review
               get_review_elements parse_review get_next_page_url
               start_date end_date).
Local Abbreviation json_of :=
  (extract_reviews_from_json json json_items parse_json_review).
Local Abbreviation scan_json_ := (scan_json start_date end_date).
Local Abbreviation scan_elements_ := (scan_elements parse_review start_date end_date).

Local Abbreviation parsed_ := (parsed parse_review).
Local Abbreviation first_record_ :=
  (first_record json json_items parse_json_review get_review_elements
                parse_review).
Local Abbreviation older_ := (older_than_start start_date).
Local Abbreviation goes_on_ :=
  (goes_on json json_items parse_json_review get_review_elements
           parse_review get_next_page_url start_date end_date).

(** *** One turn *)

Lemma step_continue st st' :
  step_ st = Continue st' ->
  page_num st' = page_num st + 1 /\ page_num st' <= 100
  /\ List.length (fetched st') = S (List.length (fetched st)).
Proof.
  unfold page_step.
  repeat match goal with
         | |- context [match ?x with _ => _ end] =>
             destruct x eqn:?; try discriminate
         end.
  intros E. inversion E; subst; cbn.
  rewrite length_app. cbn. repeat split; lia.
Qed.

Lemma step_halt e st st' :
  step_ st = Halt e st' ->
  (List.length (fetched st') <= S (List.length (fetched st)))%nat.
Proof.
  unfold page_step.
  repeat match goal with
         | |- context [match ?x with _ => _ end] =>
             destruct x eqn:?; try discriminate
         end.
  all: intros E; inversion E; subst; cbn; rewrite ?length_app; cbn; lia.
Qed.

(** *** Termination: the page cap *)

Lemma loop_terminates fuel : forall st,
  101 - page_num st <= Z.of_nat fuel -> (1 <= fuel)%nat ->
  exists e st',
    loop_ fuel st = Some (e, st')
    /\ Z.of_nat (List.length (fetched st'))
       <= Z.of_nat (List.length (fetched st)) + Z.max 1 (101 - page_num st).
Proof.
  induction fuel as [|fuel IH]; intros st Hf H1; [lia|].
  cbn [scrape_loop]. destruct (step_ st) as [st1|e st1] eqn:E.
  - destruct (step_continue _ _ E) as (Hp & Hle & Hlen).
    destruct (IH st1 ltac:(lia) ltac:(lia)) as (e & st' & Hl & Hn).
    exists e, st'. split; [exact Hl|]. lia.
  - exists e, st1. split; [reflexivity|].
    pose proof (step_halt _ _ _ E). lia.
Qed.

(** C4. From the first page on, the loop stops after fetching at most 100
  pages, whatever the site answers and whatever next link the adapter
  returns. *)
Theorem scrape_loop_stops_within_100_pages (company_url : string) (w : World) :
  exists e st,
    loop_ 100%nat (initial company_url w) = Some (e, st)
    /\ (List.length (fetched st) <= 100)%nat.
Proof.
  destruct (loop_terminates 100 (initial company_url w))
    as (e & st & Hl & Hn); cbn; try lia.
  exists e, st. split; [exact Hl|]. cbn in Hn. lia.
Qed.

(** More fuel changes nothing once the loop has stopped. *)
Lemma loop_more_fuel fuel : forall st r extra,
  loop_ fuel st = Some r -> loop_ (fuel + extra) st = Some r.
Proof.
  induction fuel as [|fuel IH]; intros st r extra; [discriminate|].
  cbn [scrape_loop Nat.add]. destruct (step_ st); [apply IH|auto].
Qed.

Lemma loop_after n : forall st0 st fuel,
  after_ n st0 = Some st -> loop_ (n + fuel) st0 = loop_ fuel st.
Proof.
  induction n as [|n IH]; intros st0 st fuel; cbn [after_pages Nat.add].
  - intros E. now inversion E.
  - cbn [scrape_loop]. destruct (step_ st0); [apply IH|discriminate].
Qed.

Lemma after_page_num n : forall st0 st,
  after_ n st0 = Some st ->
  page_num st = page_num st0 + Z.of_nat n
  /\ List.length (fetched st) = (List.length (fetched st0) + n)%nat.
Proof.
  induction n as [|n IH]; intros st0 st; cbn [after_pages].
  - intros E. inversion E. subst. split; lia.
  - destruct (step_ st0) as [st1|] eqn:E; [|discriminate].
    intros H. destruct (IH _ _ H) as (A & B).
    destruct (step_continue _ _ E) as (C & _ & D). split; lia.
Qed.

(** *** The date stop *)

Lemma older_stops r :
  valid start_date = true -> older_ r ->
  should_stop_scraping (parse_date (review_date r) None) start_date = true
  /\ in_range start_date end_date (parse_date (review_date r) None) = false.
Proof.
  intros Hs (d & Hd & Hlt). rewrite Hd.
  assert (should_stop_scraping (Some d) start_date = true) as Hstop.
  { cbn. apply ltb_timestamp; [eapply parse_date_valid; eauto|assumption|exact Hlt]. }
  split; [exact Hstop|].
  pose proof (stop_excludes_range d start_date end_date) as H.
  rewrite Hstop in H. exact H.
Qed.

Lemma scan_elements_first_old review_elements : forall reviews r,
  valid start_date = true ->
  hd_error (parsed_ review_elements) = Some r -> older_ r ->
  scan_elements_ review_elements reviews = (reviews, true).
Proof.
  induction review_elements as [|e es IH]; intros reviews r Hs Hh Ho;
    [discriminate|].
  cbn [scan_elements]. cbn [parsed flat_map] in Hh.
  destruct (parse_review e) as [r'|] eqn:E.
  - cbn in Hh. inversion Hh. subst r'.
    destruct (older_stops r Hs Ho) as (A & _). now rewrite A.
  - cbn [app] in Hh. eapply IH; eauto.
Qed.

Lemma scan_json_first_old json_reviews reviews r :
  valid start_date = true ->
  hd_error json_reviews = Some r -> older_ r ->
  scan_json_ json_reviews reviews = (reviews, true).
Proof.
  intros Hs Hh Ho. destruct json_reviews as [|j js]; [discriminate|].
  cbn in Hh. inversion Hh. subst j. cbn [scan_json].
  destruct (older_stops r Hs Ho) as (A & B). now rewrite B, A.
Qed.

Lemma parsed_nonempty review_elements r :
  hd_error (parsed_ review_elements) = Some r ->
  is_nil review_elements = false.
Proof. destruct review_elements; [discriminate|reflexivity]. Qed.

Lemma step_date_stop st u soup w r :
  valid start_date = true ->
  url st = Some u -> Str.truthy u = true ->
  get_soup u (world st) = (Some soup, w) ->
  first_record_ soup = Some r -> older_ r ->
  exists e,
    step_ st = Halt e
                    (mkstate (url st) (page_num st) (reviews st) w
                             (fetched st ++ [u]))
    /\ (e = DateStop \/ e = JsonDateStop).
Proof.
  intros Hs Hu Ht Hg Hf Ho. unfold page_step. rewrite Hu, Ht, Hg.
  cbn [negb]. unfold first_record, page_records in Hf.
  destruct (json_of soup) as [|j js] eqn:Ej.
  - cbn [app] in Hf. cbn [scan_json].
    rewrite (parsed_nonempty _ _ Hf). cbn [andb].
    rewrite (scan_elements_first_old _ (reviews st) r Hs Hf Ho).
    exists DateStop. auto.
  - rewrite (scan_json_first_old (j :: js) (reviews st) r Hs Hf Ho).
    exists JsonDateStop. auto.
Qed.

(** C1. If the loop is still running after [n] pages and the first record
  of the next page is dated strictly before the start date, the loop
  stops on that page and its list of reviews is the one it had when it
  reached the page. *)
Theorem scrape_halts_at_first_old_page
        (company_url : string) (w0 : World) (n : nat) (st : state World)
        (u : string) (soup : node) (w : World) (r : review) (fuel : nat) :
  valid start_date = true ->
  after_ n (initial company_url w0) = Some st ->
  url st = Some u -> Str.truthy u = true ->
  get_soup u (world st) = (Some soup, w) ->
  first_record_ soup = Some r -> older_ r ->
  (n < fuel)%nat ->
  exists e st',
    loop_ fuel (initial company_url w0) = Some (e, st')
    /\ (e = DateStop \/ e = JsonDateStop)
    /\ reviews st' = reviews st
    /\ page_num st' = Z.of_nat n + 1
    /\ List.length (fetched st') = S n.
Proof.
  intros Hs Ha Hu Ht Hg Hf Ho Hfuel.
  destruct (step_date_stop st u soup w r Hs Hu Ht Hg Hf Ho) as (e & He & Hor).
  destruct (after_page_num _ _ _ Ha) as (Hp & Hl).
  cbn [initial page_num fetched List.length Nat.add] in Hp, Hl.
  exists e. eexists. split; [|split; [exact Hor|]].
  - replace fuel with (n + S (fuel - S n))%nat by lia.
    rewrite (loop_after _ _ _ _ Ha). cbn [scrape_loop]. rewrite He.
    reflexivity.
  - cbn [reviews page_num fetched]. rewrite length_app.
    cbn [List.length]. repeat split; lia.
Qed.

(** *** One record is never both kept and a reason to stop *)

Lemma scan_elements_added review_elements : forall reviews,
  exists added,
    fst (scan_elements_ review_elements reviews) = (reviews ++ added)%list
    /\ Forall (fun r =>
                 should_stop_scraping (parse_date (review_date r) None)
                                      start_date = false
                 /\ in_range start_date end_date
                             (parse_date (review_date r) None) = true)
              added.
Proof.
  induction review_elements as [|e es IH]; intros reviews; cbn [scan_elements].
  - exists []. rewrite app_nil_r. split; [reflexivity|constructor].
  - destruct (parse_review e) as [r|]; [|apply IH].
    destruct (should_stop_scraping _ _) eqn:Es.
    + exists []. rewrite app_nil_r. split; [reflexivity|constructor].
    + destruct (in_range _ _ _) eqn:Er; [|apply IH].
      destruct (IH (reviews ++ [r])%list) as (added & A & B).
      exists (r :: added). rewrite A, <- app_assoc. split; [reflexivity|].
      constructor; auto.
Qed.

Lemma scan_json_added json_reviews : forall reviews,
  exists added,
    fst (scan_json_ json_reviews reviews) = (reviews ++ added)%list
    /\ Forall (fun r =>
                 should_stop_scraping (parse_date (review_date r) None)
                                      start_date = false
                 /\ in_range start_date end_date
                             (parse_date (review_date r) None) = true)
              added.
Proof.
  induction json_reviews as [|j js IH]; intros reviews; cbn [scan_json].
  - exists []. rewrite app_nil_r. split; [reflexivity|constructor].
  - destruct (in_range _ _ _) eqn:Er.
    + destruct (IH (reviews ++ [j])%list) as (added & A & B).
      exists (j :: added). rewrite A, <- app_assoc. split; [reflexivity|].
      constructor; auto. split; [|exact Er].
      destruct (parse_date (review_date j) None) as [d|]; [|reflexivity].
      pose proof (stop_excludes_range d start_date end_date) as H.
      cbn in Er. rewrite Er, andb_true_r in H. exact H.
    + destruct (should_stop_scraping _ _); [|apply IH].
      exists []. rewrite app_nil_r. split; [reflexivity|constructor].
Qed.

(** *** Endless pagination: only the cap stops it *)

Section Endless.
Hypothesis every_page_goes_on : forall u w,
  exists soup w', get_soup u w = (Some soup, w') /\ goes_on_ soup.

Lemma endless_step st :
  has_url st ->
  exists st',
    has_url st' /\ page_num st' = page_num st + 1
    /\ List.length (fetched st') = S (List.length (fetched st))
    /\ step_ st = if page_num st + 1 >? 100 then Halt PageLimit st'
                  else Continue st'.
Proof.
  intros (u & Hu & Ht). unfold page_step. rewrite Hu, Ht. cbn [negb].
  destruct (every_page_goes_on u (world st))
    as (soup & w & Hg & Hn & Hj & Hp & He).
  rewrite Hg. specialize (Hj (reviews st)).
  destruct (scan_json_ (json_of soup) (reviews st)) as [rs1 b1].
  cbn in Hj. subst b1. rewrite He. specialize (Hp rs1).
  destruct (scan_elements_ _ rs1) as [rs2 b2]. cbn in Hp. subst b2.
  destruct (Hn u) as (u' & Hn' & Ht').
  exists (mkstate (get_next_page_url soup u) (page_num st + 1) rs2 w
                  (fetched st ++ [u])).
  repeat split.
  - exists u'. cbn. auto.
  - cbn. rewrite length_app. cbn. lia.
Qed.

Lemma endless_loop fuel : forall st,
  has_url st -> Z.of_nat fuel = 101 - page_num st -> (1 <= fuel)%nat ->
  exists st',
    loop_ fuel st = Some (PageLimit, st')
    /\ page_num st' = 101
    /\ List.length (fetched st') = (List.length (fetched st) + fuel)%nat.
Proof.
  induction fuel as [|fuel IH]; intros st Hu Hf H1; [lia|].
  destruct (endless_step st Hu) as (st1 & Hu1 & Hp & Hl & Hs).
  cbn [scrape_loop]. rewrite Hs.
  destruct (Z.gtb_spec (page_num st + 1) 100).
  - exists st1. repeat split; [lia|lia].
  - destruct (IH st1 Hu1 ltac:(lia) ltac:(lia)) as (st' & A & B & C).
    exists st'. repeat split; [exact A|exact B|lia].
Qed.

(** With a next link on every page the loop reads exactly 100 pages and
    leaves through the cap. *)
Lemma endless_pagination_reaches_limit company_url w :
  Str.truthy company_url = true ->
  exists st,
    loop_ 100%nat (initial company_url w) = Some (PageLimit, st)
    /\ page_num st = 101
    /\ List.length (fetched st) = 100%nat.
Proof.
  intros Ht.
  destruct (endless_loop 100 (initial company_url w)) as (st & A & B & C).
  - exists company_url. cbn. auto.
  - reflexivity.
  - lia.
  - exists st. cbn in C. auto.
Qed.
End Endless.

End Loop.

(** C10. A date is never both strictly before the start date and inside the
    range; so in a pass over the elements or over the embedded records,
    every record that is kept is one that does not ask for the stop. *)
Theorem stop_and_accept_exclude_each_other :
  (forall d start_date end_date,
      should_stop_scraping (Some d) start_date
      && is_date_in_range d start_date end_date = false)
  /\ (forall parse_review start_date end_date review_elements reviews,
        exists added,
          fst (scan_elements parse_review start_date end_date
                             review_elements reviews)
          = (reviews ++ added)%list
          /\ Forall (fun r =>
                       should_stop_scraping
                         (parse_date (review_date r) None) start_date = false
                       /\ in_range start_date end_date
                                   (parse_date (review_date r) None) = true)
                    added)
  /\ (forall start_date end_date json_reviews reviews,
        exists added,
          fst (scan_json start_date end_date json_reviews reviews)
          = (reviews ++ added)%list
          /\ Forall (fun r =>
                       should_stop_scraping
                         (parse_date (review_date r) None) start_date = false
                       /\ in_range start_date end_date
                                   (parse_date (review_date r) None) = true)
                    added).
Proof.
  split; [exact stop_excludes_range|]. split.
  - intros. apply scan_elements_added.
  - intros. apply scan_json_added.
Qed.

Lemma scrape_halts_at_first_old_page_witness :
  exists e st',
    scrape_loop unit two_pages unit (fun _ => []) base_parse_json_review
                children_of (G2.parse_review (fun _ => ""))
                (fun _ _ => Some notion_page_2)
                (mkdt 2024 1 1 0 0 0) (mkdt 2024 6 1 0 0 0) 100
                (initial notion_url tt)
    = Some (e, st')
    /\ (e = DateStop \/ e = JsonDateStop)
    /\ reviews st' = [mkreview "Works well" "" "2024-03-05" "" "" "g2"]
    /\ page_num st' = Z.of_nat 1 + 1
    /\ List.length (fetched st') = 2%nat.
Proof.
  apply (scrape_halts_at_first_old_page unit two_pages unit (fun _ => [])
           base_parse_json_review children_of (G2.parse_review (fun _ => ""))
           (fun _ _ => Some notion_page_2)
           (mkdt 2024 1 1 0 0 0) (mkdt 2024 6 1 0 0 0)
           notion_url tt 1
           (mkstate (Some notion_page_2) 2
                    [mkreview "Works well" "" "2024-03-05" "" "" "g2"] tt
                    [notion_url])
           notion_page_2 old_page
           tt (mkreview "Good value" "" "2023-12-31" "" "" "g2") 100).
  - reflexivity.
  - vm_compute. reflexivity.
  - reflexivity.
  - reflexivity.
  - reflexivity.
  - vm_compute. reflexivity.
  - exists (mkdt 2023 12 31 0 0 0). split; vm_compute; reflexivity.
  - lia.
Defined.

Lemma endless_pagination_reaches_limit_witness :
  exists st,
    scrape_loop unit endless_site unit (fun _ => []) base_parse_json_review
                children_of (G2.parse_review (fun _ => ""))
                (fun _ u => Some (u ++ "&next"))
                (mkdt 2024 1 1 0 0 0) (mkdt 2024 6 1 0 0 0) 100
                (initial notion_url tt)
    = Some (PageLimit, st)
    /\ page_num st = 101
    /\ List.length (fetched st) = 100%nat.
Proof.
  apply (endless_pagination_reaches_limit unit endless_site unit (fun _ => [])
           base_parse_json_review children_of (G2.parse_review (fun _ => ""))
           (fun _ u => Some (u ++ "&next"))
           (mkdt 2024 1 1 0 0 0) (mkdt 2024 6 1 0 0 0)).
  - intros u w. eexists. exists w. split; [reflexivity|].
    repeat split.
    + intros u0. eexists. split; [reflexivity|].
      induction u0; reflexivity.
  - reflexivity.
Defined.

End LoopFacts.

(* ================================================================= *)
(** ** [fetch_with_retry] *)

Module FetchFacts.
Import RequestUtils Props.

Section Fetch.
Variable World : Type.
Variable requests_get : string -> World -> option response * World.

Local Abbreviation try_ := (try_get World requests_get).
Local Abbreviation attempts_ := (attempts World requests_get).
Local Abbreviation fetch_ := (fetch_with_retry World requests_get).

(** Whatever [max_retries] and [delay] are, no more requests than
    [max_retries] are made. *)
Lemma attempts_bound remaining : forall attempt url max_retries delay w,
  (requests_made (snd (fst (attempts_ remaining attempt url max_retries delay w)))
   <= remaining)%nat.
Proof.
  induction remaining as [|n IH]; intros; cbn [attempts]; [cbn; lia|].
  destruct (try_ url w) as [[resp|] w1]; [cbn; lia|].
  destruct (attempt <? max_retries - 1); [|cbn; lia].
  cbv zeta. destruct (sleep_raises _); [cbn; lia|].
  specialize (IH (attempt + 1) url max_retries delay w1).
  destruct (attempts_ n (attempt + 1) url max_retries delay w1) as [[res tr] w2].
  cbn in *. lia.
Qed.




End Fetch.

Lemma fetch_with_retry_bound World requests_get url max_retries delay w :
  (requests_made
     (snd (fst (fetch_with_retry World requests_get url max_retries delay w)))
   <= Z.to_nat max_retries)%nat.
Proof. apply attempts_bound. Qed.


End FetchFacts.

(* ================================================================= *)
(** ** Sample data and the scenario of an empty extraction *)

Module SampleFacts.
Import Datetime DateUtils SampleData Props DatetimeFacts DateUtilsFacts.
Import StrptimeFacts RoundTrip.

Lemma all_days_ok : forallb day_ok (map Z.of_nat (seq 0 153)) = true.
Proof. vm_compute. reflexivity. Qed.

Lemma day_in_window k : 0 <= k <= 152 ->
  exists d, add_days jan1 k = Some d /\ valid d = true
            /\ (hour d, minute d, second d) = (0, 0, 0)
            /\ is_date_in_range d jan1 jun1 = true.
Proof.
  intros H. pose proof all_days_ok as A. rewrite forallb_forall in A.
  specialize (A k). unfold day_ok in A.
  destruct (add_days jan1 k) as [d|].
  - exists d. assert (In k (map Z.of_nat (seq 0 153))) as Hin.
    { replace k with (Z.of_nat (Z.to_nat k)) by lia.
      apply in_map, in_seq. lia. }
    specialize (A Hin). rewrite !andb_true_iff, !Z.eqb_eq in A.
    destruct A as ((((A1 & A2) & A3) & A4) & A5).
    rewrite A3, A4, A5. auto.
  - assert (In k (map Z.of_nat (seq 0 153))) as Hin.
    { replace k with (Z.of_nat (Z.to_nat k)) by lia.
      apply in_map, in_seq. lia. }
    specialize (A Hin). discriminate.
Qed.

Section Gen.
Variable Rng : Type.
Variable next : Rng -> Z * Rng.

Local Abbreviation sample_review_ := (sample_review Rng next).
Local Abbreviation sample_loop_ := (sample_loop Rng next).
Local Abbreviation generate_ := (generate_sample_reviews Rng next).

Lemma randint_range a b g : a <= b ->
  a <= fst (randint Rng next a b g) <= b.
Proof.
  intros H. unfold randint, randbelow. destruct (next g) as [x g'].
  cbn. pose proof (Z.mod_pos_bound x (b - a + 1) ltac:(lia)). lia.
Qed.

Lemma sample_review_in_window company src g :
  exists r g', sample_review_ company jan1 152 src g = Some (r, g')
               /\ in_window src r.
Proof.
  unfold sample_review.
  pose proof (randint_range 0 152 g ltac:(lia)) as Hr.
  destruct (randint Rng next 0 152 g) as [k g1]. cbn [fst] in Hr.
  destruct (day_in_window k Hr) as (d & Hd & Hv & Ht & Hin). rewrite Hd.
  destruct (choices_rating Rng next g1) as [rating g2].
  destruct (if rating >=? 4 then choice Rng next positive_templates g2
            else if rating =? 3 then choice Rng next neutral_templates g2
                 else choice Rng next negative_templates g2) as [template g3].
  destruct (random_gt Rng next half g3) as [b1 g4].
  destruct (random_gt Rng next seven_tenths g4) as [b2 g5].
  destruct (random_gt Rng next six_tenths g5) as [b3 g6].
  destruct (choice Rng next titles g6) as [t g7].
  destruct (choice Rng next reviewer_names g7) as [rv g8].
  eexists. eexists. split; [reflexivity|].
  split; [reflexivity|]. exists d. auto.
Qed.

Lemma sample_loop_in_window company src count : forall reviews g,
  Forall (in_window src) reviews ->
  exists rs g', sample_loop_ count company jan1 152 src reviews g = Some (rs, g')
                /\ Forall (in_window src) rs
                /\ List.length rs = (List.length reviews + count)%nat.
Proof.
  induction count as [|n IH]; intros reviews g Hf; cbn [sample_loop].
  - exists reviews, g. repeat split; [assumption|lia].
  - destruct (sample_review_in_window company src g) as (r & g' & E & Hw).
    rewrite E.
    destruct (IH (reviews ++ [r])%list g') as (rs & g'' & A & B & C).
    { apply Forall_app. split; [assumption|]. constructor; [assumption|constructor]. }
    exists rs, g''. repeat split; [assumption|assumption|].
    rewrite C, length_app. cbn. lia.
Qed.

Lemma insert_desc_spec (P : review -> Prop) x l :
  P x -> Forall P l ->
  Forall P (insert_desc x l)
  /\ List.length (insert_desc x l) = S (List.length l).
Proof.
  intros Hx Hl. induction l as [|y l IH]; cbn [insert_desc].
  - split; [constructor; auto|reflexivity].
  - destruct (String.leb (review_date y) (review_date x)).
    + split; [constructor; auto|reflexivity].
    + inversion Hl; subst. destruct (IH H2) as (A & B).
      split; [constructor; auto|cbn; lia].
Qed.

Lemma sort_desc_spec (P : review -> Prop) l :
  Forall P l ->
  Forall P (sort_desc l) /\ List.length (sort_desc l) = List.length l.
Proof.
  induction l as [|x l IH]; intros H; cbn [sort_desc fold_right].
  - split; [constructor|reflexivity].
  - inversion H; subst. destruct (IH H3) as (A & B).
    destruct (insert_desc_spec P x (sort_desc l) H2 A) as (C & D).
    split; [exact C|]. fold (sort_desc l) in *. cbn. lia.
Qed.

Lemma generate_in_window company src g :
  exists rs g', generate_ company jan1 jun1 src 10 g = Some (rs, g')
                /\ Forall (in_window src) rs /\ List.length rs = 10%nat.
Proof.
  unfold generate_sample_reviews.
  change (sub_days jun1 jan1) with 152. cbn [Z.ltb Z.compare Pos.compare Pos.compare_cont].
  change (152 <? 1) with false. cbn iota.
  change (Z.to_nat 10) with 10%nat.
  destruct (sample_loop_in_window company src 10 [] g (Forall_nil _))
    as (rs & g' & A & B & C).
  rewrite A. exists (sort_desc rs), g'.
  destruct (sort_desc_spec _ rs B) as (D & E).
  repeat split; [exact D|]. rewrite E, C. reflexivity.
Qed.
End Gen.

(** The dates of the output: what [save_output] writes for such a record. *)
Lemma format_in_window src r :
  in_window src r ->
  Main.formatted_reviews [r] = [r].
Proof.
  intros (Hs & d & Hv & Ht & Hd & Hr). destruct (valid_parts d Hv) as (Hvd & _).
  unfold Main.formatted_reviews. cbn [map].
  assert (review_date r = iso (year d) (month d) (day d)) as Hiso by exact Hd.
  assert (Main.format_review_date (review_date r) = review_date r) as Hf.
  { unfold Main.format_review_date. rewrite Hiso.
    rewrite (parse_iso _ _ _ Hvd). reflexivity. }
  rewrite Hf.
  destruct (Str.truthy (review_date r)); [|reflexivity].
  destruct r; reflexivity.
Qed.

End SampleFacts.

Module ScenarioFacts.
Import Datetime DateUtils SampleData BaseScraper Props.
Import DatetimeFacts DateUtilsFacts StrptimeFacts RoundTrip SampleFacts LoopFacts.

Lemma formatted_in_window src rs :
  Forall (in_window src) rs -> Main.formatted_reviews rs = rs.
Proof.
  induction 1 as [|r rs Hr Hrs IH]; [reflexivity|].
  change (Main.formatted_reviews (r :: rs))
    with (Main.formatted_reviews [r] ++ Main.formatted_reviews rs)%list.
  rewrite (format_in_window src r Hr), IH. reflexivity.
Qed.

Lemma in_window_g2 r : in_window "g2" r -> g2_in_window r.
Proof.
  intros (Hs & d & Hv & Ht & Hd & Hr). split; [exact Hs|].
  destruct (valid_parts d Hv) as (Hvd & _).
  exists d. split.
  - rewrite Hd. change (strftime d "%Y-%m-%d") with (iso (year d) (month d) (day d)).
    rewrite (parse_iso _ _ _ Hvd). destruct d. cbn in Ht. inversion Ht. subst.
    reflexivity.
  - unfold is_date_in_range in Hr. apply andb_true_iff in Hr.
    destruct Hr as (A & B).
    apply leb_timestamp in A; [|reflexivity|exact Hv].
    apply leb_timestamp in B; [|exact Hv|reflexivity]. lia.
Qed.

(** C8. Company Notion, source g2, 2024-01-01 to 2024-06-01: when the loop
    ends with no review, the reviews written are exactly 10, each with
    source g2 and a date between the two bounds. *)
Theorem notion_g2_empty_extraction_gives_ten_samples
        (World : Type) (get_soup : string -> World -> option Bs4.node * World)
        (json : Type) (json_items : Bs4.node -> list json)
        (get_review_elements : Bs4.node -> list Bs4.node)
        (get_next_page_url : Bs4.node -> string -> option string)
        (markup : Bs4.node -> string)
        (Rng : Type) (next : Rng -> Z * Rng) (w : World) (g : Rng) :
  (forall e st,
      scrape_loop World get_soup json json_items base_parse_json_review
                  get_review_elements (parse_review G2Scraper markup)
                  get_next_page_url jan1 jun1 100
                  (initial (get_company_url G2Scraper "Notion") w)
      = Some (e, st) ->
      reviews st = []) ->
  exists rs,
    Main.main_reviews World get_soup json json_items get_review_elements
                      get_next_page_url markup Rng next
                      "Notion" "2024-01-01" "2024-06-01" "g2" w g
    = Some rs
    /\ List.length rs = 10%nat
    /\ Forall g2_in_window rs.
Proof.
  intros Hempty. unfold Main.main_reviews.
  change (Main.validate_dates "2024-01-01" "2024-06-01")
    with (Some (jan1, jun1)).
  change (get_scraper "g2") with (Some G2Scraper). cbn iota.
  unfold scrape.
  destruct (loop_terminates World get_soup json json_items
              base_parse_json_review get_review_elements
              (parse_review G2Scraper markup) get_next_page_url jan1 jun1
              100 (initial (get_company_url G2Scraper "Notion") w))
    as (e & st & Hl & _); [cbn; lia|lia|].
  rewrite Hl. rewrite (Hempty e st Hl). cbn [List.length Z.of_nat Z.eqb].
  assert (forall g0, exists rs,
             (let reviews0 :=
                match generate_sample_reviews Rng next "Notion" jan1 jun1
                        "g2" 10 g0 with
                | Some (sample_reviews, _) => sample_reviews
                | None => []
                end in
              Some (Main.formatted_reviews reviews0)) = Some rs
             /\ List.length rs = 10%nat /\ Forall g2_in_window rs) as Hmain.
  { intros g0.
    destruct (generate_in_window Rng next "Notion" "g2" g0)
      as (rs & g' & A & B & C).
    rewrite A. cbn zeta. exists rs. rewrite (formatted_in_window _ _ B).
    repeat split; [exact C|].
    eapply Forall_impl; [|exact B]. intros r. apply in_window_g2. }
  destruct (generate_in_window Rng next "Notion" "g2" g)
    as (rs & g' & A & B & C).
  change (get_source_name G2Scraper) with "g2".
  destruct e; try (rewrite A; rewrite C; cbn [Z.of_nat Z.eqb Pos.of_succ_nat];
                   exists rs; rewrite (formatted_in_window _ _ B);
                   repeat split; [exact C|];
                   eapply Forall_impl; [|exact B]; intros r; apply in_window_g2).
  exact (Hmain g).
Qed.

Lemma notion_g2_empty_extraction_witness :
  exists rs,
    Main.main_reviews unit offline unit (fun _ => []) Bs4.children_of
                      (fun _ _ => None) (fun _ => "") nat counter
                      "Notion" "2024-01-01" "2024-06-01" "g2" tt 0%nat
    = Some rs
    /\ List.length rs = 10%nat
    /\ Forall g2_in_window rs.
Proof.
  apply (notion_g2_empty_extraction_gives_ten_samples unit offline unit
           (fun _ => []) Bs4.children_of (fun _ _ => None) (fun _ => "")
           nat counter tt 0%nat).
  intros e st H. vm_compute in H. inversion H. reflexivity.
Defined.

End ScenarioFacts.

Module CycleCheck.
Import Datetime CalendarTerms.

Lemma first_cycle_ok : all_from (Z.to_nat 146097) 0 cycle_day_ok = true.
Proof. vm_compute. reflexivity. Qed.

End CycleCheck.

(* ================================================================= *)
(** ** Ordinals and dates: [ord2ymd] inverts [ymd2ord] *)

Module CalendarFacts.
Import Datetime DateUtils Props CalendarTerms DatetimeFacts CycleCheck.

Lemma all_from_spec p n : forall i k,
  all_from n i p = true -> i <= k < i + Z.of_nat n -> p k = true.
Proof.
  induction n as [|n IH]; intros i k; cbn [all_from]; [lia|].
  rewrite andb_true_iff. intros [H1 H2] Hk.
  destruct (Z.eq_dec k i) as [->|Hne]; [exact H1|].
  apply (IH (i + 1)); [exact H2|lia].
Qed.

Lemma cycle_day r : 0 <= r < 146097 -> cycle_day_ok r = true.
Proof.
  intros Hr. apply (all_from_spec _ _ 0 r first_cycle_ok). lia.
Qed.

Lemma is_leap_period y q : is_leap (y + 400 * q) = is_leap y.
Proof.
  unfold is_leap.
  replace (y + 400 * q) with (y + (100 * q) * 4) at 1 by lia.
  replace (y + 400 * q) with (y + (4 * q) * 100) at 1 by lia.
  replace (y + 400 * q) with (y + q * 400) by lia.
  now rewrite !Z.mod_add by lia.
Qed.

Lemma days_before_year_period y q :
  days_before_year (y + 400 * q) = days_before_year y + 146097 * q.
Proof.
  unfold days_before_year. cbv zeta.
  replace ((y + 400 * q - 1) / 4) with ((y - 1) / 4 + 100 * q).
  2:{ replace (y + 400 * q - 1) with (y - 1 + (100 * q) * 4) by lia.
      now rewrite Z.div_add by lia. }
  replace ((y + 400 * q - 1) / 100) with ((y - 1) / 100 + 4 * q).
  2:{ replace (y + 400 * q - 1) with (y - 1 + (4 * q) * 100) by lia.
      now rewrite Z.div_add by lia. }
  replace ((y + 400 * q - 1) / 400) with ((y - 1) / 400 + q).
  2:{ replace (y + 400 * q - 1) with (y - 1 + q * 400) by lia.
      now rewrite Z.div_add by lia. }
  lia.
Qed.

Lemma ymd2ord_period y m d q :
  ymd2ord (y + 400 * q) m d = ymd2ord y m d + 146097 * q.
Proof.
  unfold ymd2ord, days_before_month.
  rewrite days_before_year_period, is_leap_period. lia.
Qed.

Lemma valid_date_period y m d q :
  valid_date y m d = true -> 0 <= q -> y + 400 * q <= 9999 ->
  valid_date (y + 400 * q) m d = true.
Proof.
  unfold valid_date, days_in_month, MINYEAR, MAXYEAR.
  rewrite is_leap_period. rewrite !andb_true_iff, !Z.leb_le.
  intros; repeat split; try tauto; lia.
Qed.

Lemma ord2ymd_period q r : 0 <= r < 146097 ->
  ord2ymd (q * 146097 + r + 1)
  = let '(y, m, d) := ord2ymd (r + 1) in (y + 400 * q, m, d).
Proof.
  intros Hr. unfold ord2ymd. cbv zeta. unfold DI400Y.
  replace (q * 146097 + r + 1 - 1) with (r + q * 146097) by lia.
  replace (r + 1 - 1) with r by lia.
  rewrite Z.div_add, Z.mod_add by lia.
  rewrite (Z.div_small r 146097), (Z.mod_small r 146097) by lia.
  repeat match goal with
         | |- context [if ?b then _ else _] => destruct b
         end; f_equal; f_equal; lia.
Qed.

(** [ord2ymd] gives a date the constructors accept, and [ymd2ord] leads
    back to the ordinal. *)
Lemma ord2ymd_ymd2ord n : 1 <= n <= MAXORDINAL ->
  exists y m d, ord2ymd n = (y, m, d)
                /\ valid_date y m d = true /\ ymd2ord y m d = n.
Proof.
  unfold MAXORDINAL. intros Hn.
  pose proof (Z.div_mod (n - 1) 146097 ltac:(lia)) as E.
  pose proof (Z.mod_pos_bound (n - 1) 146097 ltac:(lia)) as Hr.
  set (q := (n - 1) / 146097) in *. set (r := (n - 1) mod 146097) in *.
  assert (Hq : 0 <= q <= 24).
  { subst q. split; [apply Z.div_pos; lia|].
    apply Z.lt_succ_r, Z.div_lt_upper_bound; lia. }
  replace n with (q * 146097 + r + 1) by lia.
  rewrite (ord2ymd_period q r Hr).
  pose proof (cycle_day r Hr) as C. unfold cycle_day_ok in C.
  destruct (ord2ymd (r + 1)) as [[y m] d].
  rewrite !andb_true_iff, orb_true_iff, Z.eqb_eq, !Z.leb_le, Z.ltb_lt in C.
  destruct C as (((Hv & Ho) & Hy) & Hlast).
  exists (y + 400 * q), m, d. split; [reflexivity|]. split.
  - apply valid_date_period; [exact Hv|lia|].
    destruct (Z.eq_dec q 24) as [->|]; [|lia].
    assert (r <= 145730) by lia. lia.
  - rewrite ymd2ord_period. lia.
Qed.

(** [ymd2ord] of a valid date is an ordinal of the calendar. *)
Lemma ymd2ord_bounds y m d : valid_date y m d = true ->
  1 <= ymd2ord y m d <= MAXORDINAL.
Proof.
  intros Hv. pose proof (valid_date_bounds _ _ _ Hv) as (Hy & _ & _).
  pose proof (day_of_year_bounds _ _ _ Hv) as Hd.
  unfold ymd2ord, MAXORDINAL.
  pose proof (days_before_year_mono 1 y ltac:(lia)) as L.
  pose proof (days_before_year_mono (y + 1) 10000 ltac:(lia)) as U.
  rewrite days_before_year_succ in U.
  change (days_before_year 1) with 0 in L.
  change (days_before_year 10000) with 3652059 in U. lia.
Qed.

End CalendarFacts.

(* ================================================================= *)
(** ** The matcher: groups it sets, letter case it ignores *)

Module RegexFacts.
Import Str Re RegexTerms.

Section Inversion.
Context {R : Type}.

Lemma star_inv p : forall s (k : string -> string -> option R) res,
  star p s k = Some res -> exists m rest, k m rest = Some res.
Proof.
  induction s as [|c s IH]; intros k res; cbn [star].
  - intros H. now exists "", "".
  - destruct (p c); [|intros H; now exists "", (String c s)].
    destruct (star p s _) eqn:E.
    + intros H. inversion H; subst. apply IH in E.
      destruct E as (m & rest & E). now exists (String c m), rest.
    + intros H. now exists "", (String c s).
Qed.

(** A successful match ends in a successful call of the continuation, with
    groups that differ from the initial ones only at the names of the
    regex. *)
Lemma rmatch_inv r : forall s g (k : string -> string -> groups -> option R) res,
  rmatch r s g k = Some res ->
  exists m rest g',
    k m rest g' = Some res
    /\ forall n, ~ In n (names r) -> group n g' = group n g.
Proof.
  induction r as [|p|r1 IH1 r2 IH2|r1 IH1 r2 IH2|p|name r1 IH1];
    intros s g k res; cbn [rmatch names].
  - intros H. now exists "", s, g.
  - destruct s as [|c s]; [discriminate|].
    destruct (p c); [|discriminate]. intros H. now exists (String c ""), s, g.
  - intros H. apply IH1 in H. destruct H as (m1 & s1 & g1 & H & G1).
    apply IH2 in H. destruct H as (m2 & s2 & g2 & H & G2).
    exists (m1 ++ m2), s2, g2. split; [exact H|].
    intros n Hn. rewrite G2, G1; [reflexivity|..];
      intros Hin; apply Hn, in_or_app; tauto.
  - destruct (rmatch r1 s g k) eqn:E.
    + intros H. inversion H; subst. apply IH1 in E.
      destruct E as (m & rest & g' & E & G). exists m, rest, g'.
      split; [exact E|]. intros n Hn. apply G. intros Hin.
      apply Hn, in_or_app. tauto.
    + intros H. apply IH2 in H.
      destruct H as (m & rest & g' & E' & G). exists m, rest, g'.
      split; [exact E'|]. intros n Hn. apply G. intros Hin.
      apply Hn, in_or_app. tauto.
  - intros H. apply star_inv in H. destruct H as (m & rest & H).
    now exists m, rest, g.
  - intros H. apply IH1 in H. destruct H as (m & rest & g' & H & G).
    exists m, rest, ((name, m) :: g'). split; [exact H|].
    intros n Hn. cbn [group].
    destruct (String.eqb name n) eqn:En.
    + apply String.eqb_eq in En. subst. exfalso. apply Hn. now left.
    + apply G. intros Hin. apply Hn. now right.
Qed.
End Inversion.

Lemma match_groups r s m rest g n :
  match_ r s = Some (m, rest, g) -> ~ In n (names r) -> group n g = None.
Proof.
  unfold match_. intros H Hn. apply rmatch_inv in H.
  destruct H as (m' & rest' & g' & H & G). inversion H; subst.
  now rewrite (G n Hn).
Qed.

(** *** Letter case *)

Lemma in_all_chars c : In c all_chars.
Proof.
  unfold all_chars. rewrite <- (ascii_nat_embedding c).
  apply in_map, in_seq. pose proof (nat_ascii_bounded c). lia.
Qed.

Lemma blind_class_spec p c : blind_class p = true -> p (lower_char c) = p c.
Proof.
  unfold blind_class. rewrite forallb_forall. intros H.
  apply eqb_prop, H, in_all_chars.
Qed.

Lemma lower_app s t : lower (s ++ t) = lower s ++ lower t.
Proof. induction s as [|c s IH]; cbn; [reflexivity|now rewrite IH]. Qed.

(** A fact about every character, from a check of all 256. *)
Lemma all_chars_spec (P : ascii -> bool) c :
  forallb P all_chars = true -> P c = true.
Proof. rewrite forallb_forall. intros H. apply H, in_all_chars. Qed.

Lemma lower_char_idem c : lower_char (lower_char c) = lower_char c.
Proof.
  apply Ascii.eqb_eq.
  apply (all_chars_spec
           (fun c => Ascii.eqb (lower_char (lower_char c)) (lower_char c))).
  vm_compute. reflexivity.
Qed.

Lemma lower_idem s : lower (lower s) = lower s.
Proof.
  induction s as [|c s IH]; cbn [lower]; [reflexivity|].
  now rewrite lower_char_idem, IH.
Qed.

Lemma is_space_lower c : is_space (lower_char c) = is_space c.
Proof.
  apply eqb_prop.
  apply (all_chars_spec
           (fun c => Bool.eqb (is_space (lower_char c)) (is_space c))).
  vm_compute. reflexivity.
Qed.

Lemma is_digit_lower c : is_digit (lower_char c) = is_digit c.
Proof.
  apply eqb_prop.
  apply (all_chars_spec
           (fun c => Bool.eqb (is_digit (lower_char c)) (is_digit c))).
  vm_compute. reflexivity.
Qed.

Lemma digit_val_lower c : is_digit c = true -> lower_char c = c.
Proof.
  intros H. apply Ascii.eqb_eq.
  pose proof (all_chars_spec
    (fun c => implb (is_digit c) (Ascii.eqb (lower_char c) c)) c
    ltac:(vm_compute; reflexivity)) as A.
  cbn beta in A. now rewrite H in A.
Qed.

Lemma is_empty_lower s : is_empty (lower s) = is_empty s.
Proof. now destruct s. Qed.

Lemma lstrip_lower s : lstrip (lower s) = lower (lstrip s).
Proof.
  induction s as [|c s IH]; cbn [lower lstrip]; [reflexivity|].
  rewrite is_space_lower. now destruct (is_space c).
Qed.

Lemma rstrip_lower s : rstrip (lower s) = lower (rstrip s).
Proof.
  induction s as [|c s IH]; cbn [lower rstrip]; [reflexivity|].
  rewrite IH, is_empty_lower, is_space_lower.
  now destruct (is_empty (rstrip s) && is_space c).
Qed.

Lemma strip_lower s : strip (lower s) = lower (strip s).
Proof. unfold strip. now rewrite lstrip_lower, rstrip_lower. Qed.

Lemma int_digits_lower s : forall acc,
  int_digits acc (lower s) = int_digits acc s.
Proof.
  induction s as [|c s IH]; intros acc; cbn [lower int_digits]; [reflexivity|].
  rewrite is_digit_lower. destruct (is_digit c) eqn:E; [|reflexivity].
  now rewrite (digit_val_lower c E), IH.
Qed.

Lemma int_of_lower s : int_of (lower s) = int_of s.
Proof.
  unfold int_of. rewrite strip_lower.
  destruct (strip s) as [|c t] eqn:E; [reflexivity|].
  rewrite <- (int_digits_lower (String c t) 0). reflexivity.
Qed.

Section Case.
Context {R1 R2 : Type}.
Variable f : R2 -> R1.

Lemma star_lower p : blind_class p = true ->
  forall s (k1 : string -> string -> option R1)
         (k2 : string -> string -> option R2),
    (forall m rest, k1 (lower m) (lower rest) = option_map f (k2 m rest)) ->
    star p (lower s) k1 = option_map f (star p s k2).
Proof.
  intros Hp. induction s as [|c s IH]; intros k1 k2 Hk; cbn [star lower].
  - apply (Hk "" "").
  - rewrite (blind_class_spec p c Hp). destruct (p c); [|apply (Hk "" (String c s))].
    rewrite (IH (fun m rest => k1 (String (lower_char c) m) rest)
                (fun m rest => k2 (String c m) rest)).
    + destruct (star p s _); [reflexivity|]. apply (Hk "" (String c s)).
    + intros m rest. apply (Hk (String c m) rest).
Qed.

End Case.

Lemma rmatch_lower {R1 R2 : Type} (f : R2 -> R1) r : blind r = true ->
  forall s g (k1 : string -> string -> groups -> option R1)
         (k2 : string -> string -> groups -> option R2),
    (forall m rest g', k1 (lower m) (lower rest) (lower_groups g')
                       = option_map f (k2 m rest g')) ->
    rmatch r (lower s) (lower_groups g) k1 = option_map f (rmatch r s g k2).
Proof.
  induction r as [|p|r1 IH1 r2 IH2|r1 IH1 r2 IH2|p|name r1 IH1];
    cbn [blind]; intros Hb s g k1 k2 Hk; cbn [rmatch].
  - apply (Hk "" s g).
  - destruct s as [|c s]; cbn [lower]; [reflexivity|].
    rewrite (blind_class_spec p c Hb). destruct (p c); [|reflexivity].
    apply (Hk (String c "") s g).
  - apply andb_true_iff in Hb. destruct Hb as (H1 & H2).
    apply (IH1 H1). intros m1 s1 g1. apply (IH2 H2). intros m2 s2 g2.
    rewrite <- lower_app. apply Hk.
  - apply andb_true_iff in Hb. destruct Hb as (H1 & H2).
    rewrite (IH1 H1 s g k1 k2 Hk), (IH2 H2 s g k1 k2 Hk).
    now destruct (rmatch r1 s g k2).
  - apply (star_lower f p Hb). intros m rest. apply Hk.
  - apply (IH1 Hb). intros m s1 g1. apply (Hk m s1 ((name, m) :: g1)).
Qed.

Lemma match_lower r s : blind r = true ->
  match_ r (lower s) = option_map lower_result (match_ r s).
Proof.
  intros Hb. unfold match_.
  apply (rmatch_lower lower_result r Hb s []). reflexivity.
Qed.

Lemma group_lower n g :
  group n (lower_groups g) = option_map lower (group n g).
Proof.
  induction g as [|[n' v] g IH]; cbn [lower_groups map group]; [reflexivity|].
  destruct (String.eqb n' n); [reflexivity|exact IH].
Qed.

End RegexFacts.

(* ================================================================= *)
(** ** Dates: letter case, the dates of the command line, the dates of the
       output *)

Module DateFacts.
Import Str Re Datetime DateUtils Props CalendarTerms RegexTerms.
Import DatetimeFacts DateUtilsFacts StrptimeFacts RoundTrip RegexFacts.

Lemma blind_class_intro p :
  (forall c, p (lower_char c) = p c) -> blind_class p = true.
Proof.
  intros H. unfold blind_class. apply forallb_forall. intros c _.
  rewrite H. apply eqb_reflx.
Qed.

Lemma blind_chr_i c : blind (chr_i c) = true.
Proof.
  apply blind_class_intro. intros x. now rewrite lower_char_idem.
Qed.

Lemma blind_lit_i s : blind (lit_i s) = true.
Proof.
  induction s as [|c s IH]; [reflexivity|].
  cbn [lit_i blind]. fold (chr_i c). now rewrite blind_chr_i, IH.
Qed.

Lemma blind_alts rs : forallb blind rs = true -> blind (alts rs) = true.
Proof.
  induction rs as [|r rs IH]; [reflexivity|].
  cbn [forallb]. rewrite andb_true_iff. intros (Hr & Hrs).
  destruct rs as [|r' rs']; [exact Hr|].
  change (alts (r :: r' :: rs')) with (Alt r (alts (r' :: rs'))).
  cbn [blind]. now rewrite Hr, (IH Hrs).
Qed.

Lemma blind_seqToRE l name : blind (seqToRE l name) = true.
Proof.
  unfold seqToRE. cbn [blind]. apply blind_alts, forallb_forall.
  intros r Hr. apply in_map_iff in Hr. destruct Hr as (s & <- & _).
  apply blind_lit_i.
Qed.

Lemma blind_ws : blind ws = true.
Proof.
  unfold ws, plus. cbn [blind].
  now rewrite (blind_class_intro _ is_space_lower).
Qed.

Lemma blind_digits :
  blind re_Y = true /\ blind re_m = true /\ blind re_d = true
  /\ blind re_H = true /\ blind re_M = true /\ blind re_S = true.
Proof. vm_compute. repeat split. Qed.

Lemma blind_cat r1 r2 :
  blind r1 = true -> blind r2 = true -> blind (Cat r1 r2) = true.
Proof. intros H1 H2. cbn [blind]. now rewrite H1, H2. Qed.

Lemma blind_eps : blind Eps = true.
Proof. reflexivity. Qed.

Lemma blind_patterns :
  blind P1 = true /\ blind P2 = true /\ blind P3 = true /\ blind P4 = true
  /\ blind P5 = true /\ blind P6 = true /\ blind P7 = true /\ blind P8 = true.
Proof.
  destruct blind_digits as (BY & Bm & Bd & BH & BM & BS).
  pose proof blind_ws as Bw.
  pose proof (blind_seqToRE (tl f_month) "B" : blind re_B = true) as BB.
  pose proof (blind_seqToRE (tl a_month) "b" : blind re_b = true) as Bb.
  unfold P1, P2, P3, P4, P5, P6, P7, P8.
  repeat apply conj;
    repeat match goal with
           | |- blind (Cat _ _) = true => apply blind_cat
           | |- blind (chr_i _) = true => apply blind_chr_i
           | |- blind Eps = true => exact blind_eps
           | |- blind re_Y = true => exact BY
           | |- blind re_m = true => exact Bm
           | |- blind re_d = true => exact Bd
           | |- blind re_H = true => exact BH
           | |- blind re_M = true => exact BM
           | |- blind re_S = true => exact BS
           | |- blind re_B = true => exact BB
           | |- blind re_b = true => exact Bb
           | |- blind ws = true => exact Bw
           end.
Qed.

Lemma strptime_lower fmt r s :
  pattern fmt = Some r -> blind r = true ->
  strptime (lower s) fmt = strptime s fmt.
Proof.
  intros Ep Hb. unfold strptime. rewrite Ep. cbn [opt_bind].
  rewrite (match_lower r s Hb).
  destruct (match_ r s) as [[[m rest] g]|]; [|reflexivity].
  cbn [option_map opt_bind lower_result]. unfold truthy.
  rewrite is_empty_lower. destruct (is_empty rest); [|reflexivity].
  cbn [negb]. unfold int_group. rewrite !group_lower.
  destruct (group "Y" g), (group "B" g), (group "b" g), (group "m" g),
    (group "d" g), (group "H" g), (group "M" g), (group "S" g);
    cbn [option_map]; rewrite ?int_of_lower, ?lower_idem; reflexivity.
Qed.

Lemma try_formats_lower s :
  try_formats (lower s) default_formats = try_formats s default_formats.
Proof.
  destruct patterns as (E1 & E2 & E3 & E4 & E5 & E6 & E7 & E8).
  destruct blind_patterns as (B1 & B2 & B3 & B4 & B5 & B6 & B7 & B8).
  unfold default_formats. cbn [try_formats]. rewrite strip_lower.
  rewrite (strptime_lower _ _ _ E1 B1), (strptime_lower _ _ _ E2 B2),
    (strptime_lower _ _ _ E3 B3), (strptime_lower _ _ _ E4 B4),
    (strptime_lower _ _ _ E5 B5), (strptime_lower _ _ _ E6 B6),
    (strptime_lower _ _ _ E7 B7), (strptime_lower _ _ _ E8 B8).
  reflexivity.
Qed.

(** X5. With the default formats [parse_date] does not tell letters of
    different case apart: two strings with the same lower-case form are
    read as the same date, or are both rejected. *)
Theorem parse_date_ignores_letter_case (s t : string) :
  lower s = lower t -> parse_date s None = parse_date t None.
Proof.
  intros E. unfold parse_date.
  rewrite <- (try_formats_lower s), <- (try_formats_lower t). now rewrite E.
Qed.

Lemma parse_date_ignores_letter_case_witness :
  parse_date "MARCH 5, 2024" None = parse_date "march 5, 2024" None.
Proof.
  apply (parse_date_ignores_letter_case "MARCH 5, 2024" "march 5, 2024").
  reflexivity.
Defined.

(** *** [validate_dates] *)

Lemma strptime_iso_midnight s d :
  strptime s "%Y-%m-%d" = Some d -> midnight d.
Proof.
  unfold strptime. destruct patterns as (E1 & _). rewrite E1.
  cbn [opt_bind].
  destruct (match_ P1 s) as [[[m rest] g]|] eqn:E; [|discriminate].
  cbn [opt_bind].
  assert (NB : group "B" g = None)
    by (apply (match_groups _ _ _ _ _ _ E); cbn; intros [H|[H|[H|[]]]]; discriminate H).
  assert (Nb : group "b" g = None)
    by (apply (match_groups _ _ _ _ _ _ E); cbn; intros [H|[H|[H|[]]]]; discriminate H).
  assert (NH : group "H" g = None)
    by (apply (match_groups _ _ _ _ _ _ E); cbn; intros [H|[H|[H|[]]]]; discriminate H).
  assert (NM : group "M" g = None)
    by (apply (match_groups _ _ _ _ _ _ E); cbn; intros [H|[H|[H|[]]]]; discriminate H).
  assert (NS : group "S" g = None)
    by (apply (match_groups _ _ _ _ _ _ E); cbn; intros [H|[H|[H|[]]]]; discriminate H).
  destruct (truthy rest); cbv iota; [discriminate|].
  unfold int_group. rewrite NB, Nb, NH, NM, NS.
  destruct (match group "Y" g with
            | Some v => option_map Some (int_of v)
            | None => Some None
            end) as [yr|]; [|discriminate].
  cbn [opt_bind].
  destruct (match group "m" g with Some v => int_of v | None => Some 1 end)
    as [mo|]; [|discriminate].
  cbn [opt_bind].
  destruct (match group "d" g with Some v => int_of v | None => Some 1 end)
    as [dy|]; [|discriminate].
  cbn [opt_bind].
  destruct (valid _); [|discriminate].
  intros H. inversion H; subst. repeat split.
Qed.

Lemma not_gtb_leb a b : gtb a b = false -> leb a b = true.
Proof.
  unfold gtb, ltb, leb. rewrite (cmp_antisym a b).
  now destruct (cmp a b).
Qed.

Lemma validate_dates_parts start_date_str end_date_str start_date end_date :
  Main.validate_dates start_date_str end_date_str = Some (start_date, end_date) ->
  strptime start_date_str "%Y-%m-%d" = Some start_date
  /\ strptime end_date_str "%Y-%m-%d" = Some end_date
  /\ gtb start_date end_date = false.
Proof.
  unfold Main.validate_dates.
  destruct (strptime start_date_str _) as [a|]; [|discriminate].
  destruct (strptime end_date_str _) as [b|]; [|discriminate].
  destruct (gtb a b) eqn:Eg; [discriminate|].
  intros H. inversion H; subst. auto.
Qed.

(** X6. What [validate_dates] returns are two datetimes the constructor
    accepts, both at midnight, the first not after the second. *)
Theorem validate_dates_gives_ordered_midnights
        (start_date_str end_date_str : string) (start_date end_date : datetime) :
  Main.validate_dates start_date_str end_date_str = Some (start_date, end_date) ->
  valid start_date = true /\ valid end_date = true
  /\ midnight start_date /\ midnight end_date
  /\ leb start_date end_date = true.
Proof.
  intros H. destruct (validate_dates_parts _ _ _ _ H) as (Ea & Eb & Eg).
  split; [exact (strptime_valid _ _ _ Ea)|].
  split; [exact (strptime_valid _ _ _ Eb)|].
  split; [exact (strptime_iso_midnight _ _ Ea)|].
  split; [exact (strptime_iso_midnight _ _ Eb)|].
  exact (not_gtb_leb _ _ Eg).
Qed.

Lemma validate_dates_gives_ordered_midnights_witness :
  valid jan1 = true /\ valid jun1 = true /\ midnight jan1 /\ midnight jun1
  /\ leb jan1 jun1 = true.
Proof.
  apply (validate_dates_gives_ordered_midnights "2024-01-01" "2024-06-01").
  vm_compute. reflexivity.
Defined.

(** X7. On two dates written as YYYY-MM-DD, [validate_dates] returns their
    midnights when the first is not after the second, and fails
    otherwise. *)
Theorem validate_dates_on_iso_dates (y1 m1 d1 y2 m2 d2 : Z) :
  valid_date y1 m1 d1 = true -> valid_date y2 m2 d2 = true ->
  Main.validate_dates (iso y1 m1 d1) (iso y2 m2 d2)
  = if gtb (mkdt y1 m1 d1 0 0 0) (mkdt y2 m2 d2 0 0 0) then None
    else Some (mkdt y1 m1 d1 0 0 0, mkdt y2 m2 d2 0 0 0).
Proof.
  intros H1 H2. unfold Main.validate_dates.
  now rewrite (strptime_1 _ _ _ H1), (strptime_1 _ _ _ H2).
Qed.

Lemma validate_dates_on_iso_dates_witness :
  Main.validate_dates (iso 2024 6 1) (iso 2024 1 1)
  = if gtb (mkdt 2024 6 1 0 0 0) (mkdt 2024 1 1 0 0 0) then None
    else Some (mkdt 2024 6 1 0 0 0, mkdt 2024 1 1 0 0 0).
Proof.
  apply (validate_dates_on_iso_dates 2024 6 1 2024 1 1); reflexivity.
Defined.

(** *** [format_review_date] *)

Lemma format_parsed s d :
  parse_date s None = Some d ->
  Main.format_review_date s = iso (year d) (month d) (day d).
Proof. unfold Main.format_review_date. now intros ->. Qed.

(** X8. [format_review_date] is idempotent: a date it has written is left
    as it is by a second pass, and a string it cannot read is returned
    unchanged. *)
Theorem format_review_date_idempotent (review_date_str : string) :
  Main.format_review_date (Main.format_review_date review_date_str)
  = Main.format_review_date review_date_str.
Proof.
  unfold Main.format_review_date at 2 3.
  destruct (parse_date review_date_str None) as [d|] eqn:E.
  - pose proof (parse_date_valid _ _ _ E) as Hv.
    destruct (valid_parts d Hv) as (Hd & _).
    change (strftime d "%Y-%m-%d") with (iso (year d) (month d) (day d)).
    unfold Main.format_review_date. now rewrite (parse_iso _ _ _ Hd).
  - unfold Main.format_review_date. now rewrite E.
Qed.

End DateFacts.

(* ================================================================= *)
(** ** The two passes over a page and what the loop accumulates *)

Module PassFacts.
Import Bs4 Datetime DateUtils BaseScraper Props Terms DatetimeFacts DateUtilsFacts.

Section Pass.
Variable parse_review : node -> option review.
Variables start_date end_date : datetime.

Local Abbreviation old_ := (too_old start_date).
Local Abbreviation ok_ := (accepted start_date end_date).

Lemma accepted_not_old r : ok_ r = true -> old_ r = false.
Proof.
  unfold accepted, too_old. destruct (date_read r) as [d|]; [|reflexivity].
  cbn [in_range]. intros E.
  pose proof (stop_excludes_range d start_date end_date) as H.
  now rewrite E, andb_true_r in H.
Qed.

Lemma scan_json_filter json_reviews : forall reviews,
  scan_json start_date end_date json_reviews reviews
  = ((reviews ++ filter ok_ (before_first old_ json_reviews))%list,
     existsb old_ json_reviews).
Proof.
  induction json_reviews as [|j js IH]; intros reviews;
    cbn [scan_json before_first filter existsb].
  - now rewrite app_nil_r.
  - fold (date_read j). fold (ok_ j). fold (old_ j).
    destruct (ok_ j) eqn:Ek.
    + rewrite (accepted_not_old _ Ek). cbn [filter orb]. rewrite Ek, IH.
      now rewrite <- app_assoc.
    + destruct (old_ j) eqn:Eo; cbn [filter orb].
      * now rewrite app_nil_r.
      * now rewrite Ek, IH.
Qed.

Lemma scan_elements_filter review_elements : forall reviews,
  scan_elements parse_review start_date end_date review_elements reviews
  = ((reviews ++ filter ok_ (before_first old_ (parsed parse_review
                                                     review_elements)))%list,
     existsb old_ (parsed parse_review review_elements)).
Proof.
  induction review_elements as [|x xs IH]; intros reviews;
    cbn [scan_elements parsed flat_map before_first filter existsb].
  - now rewrite app_nil_r.
  - fold (parsed parse_review xs).
    destruct (parse_review x) as [r|]; cbn [app]; [|apply IH].
    cbn [before_first existsb].
    fold (date_read r). fold (ok_ r). fold (old_ r).
    destruct (old_ r) eqn:Eo; cbn [filter orb].
    + now rewrite app_nil_r.
    + destruct (ok_ r) eqn:Ek; rewrite IH; [|reflexivity].
      now rewrite <- app_assoc.
Qed.

(** X1. The pass over the elements of a page keeps, in order, the records
    whose date parses and lies in the range, among those met before the
    first record whose date parses and is before the start date; the page
    stops the loop exactly when there is such a record.  Records whose date
    does not parse or is after the end date are passed over without
    stopping. *)
Theorem scan_elements_keeps_accepted_before_first_old
        (review_elements : list node) (reviews : list review) :
  scan_elements parse_review start_date end_date review_elements reviews
  = ((reviews ++ filter ok_ (before_first old_ (parsed parse_review
                                                     review_elements)))%list,
     existsb old_ (parsed parse_review review_elements)).
Proof.
  revert reviews.
  induction review_elements as [|x xs IH]; intros reviews;
    cbn [scan_elements parsed flat_map before_first filter existsb].
  - now rewrite app_nil_r.
  - fold (parsed parse_review xs).
    destruct (parse_review x) as [r|]; cbn [app]; [|apply IH].
    cbn [before_first existsb].
    fold (date_read r). fold (ok_ r). fold (old_ r).
    destruct (old_ r) eqn:Eo; cbn [filter orb].
    + now rewrite app_nil_r.
    + destruct (ok_ r) eqn:Ek; rewrite IH; [|reflexivity].
      now rewrite <- app_assoc.
Qed.

(** X2. The pass over the embedded records tests the range first and the
    stop second, the pass over the elements the other way round; on the
    same records both give the same list and the same decision. *)
Theorem scan_json_agrees_with_scan_elements
        (review_elements : list node) (reviews : list review) :
  scan_json start_date end_date (parsed parse_review review_elements) reviews
  = scan_elements parse_review start_date end_date review_elements reviews.
Proof.
  rewrite scan_json_filter.
  rewrite scan_elements_filter.
  reflexivity.
Qed.

End Pass.

Section Loop.
Variable World : Type.
Variable get_soup : string -> World -> option node * World.
Variable json : Type.
Variable json_items : node -> list json.
Variable parse_json_review : json -> option review.
Variable get_review_elements : node -> list node.
Variable parse_review : node -> option review.
Variable get_next_page_url : node -> string -> option string.
Variables start_date end_date : datetime.

Local Abbreviation step_ :=
  (page_step World get_soup json json_items parse_json_review
             get_review_elements parse_review get_next_page_url
             start_date end_date).
Local Abbreviation loop_ :=
  (scrape_loop World get_soup json json_items parse_json_review
               get_review_elements parse_review get_next_page_url
               start_date end_date).
Local Abbreviation ok_ := (accepted start_date end_date).

Local Abbreviation grows := (@Terms.grows World start_date end_date).

Lemma grows_refl st : grows st st.
Proof. exists []. now rewrite app_nil_r. Qed.

Lemma grows_trans st1 st2 st3 : grows st1 st2 -> grows st2 st3 -> grows st1 st3.
Proof.
  intros (a & Ea & Fa) (b & Eb & Fb). exists (a ++ b)%list.
  rewrite Eb, Ea, app_assoc. split; [reflexivity|].
  apply Forall_app. now split.
Qed.

Lemma filter_accepted l : Forall (fun r => ok_ r = true) (filter ok_ l).
Proof. apply Forall_forall. intros r Hr. now apply filter_In in Hr. Qed.

Lemma step_grows st : grows st (state_of (step_ st)).
Proof.
  assert (same : forall u' p w' f,
             grows st (mkstate u' p (reviews st) w' f)).
  { intros. exists []. cbn [reviews]. now rewrite app_nil_r. }
  unfold page_step.
  destruct (url st) as [u|]; [|apply grows_refl].
  destruct (negb (Str.truthy u)); [apply grows_refl|].
  destruct (get_soup u (world st)) as [[soup|] w]; [|apply same].
  rewrite scan_json_filter.
  set (js := extract_reviews_from_json json json_items parse_json_review soup).
  destruct (existsb _ js).
  { eexists. split; [reflexivity|apply filter_accepted]. }
  destruct (is_nil _ && is_nil js).
  { eexists. split; [reflexivity|apply filter_accepted]. }
  rewrite scan_elements_filter.
  assert (G : forall u' p,
             grows st (mkstate u' p
                         ((reviews st ++ filter ok_ (before_first (too_old start_date) js))
                          ++ filter ok_ (before_first (too_old start_date)
                               (parsed parse_review
                                  (page_elements get_review_elements soup js))))%list
                         w (fetched st ++ [u])%list)).
  { intros u' p. eexists. cbn [reviews]. rewrite <- app_assoc.
    split; [reflexivity|]. apply Forall_app. split; apply filter_accepted. }
  destruct (existsb _ (parsed _ _)); [apply G|].
  destruct (page_num st + 1 >? 100); apply G.
Qed.

Lemma loop_grows fuel : forall st e st',
  loop_ fuel st = Some (e, st') -> grows st st'.
Proof.
  induction fuel as [|fuel IH]; intros st e st'; cbn [scrape_loop];
    [discriminate|].
  pose proof (step_grows st) as G.
  destruct (step_ st) as [st1|e1 st1]; cbn [state_of] in G.
  - intros E. exact (grows_trans _ _ _ G (IH _ _ _ E)).
  - intros E. inversion E; subst. exact G.
Qed.

(** X3. Whatever pages the loop visits and however it ends, it only adds
    to the list of reviews it started with, and every review it adds has a
    date that [parse_date] reads and [is_date_in_range] accepts. *)
Theorem scrape_loop_adds_only_dates_in_range
        (fuel : nat) (st : state World) (e : exit) (st' : state World) :
  loop_ fuel st = Some (e, st') ->
  exists added,
    reviews st' = (reviews st ++ added)%list
    /\ Forall (fun r => exists d,
                   parse_date (review_date r) None = Some d
                   /\ is_date_in_range d start_date end_date = true) added.
Proof.
  intros E. destruct (loop_grows _ _ _ _ E) as (added & Ea & Fa).
  exists added. split; [exact Ea|].
  eapply Forall_impl; [|exact Fa]. cbn beta. intros r.
  unfold accepted, date_read. destruct (parse_date _ _) as [d|]; cbn [in_range].
  - intros H. now exists d.
  - discriminate.
Qed.

End Loop.

Section BaseJson.
Variable World : Type.
Variable get_soup : string -> World -> option node * World.
Variable json : Type.
Variable json_items : node -> list json.
Variable get_review_elements : node -> list node.
Variable parse_review : node -> option review.
Variable get_next_page_url : node -> string -> option string.
Variables start_date end_date : datetime.

Local Abbreviation step_ :=
  (page_step World get_soup json json_items base_parse_json_review
             get_review_elements parse_review get_next_page_url
             start_date end_date).
Local Abbreviation loop_ :=
  (scrape_loop World get_soup json json_items base_parse_json_review
               get_review_elements parse_review get_next_page_url
               start_date end_date).

Lemma base_json_nil soup :
  extract_reviews_from_json json json_items base_parse_json_review soup = [].
Proof.
  unfold extract_reviews_from_json, base_parse_json_review.
  induction (json_items soup) as [|j js IH]; [reflexivity|exact IH].
Qed.

Lemma step_not_json_stop st e st' :
  step_ st = Halt e st' -> In e other_exits.
Proof.
  unfold page_step.
  destruct (url st) as [u|]; [|intros E; inversion E; cbn; tauto].
  destruct (negb (Str.truthy u)); [intros E; inversion E; cbn; tauto|].
  destruct (get_soup u (world st)) as [[soup|] w];
    [|intros E; inversion E; cbn; tauto].
  rewrite base_json_nil. cbn [scan_json].
  destruct (is_nil _ && is_nil _); [intros E; inversion E; cbn; tauto|].
  destruct (scan_elements _ _ _ _ _) as [reviews2 [|]];
    [intros E; inversion E; cbn; tauto|].
  destruct (page_num st + 1 >? 100); intros E; inversion E; cbn; tauto.
Qed.


(** X4. The base class reads no review out of embedded JSON
    ([parse_json_review] returns [None] and no adapter overrides it), so the
    loop never leaves through the [return] of the embedded-JSON pass: that
    early return, the only exit that skips the sample data, is dead code. *)
Theorem base_json_pass_never_returns
        (fuel : nat) (st : state World) (e : exit) (st' : state World) :
  loop_ fuel st = Some (e, st') -> In e other_exits.
Proof.
  revert st. induction fuel as [|fuel IH]; intros st; cbn [scrape_loop];
    [discriminate|].
  destruct (step_ st) as [st1|e1 st1] eqn:Es.
  - apply IH.
  - intros E. inversion E; subst. exact (step_not_json_stop _ _ _ Es).
Qed.

End BaseJson.

Lemma scrape_loop_adds_only_dates_in_range_witness :
  exists added,
    [mkreview "Works well" "" "2024-03-05" "" "" "g2"] = ([] ++ added)%list
    /\ Forall (fun r => exists d,
                   parse_date (review_date r) None = Some d
                   /\ is_date_in_range d jan1 jun1 = true) added.
Proof.
  apply (scrape_loop_adds_only_dates_in_range unit two_pages unit
           (fun _ => []) base_parse_json_review children_of
           (G2.parse_review (fun _ => "")) (fun _ _ => Some notion_page_2)
           jan1 jun1 100 (initial notion_url tt) DateStop
           (mkstate (Some notion_page_2) 2
                    [mkreview "Works well" "" "2024-03-05" "" "" "g2"] tt
                    [notion_url; notion_page_2])).
  vm_compute. reflexivity.
Defined.

Lemma base_json_pass_never_returns_witness : In DateStop other_exits.
Proof.
  apply (base_json_pass_never_returns unit two_pages unit (fun _ => [])
           children_of (G2.parse_review (fun _ => ""))
           (fun _ _ => Some notion_page_2) jan1 jun1 100
           (initial notion_url tt) DateStop
           (mkstate (Some notion_page_2) 2
                    [mkreview "Works well" "" "2024-03-05" "" "" "g2"] tt
                    [notion_url; notion_page_2])).
  vm_compute. reflexivity.
Defined.

End PassFacts.

(* ================================================================= *)
(** ** Sample data for any window *)

Module SampleWindowFacts.
Import Datetime DateUtils SampleData Props CalendarTerms Terms.
Import DatetimeFacts DateUtilsFacts StrptimeFacts RoundTrip SampleFacts CalendarFacts.

(** [d + timedelta(days=k)] is the day [k] ordinals on, at the same time. *)
Lemma add_days_spec d k :
  1 <= toordinal d + k <= MAXORDINAL ->
  exists y m dd,
    add_days d k = Some (mkdt y m dd (hour d) (minute d) (second d))
    /\ valid_date y m dd = true
    /\ ymd2ord y m dd = toordinal d + k.
Proof.
  intros H. unfold add_days. cbv zeta.
  destruct (ord2ymd_ymd2ord _ H) as (y & m & dd & E & Hv & Ho).
  rewrite E.
  replace ((0 <? toordinal d + k) && (toordinal d + k <=? MAXORDINAL))
    with true
    by (symmetry; apply andb_true_iff; split;
        [apply Z.ltb_lt|apply Z.leb_le]; lia).
  exists y, m, dd. auto.
Qed.

Lemma add_days_overflow d k :
  MAXORDINAL < toordinal d + k -> add_days d k = None.
Proof.
  intros H. unfold add_days. cbv zeta.
  replace (toordinal d + k <=? MAXORDINAL) with false
    by (symmetry; apply Z.leb_gt; lia).
  now rewrite andb_false_r.
Qed.

Lemma midnight_timestamp d : midnight d -> timestamp d = toordinal d * 86400.
Proof.
  intros (H1 & H2 & H3). unfold timestamp, seconds_of_day.
  rewrite H1, H2, H3. lia.
Qed.

Lemma seconds_of_day_bounds d : valid d = true -> 0 <= seconds_of_day d < 86400.
Proof.
  intros H. destruct (valid_bounds d H) as (_ & ? & ? & ?).
  unfold seconds_of_day. lia.
Qed.

(** [(end - start).days] for a start at midnight. *)
Lemma sub_days_midnight end_date start_date :
  valid end_date = true -> midnight start_date ->
  sub_days end_date start_date = toordinal end_date - toordinal start_date.
Proof.
  intros Hv (H1 & H2 & H3). unfold sub_days.
  pose proof (seconds_of_day_bounds _ Hv) as B.
  unfold seconds_of_day at 2. rewrite H1, H2, H3.
  replace (seconds_of_day end_date - (0 + 0 * 60 + 0 * 3600))
    with (seconds_of_day end_date) by lia.
  rewrite Z.div_small by lia. lia.
Qed.

Section Gen.
Variable Rng : Type.
Variable next : Rng -> Z * Rng.

Local Abbreviation sample_review_ := (sample_review Rng next).
Local Abbreviation sample_loop_ := (sample_loop Rng next).
Local Abbreviation generate_ := (generate_sample_reviews Rng next).

Lemma choice_in seq g : seq <> [] -> In (fst (choice Rng next seq g)) seq.
Proof.
  intros Hne. unfold choice, randbelow. destruct (next g) as [x g'].
  cbn [fst]. apply nth_In.
  assert (0 < Z.of_nat (List.length seq)).
  { destruct seq; [contradiction|cbn [List.length]; lia]. }
  pose proof (Z.mod_pos_bound x (Z.of_nat (List.length seq)) ltac:(lia)).
  lia.
Qed.

Lemma choices_rating_val g :
  In (fst (choices_rating Rng next g)) [5; 4; 3; 2; 1].
Proof.
  unfold choices_rating, random53, randbelow. destruct (next g) as [x g'].
  cbn [fst filter].
  repeat match goal with
         | |- context [if ?b then _ else _] => destruct b
         end; cbn; tauto.
Qed.

Lemma starts_with_refl s : Str.starts_with s s = true.
Proof.
  induction s as [|c s IH]; [reflexivity|].
  cbn. now rewrite Ascii.eqb_refl, IH.
Qed.

Lemma starts_with_more p s t :
  Str.starts_with p s = true -> Str.starts_with p (s ++ t) = true.
Proof.
  revert s. induction p as [|a p IH]; intros s; [reflexivity|].
  destruct s as [|b s]; [discriminate|]. cbn.
  rewrite !andb_true_iff. intros (H1 & H2). split; [exact H1|now apply IH].
Qed.

(** What one turn of the loop draws from the fixed lists, whatever the
    dates are. *)
Lemma sample_review_pools company start_date span src g r g' :
  sample_review_ company start_date span src g = Some (r, g') ->
  source r = src /\ from_pools company r.
Proof.
  unfold sample_review.
  destruct (randint Rng next 0 span g) as [k g1].
  destruct (add_days start_date k) as [d|]; [|discriminate].
  pose proof (choices_rating_val g1) as Hrate.
  destruct (choices_rating Rng next g1) as [stars g2]. cbn [fst] in Hrate.
  assert (Ht : exists pool,
             pool <> []
             /\ (if stars >=? 4 then choice Rng next positive_templates g2
                 else if stars =? 3 then choice Rng next neutral_templates g2
                      else choice Rng next negative_templates g2)
                = choice Rng next pool g2
             /\ pool = templates_for (Extract.str_of_int stars)
             /\ In (Extract.str_of_int stars) ["5"; "4"; "3"; "2"; "1"]).
  { cbn [In] in Hrate.
    destruct Hrate as [<-|[<-|[<-|[<-|[<-|[]]]]]];
      eexists; (split; [|split; [reflexivity|split; [reflexivity|]]]);
      try discriminate; cbn; tauto. }
  destruct Ht as (pool & Hne & -> & Hpool & Hin).
  pose proof (choice_in pool g2 Hne) as Htpl.
  destruct (choice Rng next pool g2) as [template g3]. cbn [fst] in Htpl.
  destruct (random_gt Rng next half g3) as [b1 g4].
  destruct (random_gt Rng next seven_tenths g4) as [b2 g5].
  destruct (random_gt Rng next six_tenths g5) as [b3 g6].
  pose proof (choice_in titles g6 ltac:(discriminate)) as Ht.
  destruct (choice Rng next titles g6) as [t g7]. cbn [fst] in Ht.
  pose proof (choice_in reviewer_names g7 ltac:(discriminate)) as Hn.
  destruct (choice Rng next reviewer_names g7) as [rv g8]. cbn [fst] in Hn.
  intros E. inversion E; subst r g'. clear E.
  split; [reflexivity|]. unfold from_pools. cbn [title reviewer rating review_text].
  split; [exact Ht|]. split; [exact Hn|]. split; [exact Hin|].
  exists template. split; [now rewrite <- Hpool|].
  destruct b1, b2, b3; repeat apply starts_with_more; apply starts_with_refl.
Qed.

Lemma sample_loop_pools company start_date span src count :
  forall reviews g rs g',
    Forall (fun r => source r = src /\ from_pools company r) reviews ->
    sample_loop_ count company start_date span src reviews g = Some (rs, g') ->
    Forall (fun r => source r = src /\ from_pools company r) rs.
Proof.
  induction count as [|n IH]; intros reviews g rs g' Hf; cbn [sample_loop].
  - intros E. now inversion E; subst.
  - destruct (sample_review_ company start_date span src g) as [[r g1]|] eqn:E;
      [|discriminate].
    apply IH. apply Forall_app. split; [exact Hf|].
    constructor; [|constructor]. exact (sample_review_pools _ _ _ _ _ _ _ E).
Qed.

Section Window.
Variables (company src : string) (start_date : datetime) (span : Z).
Hypothesis Hv : valid start_date = true.
Hypothesis Hm : midnight start_date.
Hypothesis Hs : 0 <= span.
Hypothesis Hmax : toordinal start_date + span <= MAXORDINAL.

Lemma sample_review_spec g :
  exists r g', sample_review_ company start_date span src g = Some (r, g')
               /\ sample_of start_date span src r.
Proof.
  unfold sample_review.
  pose proof (randint_range Rng next 0 span g Hs) as Hr.
  destruct (randint Rng next 0 span g) as [k g1]. cbn [fst] in Hr.
  destruct (valid_parts _ Hv) as (Hvd & _).
  pose proof (ymd2ord_bounds _ _ _ Hvd) as Ho. fold (toordinal start_date) in Ho.
  destruct (add_days_spec start_date k ltac:(lia)) as (y & m & dd & E & Hd & _).
  rewrite E. destruct Hm as (H1 & H2 & H3). rewrite H1, H2, H3 in *.
  destruct (choices_rating Rng next g1) as [rating g2].
  destruct (if rating >=? 4 then choice Rng next positive_templates g2
            else if rating =? 3 then choice Rng next neutral_templates g2
                 else choice Rng next negative_templates g2) as [template g3].
  destruct (random_gt Rng next half g3) as [b1 g4].
  destruct (random_gt Rng next seven_tenths g4) as [b2 g5].
  destruct (random_gt Rng next six_tenths g5) as [b3 g6].
  destruct (choice Rng next titles g6) as [t g7].
  destruct (choice Rng next reviewer_names g7) as [rv g8].
  eexists. eexists. split; [reflexivity|].
  split; [reflexivity|]. exists k, (mkdt y m dd 0 0 0).
  cbn [review_date]. repeat split; try assumption; try lia.
  change (strftime (mkdt y m dd 0 0 0) "%Y-%m-%d") with (iso y m dd).
  apply parse_iso. exact Hd.
Qed.

Lemma sample_loop_spec count : forall reviews g,
  Forall (sample_of start_date span src) reviews ->
  exists rs g',
    sample_loop_ count company start_date span src reviews g = Some (rs, g')
    /\ Forall (sample_of start_date span src) rs
    /\ List.length rs = (List.length reviews + count)%nat.
Proof.
  induction count as [|n IH]; intros reviews g Hf; cbn [sample_loop].
  - exists reviews, g. repeat split; [assumption|lia].
  - destruct (sample_review_spec g) as (r & g' & E & Hw). rewrite E.
    destruct (IH (reviews ++ [r])%list g') as (rs & g'' & A & B & C).
    { apply Forall_app. split; [assumption|]. constructor; [assumption|constructor]. }
    exists rs, g''. repeat split; [assumption|assumption|].
    rewrite C, length_app. cbn. lia.
Qed.

End Window.

(** A sample dated at most [sub_days end start] days after a midnight
    start is in the range. *)
Lemma sample_in_range start_date end_date span src r :
  valid start_date = true -> midnight start_date -> valid end_date = true ->
  span <= sub_days end_date start_date ->
  sample_of start_date span src r ->
  exists d, parse_date (review_date r) None = Some d
            /\ is_date_in_range d start_date end_date = true.
Proof.
  intros Hv Hm He Hspan (_ & k & d & Hk & Ha & _ & Hp).
  exists d. split; [exact Hp|].
  pose proof (parse_date_valid _ _ _ Hp) as Hd.
  rewrite (sub_days_midnight _ _ He Hm) in Hspan.
  unfold add_days in Ha. cbv zeta in Ha.
  destruct ((0 <? toordinal start_date + k)
            && (toordinal start_date + k <=? MAXORDINAL)) eqn:Eb;
    [|discriminate].
  apply andb_true_iff in Eb. destruct Eb as (B1 & B2).
  apply Z.ltb_lt in B1. apply Z.leb_le in B2.
  destruct (ord2ymd_ymd2ord (toordinal start_date + k) ltac:(lia))
    as (y & m & dd & E & _ & Ho).
  rewrite E in Ha. inversion Ha; subst d. clear Ha.
  unfold is_date_in_range. apply andb_true_iff. split.
  - apply leb_timestamp; [assumption..|].
    rewrite (midnight_timestamp _ Hm). unfold timestamp, toordinal.
    cbn [year month day]. rewrite Ho.
    pose proof (seconds_of_day_bounds _ Hd). fold (toordinal start_date). lia.
  - apply leb_timestamp; [assumption..|].
    unfold timestamp at 1. unfold toordinal at 1. cbn [year month day].
    rewrite Ho. destruct Hm as (H1 & H2 & H3).
    unfold seconds_of_day at 1. cbn [hour minute second].
    rewrite H1, H2, H3. unfold timestamp.
    pose proof (seconds_of_day_bounds _ He). lia.
Qed.

(** The call succeeds whenever the last day it may draw is a day of the
    calendar. *)
Lemma generate_spec company start_date end_date src count g :
  valid start_date = true -> midnight start_date ->
  0 <= days_range start_date end_date ->
  toordinal start_date + days_range start_date end_date <= MAXORDINAL ->
  exists rs g',
    generate_ company start_date end_date src count g = Some (rs, g')
    /\ List.length rs = Z.to_nat count
    /\ Forall (sample_of start_date (days_range start_date end_date) src) rs.
Proof.
  intros Hv Hm H0 Hmax. unfold generate_sample_reviews. cbv zeta.
  fold (days_range start_date end_date).
  destruct (sample_loop_spec company src start_date _ Hv Hm H0 Hmax
              (Z.to_nat count) [] g (Forall_nil _)) as (rs & g' & E & F & L).
  rewrite E. exists (sort_desc rs), g'.
  destruct (sort_desc_spec _ rs F) as (F' & L').
  split; [reflexivity|]. split; [now rewrite L', L|exact F'].
Qed.

Lemma days_range_nonneg start_date end_date :
  0 <= days_range start_date end_date.
Proof. unfold days_range. destruct (_ <? 1) eqn:E; [lia|]. apply Z.ltb_ge in E. lia. Qed.

(** X9. For a start at midnight and an end at least one day later,
    [generate_sample_reviews] returns [count] records of the given source,
    and the date of each, read back by [parse_date], lies between the start
    and the end. *)
Theorem generated_samples_lie_in_the_window
        (company src : string) (start_date end_date : datetime)
        (count : Z) (g : Rng) :
  valid start_date = true -> midnight start_date -> 1000 <= year start_date ->
  valid end_date = true -> 1 <= sub_days end_date start_date ->
  exists rs g',
    generate_ company start_date end_date src count g = Some (rs, g')
    /\ List.length rs = Z.to_nat count
    /\ Forall (fun r =>
                 source r = src
                 /\ exists d, parse_date (review_date r) None = Some d
                              /\ is_date_in_range d start_date end_date = true)
              rs.
Proof.
  intros Hv Hm _ He Hdays.
  assert (R : days_range start_date end_date = sub_days end_date start_date).
  { unfold days_range. destruct (_ <? 1) eqn:E; [|reflexivity].
    apply Z.ltb_lt in E. lia. }
  destruct (valid_parts _ He) as (Hed & _).
  pose proof (ymd2ord_bounds _ _ _ Hed) as Ho. fold (toordinal end_date) in Ho.
  destruct (generate_spec company start_date end_date src count g Hv Hm
              (days_range_nonneg _ _)) as (rs & g' & E & L & F).
  { rewrite R, (sub_days_midnight _ _ He Hm). lia. }
  exists rs, g'. split; [exact E|]. split; [exact L|].
  eapply Forall_impl; [|exact F]. cbn beta. intros r Hr.
  split; [exact (proj1 Hr)|].
  apply (sample_in_range start_date end_date (days_range start_date end_date)
           src r Hv Hm He); [lia|exact Hr].
Qed.

(** X10. When the end is less than one day after the start (the two are
    equal, say), the dates are spread over the 365 days after the start
    instead: each record is dated [k] days after the start for some [k]
    from 0 to 365, and only [k = 0] gives a date inside the range. *)
Theorem short_window_samples_spread_over_a_year
        (company src : string) (start_date end_date : datetime)
        (count : Z) (g : Rng) :
  valid start_date = true -> midnight start_date -> 1000 <= year start_date ->
  valid end_date = true -> sub_days end_date start_date < 1 ->
  toordinal start_date + 365 <= MAXORDINAL ->
  exists rs g',
    generate_ company start_date end_date src count g = Some (rs, g')
    /\ List.length rs = Z.to_nat count
    /\ Forall (fun r =>
                 exists k d, 0 <= k <= 365
                             /\ add_days start_date k = Some d
                             /\ parse_date (review_date r) None = Some d
                             /\ (is_date_in_range d start_date end_date = true
                                 -> k = 0))
              rs.
Proof.
  intros Hv Hm _ He Hdays Hmax.
  assert (R : days_range start_date end_date = 365).
  { unfold days_range. destruct (_ <? 1) eqn:E; [reflexivity|].
    apply Z.ltb_ge in E. lia. }
  destruct (generate_spec company start_date end_date src count g Hv Hm
              (days_range_nonneg _ _)) as (rs & g' & E & L & F).
  { rewrite R. exact Hmax. }
  exists rs, g'. split; [exact E|]. split; [exact L|].
  eapply Forall_impl; [|exact F]. cbn beta.
  intros r (_ & k & d & Hk & Ha & _ & Hp). rewrite R in Hk.
  exists k, d. split; [exact Hk|]. split; [exact Ha|]. split; [exact Hp|].
  intros Hin. unfold is_date_in_range in Hin.
  apply andb_true_iff in Hin. destruct Hin as (_ & Hle).
  pose proof (parse_date_valid _ _ _ Hp) as Hd.
  apply (leb_timestamp d end_date Hd He) in Hle.
  rewrite (sub_days_midnight _ _ He Hm) in Hdays.
  destruct (valid_parts _ Hv) as (Hvd & _).
  pose proof (ymd2ord_bounds _ _ _ Hvd) as Ho. fold (toordinal start_date) in Ho.
  destruct (add_days_spec start_date k ltac:(lia)) as (y & m & dd & E' & _ & Hord).
  rewrite E' in Ha. inversion Ha; subst d.
  unfold timestamp in Hle. unfold toordinal at 1 in Hle.
  cbn [year month day] in Hle. rewrite Hord in Hle.
  pose proof (seconds_of_day_bounds _ Hd) as B1.
  pose proof (seconds_of_day_bounds _ He) as B2. lia.
Qed.

(** X11. Whatever the dates are, every record [generate_sample_reviews]
    returns carries the given source, a title and a reviewer from the two
    fixed lists, a rating from 1 to 5 written as a string, and a text that
    begins with one of the templates for that rating (positive for 4 and 5,
    neutral for 3, negative for 1 and 2) with the company name filled
    in. *)
Theorem generated_samples_come_from_the_pools
        (company src : string) (start_date end_date : datetime)
        (count : Z) (g : Rng) (rs : list review) (g' : Rng) :
  generate_ company start_date end_date src count g = Some (rs, g') ->
  Forall (fun r => source r = src /\ from_pools company r) rs.
Proof.
  unfold generate_sample_reviews. cbv zeta.
  destruct (sample_loop_ _ _ _ _ _ _ _) as [[rs0 g0]|] eqn:E; [|discriminate].
  intros H. inversion H; subst rs g'.
  apply (sort_desc_spec _ rs0).
  exact (sample_loop_pools _ _ _ _ _ _ _ _ _ (Forall_nil _) E).
Qed.

End Gen.

Lemma generated_samples_lie_in_the_window_witness :
  exists rs g',
    generate_sample_reviews nat counter "notion" jan1 jun1 "g2" 10 0%nat
    = Some (rs, g')
    /\ List.length rs = Z.to_nat 10
    /\ Forall (fun r =>
                 source r = "g2"
                 /\ exists d, parse_date (review_date r) None = Some d
                              /\ is_date_in_range d jan1 jun1 = true)
              rs.
Proof.
  apply (generated_samples_lie_in_the_window nat counter "notion" "g2" jan1 jun1
           10 0%nat).
  - reflexivity.
  - repeat split.
  - cbn. lia.
  - reflexivity.
  - vm_compute. discriminate.
Defined.

Lemma short_window_samples_spread_over_a_year_witness :
  exists rs g',
    generate_sample_reviews nat counter "notion" jan1 jan1 "g2" 10 0%nat
    = Some (rs, g')
    /\ List.length rs = Z.to_nat 10
    /\ Forall (fun r =>
                 exists k d, 0 <= k <= 365
                             /\ add_days jan1 k = Some d
                             /\ parse_date (review_date r) None = Some d
                             /\ (is_date_in_range d jan1 jan1 = true -> k = 0))
              rs.
Proof.
  apply (short_window_samples_spread_over_a_year nat counter "notion" "g2"
           jan1 jan1 10 0%nat).
  - reflexivity.
  - repeat split.
  - cbn. lia.
  - reflexivity.
  - vm_compute. reflexivity.
  - vm_compute. discriminate.
Defined.

Lemma generated_samples_come_from_the_pools_witness :
  Forall (fun r => source r = "g2" /\ from_pools "notion" r)
         (match generate_sample_reviews nat counter "notion" jan1 jun1 "g2" 2
                  0%nat with
          | Some (rs, _) => rs
          | None => []
          end).
Proof.
  eapply (generated_samples_come_from_the_pools nat counter "notion" "g2"
            jan1 jun1 2 0%nat).
  vm_compute. reflexivity.
Defined.

End SampleWindowFacts.

(* ================================================================= *)
(** ** What [scrape] and [main] hand on *)

Module ScrapeFacts.
Import Str Bs4 Datetime DateUtils SampleData BaseScraper Props CalendarTerms Terms.
Import DatetimeFacts DateUtilsFacts StrptimeFacts RoundTrip SampleFacts LoopFacts.
Import CalendarFacts DateFacts PassFacts SampleWindowFacts.




Section Scrape.
Variable World : Type.
Variable get_soup : string -> World -> option node * World.
Variable json : Type.
Variable json_items : node -> list json.
Variable get_review_elements : node -> list node.
Variable parse_review : node -> option review.
Variable get_next_page_url : node -> string -> option string.
Variables start_date end_date : datetime.
Variable Rng : Type.
Variable next : Rng -> Z * Rng.
Variables (company company_url src : string).

Local Abbreviation loop_ :=
  (scrape_loop World get_soup json json_items base_parse_json_review
               get_review_elements parse_review get_next_page_url
               start_date end_date).
Local Abbreviation scrape_ :=
  (scrape World get_soup json json_items base_parse_json_review
          get_review_elements parse_review get_next_page_url
          start_date end_date Rng next company company_url src).




End Scrape.


Section Run.
Variable World : Type.
Variable get_soup : string -> World -> option node * World.
Variable json : Type.
Variable json_items : node -> list json.
Variable get_review_elements : node -> list node.
Variable get_next_page_url : node -> string -> option string.
Variable markup : node -> string.
Variable Rng : Type.
Variable next : Rng -> Z * Rng.

Local Abbreviation main_ :=
  (Main.main_reviews World get_soup json json_items get_review_elements
                     get_next_page_url markup Rng next).


End Run.



End ScrapeFacts.
